(** * Pandemic flu spread: the simulation engine of [src/simulation.py]

    A shallow embedding of the [Simulation] class (construction and its
    validation, the day loop, the interaction phase and the infection
    probability), and the properties the specification states about it.

    Conventions of the embedding:
    - a Python [float] is a primitive binary64 number ([PrimFloat.float]),
      with the IEEE 754 operations, comparisons and NaN of the kernel;
    - a Python [int] is a [Z]; the conversions [float(int)] and [int(float)]
      are written out, with the exceptions they raise;
    - a raised exception is a value of [exn], a method that can raise returns
      a [result];
    - a [Person] object is referred to by its position in the population
      list, so that every reader of an object sees its latest state;
    - the generator [random.Random], the statistics collector and the policy
      callables are collaborators: the first two are interfaces (classes),
      the policies are functions on the simulation object. *)

From Stdlib Require Import ZArith Floats Lia Bool List String Ascii Permutation.
Import ListNotations.

Local Open Scope Z_scope.
Set Warnings "-inexact-float".

(* ================================================================== *)
(** * Part I: definitions *)
(* ================================================================== *)

(** ** Binary64 arithmetic: the objects used to reason about rounding *)

(** Position of a remainder [r] between two multiples of [M]. *)
Definition locZ (r M : Z) : location :=
  if r =? 0 then loc_Exact else loc_Inexact (2 * r ?= M).

(** [m / 2 ^ n] rounded to the nearest integer, ties to even. *)
Definition RNE (m n : Z) : Z :=
  round_nearest_even (m / 2 ^ n) (locZ (m mod 2 ^ n) (2 ^ n)).

(** The exponent of the binary64 grid for a number of magnitude [2 ^ z]. *)
Definition fexp64 (z : Z) : Z := Z.max (z - 53) (-1074).

(** What [binary_round_aux] computes from an exact mantissa [P] and an
    exponent [E]: the rounded mantissa and its exponent. *)
Definition round_pair (P E : Z) : Z * Z :=
  let e' := fexp64 (Zdigits2 P + E) in
  let m0 := RNE P (e' - E) in
  if m0 =? 2 ^ 53 then (2 ^ 52, e' + 1) else (m0, e').

Definition pack (s : bool) (p : Z * Z) : spec_float :=
  match fst p with
  | Z0 => S754_zero s
  | Zpos m => if snd p <=? 971 then S754_finite s m (snd p) else S754_infinity s
  | Zneg _ => S754_nan
  end.

(** Value of a mantissa-exponent pair, scaled by [2 ^ 2148] so that the
    product of two binary64 numbers is an integer. *)
Definition valS (p : Z * Z) : Z := fst p * 2 ^ (snd p + 2148).

Definition canonical_pair (p : Z * Z) : Prop :=
  0 <= fst p /\ -1074 <= snd p /\
  (0 < fst p -> fexp64 (Zdigits2 (fst p) + snd p) = snd p).

Definition SFnonneg (x : spec_float) : bool := SFleb (S754_zero false) x.

(** The non-negative numbers: zeros of both signs, positive numbers, [+inf]. *)
Definition nn_class (x : spec_float) : bool :=
  match x with
  | S754_zero _ => true
  | S754_infinity s => negb s
  | S754_finite s _ _ => negb s
  | S754_nan => false
  end.

(** The scaled value of one, and a bound above every finite binary64. *)
Definition unitS : Z := 2 ^ 2148.
Definition topS : Z := 2 ^ 3172.

(** Scaled magnitude, with infinity above every finite number. *)
Definition valx (x : spec_float) : Z :=
  match x with
  | S754_zero _ => 0
  | S754_finite _ m e => valS (Zpos m, e)
  | S754_infinity _ => topS
  | S754_nan => 0
  end.

Inductive nn_view : spec_float -> Prop :=
| nn_view_zero (s : bool) : nn_view (S754_zero s)
| nn_view_inf : nn_view (S754_infinity false)
| nn_view_finite (m : positive) (e : Z) :
    canonical_pair (Zpos m, e) -> e <= 971 ->
    0 < valS (Zpos m, e) < topS ->
    nn_view (S754_finite false m e).

Definition SFone : spec_float := S754_finite false 4503599627370496 (-52).

(** An integer rounded to binary64 (to nearest, ties to even). *)
Definition Z2SF (z : Z) : spec_float := binary_normalize prec emax z 0 false.

Definition nonneg (x : float) : bool := (0 <=? x)%float.

(** Python's [0 <= x <= 1] on a float. *)
Definition in_unit (x : float) : bool := ((0 <=? x) && (x <=? 1))%float.

(** [u <= v] between non-negative numbers, or one of them is NaN: what the
    stages of a product of non-negative factors preserve. *)
Definition le_or_nan (u v : float) : Prop :=
  is_nan u = true \/ is_nan v = true \/
  (nonneg u = true /\ (u <=? v)%float = true).

(** A zero of either sign, or NaN: what a product with a zero factor is. *)
Definition zero_or_nan (x : float) : bool :=
  match Prim2SF x with
  | S754_zero _ | S754_nan => true
  | _ => false
  end.

(** ** Python values, exceptions and built-ins *)

Inductive exn : Type :=
| ValueError (msg : string)
| TypeError (msg : string)
| OverflowError (msg : string).

Inductive result (A : Type) : Type :=
| Ok (a : A)
| Raise (e : exn).

Arguments Ok {A} a.
Arguments Raise {A} e.

Definition bind {A B : Type} (r : result A) (k : A -> result B) : result B :=
  match r with
  | Ok a => k a
  | Raise e => Raise e
  end.

Notation "x <- r ;; k" := (bind r (fun x => k))
  (at level 61, r at next level, right associativity).

Definition result_map {A B : Type} (f : A -> B) (r : result A) : result B :=
  match r with
  | Ok a => Ok (f a)
  | Raise e => Raise e
  end.

Definition message (e : exn) : string :=
  match e with
  | ValueError m | TypeError m | OverflowError m => m
  end.

(** A value passed for [initial_infected], by its dynamic type
    ([isinstance(_, int)], [isinstance(_, float)], anything else). *)
Inductive PyNumber : Type :=
| PyInt (z : Z)
| PyFloat (f : float)
| PyOther.

(** [min(a, b)]: [b] when [b < a], else [a]. *)
Definition pymin (a b : float) : float := if (b <? a)%float then b else a.

(** [float(z)]: correctly rounded; [OverflowError] when out of range. *)
Definition py_float_of_int (z : Z) : result float :=
  match Z2SF z with
  | S754_infinity _ => Raise (OverflowError "int too large to convert to float")
  | sf => Ok (SF2Prim sf)
  end.

(** [z * f] for an [int] and a [float]. *)
Definition py_mul_int_float (z : Z) (f : float) : result float :=
  zf <- py_float_of_int z ;; Ok (zf * f)%float.

(** [int(x)]: truncation towards zero. *)
Definition py_int (x : float) : result Z :=
  match Prim2SF x with
  | S754_zero _ => Ok 0
  | S754_finite s m e =>
      Ok (cond_Zopp s (if 0 <=? e then Zpos m * 2 ^ e else Zpos m / 2 ^ (- e)))
  | S754_infinity _ => Raise (OverflowError "cannot convert float infinity to integer")
  | S754_nan => Raise (ValueError "cannot convert float NaN to integer")
  end.

(** [math.floor(x)]: the greatest integer below [x]. *)
Definition py_floor (x : float) : result Z :=
  match Prim2SF x with
  | S754_zero _ => Ok 0
  | S754_finite s m e =>
      Ok (if 0 <=? e then cond_Zopp s (Zpos m) * 2 ^ e
          else cond_Zopp s (Zpos m) / 2 ^ (- e))
  | S754_infinity _ => Raise (OverflowError "cannot convert float infinity to integer")
  | S754_nan => Raise (ValueError "cannot convert float NaN to integer")
  end.

(** [l[i] = f(l[i])]; positions come from [range(len(l))] or from a sample
    of it, so the list is left alone outside its length. *)
Fixpoint update_at {A : Type} (i : nat) (f : A -> A) (l : list A) : list A :=
  match l, i with
  | [], _ => []
  | x :: t, O => f x :: t
  | x :: t, S j => x :: update_at j f t
  end.


(** ** The random generator, as the simulation uses [random.Random] *)

Class RandomGen : Type := {
  rng : Type;
  (** [random.Random(seed)] *)
  rng_seed : Z -> rng;
  (** [sample(population, k)] with [n = len(population)]: the positions
      chosen, in the order of the result. *)
  rng_sample : rng -> nat -> nat -> list nat * rng;
  (** [random()] *)
  rng_random : rng -> float * rng
}.

(** What the standard library documents of these two methods: a sample has
    [k] distinct elements of the population, a draw is in [[0, 1)]. *)
Class RandomGenOK (G : RandomGen) : Prop := {
  sample_length : forall g n k, (k <= n)%nat ->
    List.length (fst (rng_sample g n k)) = k;
  sample_NoDup : forall g n k, (k <= n)%nat -> NoDup (fst (rng_sample g n k));
  sample_range : forall g n k i, (k <= n)%nat ->
    In i (fst (rng_sample g n k)) -> (i < n)%nat;
  random_range : forall g,
    (0 <=? fst (rng_random g))%float = true /\
    (fst (rng_random g) <? 1)%float = true
}.

(** [sample] raises when asked for more than the population, or a negative
    number. *)
Definition py_sample {G : RandomGen} (g : rng) (n : nat) (k : Z)
  : result (list nat * rng) :=
  if (k <? 0) || (Z.of_nat n <? k)
  then Raise (ValueError "Sample larger than population or is negative")
  else Ok (rng_sample g n (Z.to_nat k)).

(** ** Person *)

Inductive HealthStatus : Type :=
| Susceptible | Infected | Infectious | Recovered | Dead.

(** Modelled from the spec: the class [Person] of [person.py], which is not
    in the source given. The specification gives it an integer id, one of
    five mutually exclusive health states, and the mitigation attributes
    [masked], [social_distancing] and [vaccination_doses]; the days spent
    in the current state drive the countdowns of section 4.1. *)
Record Person : Type := mkPerson {
  id : Z;
  health : HealthStatus;
  days_in_state : Z;
  masked : bool;
  social_distancing : bool;
  vaccination_doses : Z
}.

(** Modelled from the spec: [Person(id=i)], "all initially susceptible",
    with no mitigation. *)
Definition new_person (i : Z) : Person :=
  mkPerson i Susceptible 0 false false 0.

Definition is_susceptible (p : Person) : bool :=
  match health p with Susceptible => true | _ => false end.

Definition is_infected (p : Person) : bool :=
  match health p with Infected => true | _ => false end.

Definition is_infectious (p : Person) : bool :=
  match health p with Infectious => true | _ => false end.

Definition set_health (h : HealthStatus) (d : Z) (p : Person) : Person :=
  mkPerson (id p) h d (masked p) (social_distancing p) (vaccination_doses p).

Definition set_vaccination_doses (d : Z) (p : Person) : Person :=
  mkPerson (id p) (health p) (days_in_state p) (masked p) (social_distancing p) d.

Definition set_masked (b : bool) (p : Person) : Person :=
  mkPerson (id p) (health p) (days_in_state p) b (social_distancing p)
           (vaccination_doses p).

Definition set_social_distancing (b : bool) (p : Person) : Person :=
  mkPerson (id p) (health p) (days_in_state p) (masked p) b
           (vaccination_doses p).

(** Modelled from the spec: [Person.infected()], the transition to infected;
    on a person who is not susceptible it does nothing (section 9). *)
Definition infected (p : Person) : Person :=
  if is_susceptible p then set_health Infected 0 p else p.

(** Modelled from the spec: [Person.update_health_status], one day of
    disease progression: the incubation countdown ends in infectious, the
    infectious countdown in death or recovery by a draw against the
    mortality rate. *)
Definition update_health_status {G : RandomGen}
    (incubation infectious : Z) (mortality : float) (g : rng) (p : Person)
  : Person * rng :=
  match health p with
  | Infected =>
      let d := days_in_state p + 1 in
      if incubation <=? d then (set_health Infectious 0 p, g)
      else (set_health Infected d p, g)
  | Infectious =>
      let d := days_in_state p + 1 in
      if infectious <=? d then
        let (u, g') := rng_random g in
        if (u <? mortality)%float then (set_health Dead 0 p, g')
        else (set_health Recovered 0 p, g')
      else (set_health Infectious d p, g)
  | _ => (p, g)
  end.

(** ** The statistics collector *)

Class StatsCollector : Type := {
  collector : Type;
  (** [record_day(day, population)] *)
  record_day : collector -> Z -> list Person -> collector
}.

(** ** Arguments of the constructor *)

Module Args.
Record t : Type := mk {
  population_size : Z;
  initial_infected : PyNumber;
  infection_rate : float;
  incubation_period : Z;
  infectious_period : Z;
  base_contacts : Z;
  social_distancing_rate : float;
  mortality_rate : float;
  mask_effectiveness : float;
  partial_vaccine_effectiveness : float;
  full_vaccine_effectiveness : float;
  random_seed : option Z
}.

Definition with_factors (a : t) (m pv fv : float) : t :=
  mk (population_size a) (initial_infected a) (infection_rate a)
     (incubation_period a) (infectious_period a) (base_contacts a)
     (social_distancing_rate a) (mortality_rate a) m pv fv (random_seed a).

(** The same arguments with another [random_seed]. *)
Definition with_seed (a : t) (seed : option Z) : t :=
  mk (population_size a) (initial_infected a) (infection_rate a)
     (incubation_period a) (infectious_period a) (base_contacts a)
     (social_distancing_rate a) (mortality_rate a) (mask_effectiveness a)
     (partial_vaccine_effectiveness a) (full_vaccine_effectiveness a) seed.
End Args.

(** ** The simulation object *)

Section Simulation.
Context {G : RandomGen} {K : StatsCollector}.

(** The attributes of a [Simulation]. The policy callables are kept
    apart, in [Policies]: they are functions on this record. *)
Record Simulation : Type := mkSimulation {
  population : list Person;
  infection_rate : float;
  incubation_period : Z;
  infectious_period : Z;
  base_contacts : Z;
  social_distancing_rate : float;
  mortality_rate : float;
  mask_effectiveness : float;
  partial_vaccine_effectiveness : float;
  full_vaccine_effectiveness : float;
  statistics_collector : option collector;
  day : Z;
  random : rng
}.

(** [mask_policy(self, person)], [dist_policy(self, person)] and
    [vac_policy(self)]: each may change the simulation object it is given;
    the person is passed by its position. *)
Record Policies : Type := mkPolicies {
  mask_policy : option (Simulation -> nat -> Simulation);
  dist_policy : option (Simulation -> nat -> Simulation);
  vac_policy : option (Simulation -> Simulation)
}.

Definition set_population (l : list Person) (s : Simulation) : Simulation :=
  mkSimulation l (infection_rate s) (incubation_period s) (infectious_period s)
    (base_contacts s) (social_distancing_rate s) (mortality_rate s)
    (mask_effectiveness s) (partial_vaccine_effectiveness s)
    (full_vaccine_effectiveness s) (statistics_collector s) (day s) (random s).

Definition set_random (g : rng) (s : Simulation) : Simulation :=
  mkSimulation (population s) (infection_rate s) (incubation_period s)
    (infectious_period s) (base_contacts s) (social_distancing_rate s)
    (mortality_rate s) (mask_effectiveness s) (partial_vaccine_effectiveness s)
    (full_vaccine_effectiveness s) (statistics_collector s) (day s) g.

Definition set_day (d : Z) (s : Simulation) : Simulation :=
  mkSimulation (population s) (infection_rate s) (incubation_period s)
    (infectious_period s) (base_contacts s) (social_distancing_rate s)
    (mortality_rate s) (mask_effectiveness s) (partial_vaccine_effectiveness s)
    (full_vaccine_effectiveness s) (statistics_collector s) d (random s).

Definition set_statistics_collector (c : option collector) (s : Simulation)
  : Simulation :=
  mkSimulation (population s) (infection_rate s) (incubation_period s)
    (infectious_period s) (base_contacts s) (social_distancing_rate s)
    (mortality_rate s) (mask_effectiveness s) (partial_vaccine_effectiveness s)
    (full_vaccine_effectiveness s) c (day s) (random s).

(** *** Infection probability *)

Definition apply_mask_effect (self : Simulation) (base_rate : float)
    (person : Person) : float :=
  if masked person then (base_rate * mask_effectiveness self)%float
  else base_rate.

Definition apply_vaccine_effect (self : Simulation) (base_rate : float)
    (person : Person) : float :=
  if vaccination_doses person =? 1
  then (base_rate * partial_vaccine_effectiveness self)%float
  else if 2 <=? vaccination_doses person
  then (base_rate * full_vaccine_effectiveness self)%float
  else base_rate.

Definition calculate_infection_chance (self : Simulation)
    (infectious_person susceptible_person : Person) : float :=
  let base_rate := infection_rate self in
  let base_rate := apply_mask_effect self base_rate infectious_person in
  let base_rate := apply_mask_effect self base_rate susceptible_person in
  let base_rate := apply_vaccine_effect self base_rate susceptible_person in
  pymin base_rate 1.

(** *** Construction *)

(** The generator a simulation starts from: [random.Random(seed)], or,
    without a seed, a generator in a state the caller does not choose. *)
Definition initial_random (a : Args.t) (entropy : rng) : rng :=
  match Args.random_seed a with
  | Some z => rng_seed z
  | None => entropy
  end.

(** [for idx in initial_infected_ids: self.population[idx].infected()] *)
Definition infect_all (ids : list nat) (l : list Person) : list Person :=
  fold_left (fun l idx => update_at idx infected l) ids l.

(** [[Person(id=i) for i in range(population_size)]] *)
Definition initial_population (n : Z) : list Person :=
  map (fun i => new_person (Z.of_nat i)) (seq 0 (Z.to_nat n)).

(** The number of initially infected, from the checks on
    [initial_infected]. *)
Definition resolve_initial_infected (a : Args.t) : result Z :=
  match Args.initial_infected a with
  | PyInt i =>
      if negb ((0 <=? i) && (i <=? Args.population_size a))
      then Raise (ValueError "Initial infected must be between 0 and population size.")
      else Ok i
  | PyFloat f =>
      if negb (in_unit f)
      then Raise (ValueError "If initial_infected is a float, it must be between 0 and 1.")
      else x <- py_mul_int_float (Args.population_size a) f ;; py_int x
  | PyOther => Raise (TypeError "initial_infected must be an int or a float.")
  end.

Definition __init__ (a : Args.t) (statistics : option collector)
    (entropy : rng) : result Simulation :=
  if Args.population_size a <=? 0
  then Raise (ValueError "Population size must be positive.")
  else
    num_initial_infected <- resolve_initial_infected a ;;
    if negb (in_unit (Args.infection_rate a))
    then Raise (ValueError "Infection rate must be between 0 and 1.")
    else if Args.incubation_period a <=? 0
    then Raise (ValueError "Incubation period must be positive.")
    else if Args.infectious_period a <=? 0
    then Raise (ValueError "Infectious period must be positive.")
    else if Args.base_contacts a <? 0
    then Raise (ValueError "Base contacts must be non-negative.")
    else if negb (in_unit (Args.social_distancing_rate a))
    then Raise (ValueError "Social distancing rate must be between 0 and 1.")
    else if negb (in_unit (Args.mortality_rate a))
    then Raise (ValueError "Mortality rate must be between 0 and 1.")
    else
      let people := initial_population (Args.population_size a) in
      drawn <- py_sample (initial_random a entropy)
                 (Z.to_nat (Args.population_size a)) num_initial_infected ;;
      Ok (mkSimulation (infect_all (fst drawn) people)
            (Args.infection_rate a) (Args.incubation_period a)
            (Args.infectious_period a) (Args.base_contacts a)
            (Args.social_distancing_rate a) (Args.mortality_rate a)
            (Args.mask_effectiveness a) (Args.partial_vaccine_effectiveness a)
            (Args.full_vaccine_effectiveness a) statistics 0 (snd drawn)).

(** *** One day *)

Fixpoint update_people (incubation infectious : Z) (mortality : float)
    (g : rng) (l : list Person) : list Person * rng :=
  match l with
  | [] => ([], g)
  | p :: t =>
      let (p', g1) := update_health_status incubation infectious mortality g p in
      let (t', g2) := update_people incubation infectious mortality g1 t in
      (p' :: t', g2)
  end.

Definition update_health_statuses (self : Simulation) : Simulation :=
  let (l, g) := update_people (incubation_period self) (infectious_period self)
                  (mortality_rate self) (random self) (population self) in
  set_random g (set_population l self).

Definition call_policy (f : option (Simulation -> nat -> Simulation))
    (self : Simulation) (person : nat) : Simulation :=
  match f with
  | Some policy => policy self person
  | None => self
  end.

Definition apply_policies (pol : Policies) (self : Simulation) : Simulation :=
  let self :=
    fold_left (fun self person =>
                 call_policy (dist_policy pol)
                   (call_policy (mask_policy pol) self person) person)
              (seq 0 (List.length (population self))) self in
  match vac_policy pol with
  | Some policy => policy self
  | None => self
  end.

(** Positions of the persons that satisfy [f]. *)
Definition positions (f : Person -> bool) (l : list Person) : list nat :=
  filter (fun i => match nth_error l i with Some p => f p | None => false end)
         (seq 0 (List.length l)).

Definition susceptible_population (self : Simulation) : list nat :=
  positions is_susceptible (population self).

Definition infectious_population (self : Simulation) : list nat :=
  positions is_infectious (population self).

(** The number of contacts of one infectious person, for a susceptible
    pool of [n] persons. *)
Definition num_contacts (self : Simulation) (infectious_person : Person)
    (n : nat) : result Z :=
  c <- (if social_distancing infectious_person
        then x <- py_mul_int_float (base_contacts self)
                    (social_distancing_rate self) ;; py_int x
        else Ok (base_contacts self)) ;;
  let c := Z.max 1 c in
  Ok (Z.min c (Z.of_nat n)).

(** One contact: the draw against the infection chance. *)
Definition contact (infectious_person : nat) (self : Simulation)
    (susceptible_person : nat) : Simulation :=
  match nth_error (population self) infectious_person,
        nth_error (population self) susceptible_person with
  | Some ip, Some sp =>
      let infection_chance := calculate_infection_chance self ip sp in
      let (u, g) := rng_random (random self) in
      let self := set_random g self in
      if (u <? infection_chance)%float
      then set_population (update_at susceptible_person infected (population self)) self
      else self
  | _, _ => self
  end.

(** The persons a sample of positions of the pool designates. *)
Definition pick (pool : list nat) (chosen : list nat) : list nat :=
  map (fun j => nth j pool O) chosen.

(** The body of the loop over the infectious persons. *)
Definition interact (pool : list nat) (self : Simulation)
    (infectious_person : nat) : result Simulation :=
  match nth_error (population self) infectious_person with
  | None => Ok self
  | Some ip =>
      k <- num_contacts self ip (List.length pool) ;;
      if k =? 0 then Ok self
      else
        drawn <- py_sample (random self) (List.length pool) k ;;
        Ok (fold_left (contact infectious_person)
              (pick pool (fst drawn)) (set_random (snd drawn) self))
  end.

Fixpoint for_each {A : Type} (body : Simulation -> A -> result Simulation)
    (l : list A) (self : Simulation) : result Simulation :=
  match l with
  | [] => Ok self
  | x :: t => self' <- body self x ;; for_each body t self'
  end.

Definition simulate_interactions (self : Simulation) : result Simulation :=
  let susceptible := susceptible_population self in
  let infectious := infectious_population self in
  for_each (interact susceptible) infectious self.

Definition simulate_day (pol : Policies) (self : Simulation)
  : result Simulation :=
  simulate_interactions (apply_policies pol (update_health_statuses self)).

(** *** The day loop *)

Definition record_statistics (self : Simulation) : Simulation :=
  match statistics_collector self with
  | Some c =>
      set_statistics_collector
        (Some (record_day c (day self) (population self))) self
  | None => self
  end.

Definition active_infections (self : Simulation) : bool :=
  existsb (fun person => is_infected person || is_infectious person)
          (population self).

(** [run], resumed at most [fuel] times by the scheduler: [None] when the
    loop has not ended by then. *)
Fixpoint run (pol : Policies) (fuel : nat) (self : Simulation)
  : option (result Simulation) :=
  match fuel with
  | O => None
  | S fuel' =>
      match simulate_day pol self with
      | Raise e => Some (Raise e)
      | Ok self =>
          let self := record_statistics self in
          if negb (active_infections self) then Some (Ok self)
          else run pol fuel' (set_day (day self + 1) self)
      end
  end.

(** The simulation as it stands when the scheduler has resumed [run]
    [n] times, or when the loop has ended before that. *)
Fixpoint after_days (pol : Policies) (n : nat) (self : Simulation)
  : result Simulation :=
  match n with
  | O => Ok self
  | S n' =>
      match simulate_day pol self with
      | Raise e => Raise e
      | Ok self =>
          let self := record_statistics self in
          if negb (active_infections self) then Ok self
          else after_days pol n' (set_day (day self + 1) self)
      end
  end.

(** *** What the specification states, to compare the code with *)

(** The probability as the specification composes it. *)
Definition masked_rate (self : Simulation) (ip sp : Person) : float :=
  let r := infection_rate self in
  let r := if masked ip then (r * mask_effectiveness self)%float else r in
  if masked sp then (r * mask_effectiveness self)%float else r.


Definition count_infected (self : Simulation) : nat :=
  List.length (filter is_infected (population self)).

(** *** Frames, records and the collector *)

(** [s2] has the configuration of [s1], and as many persons. *)
Definition same_config (s1 s2 : Simulation) : Prop :=
  List.length (population s1) = List.length (population s2) /\
  infection_rate s1 = infection_rate s2 /\
  incubation_period s1 = incubation_period s2 /\
  infectious_period s1 = infectious_period s2 /\
  base_contacts s1 = base_contacts s2 /\
  social_distancing_rate s1 = social_distancing_rate s2 /\
  mortality_rate s1 = mortality_rate s2 /\
  mask_effectiveness s1 = mask_effectiveness s2 /\
  partial_vaccine_effectiveness s1 = partial_vaccine_effectiveness s2 /\
  full_vaccine_effectiveness s1 = full_vaccine_effectiveness s2.

(** [s2] has also the day and the collector of [s1]: the two differ at most
    by the state of the persons and of the generator. *)
Definition same_frame (s1 s2 : Simulation) : Prop :=
  same_config s1 s2 /\
  statistics_collector s1 = statistics_collector s2 /\
  day s1 = day s2.

(** Policies that change persons (their masks, their distancing, their
    doses) and may draw from the generator, and nothing else. *)
Definition policies_keep_frame (pol : Policies) : Prop :=
  (forall policy, mask_policy pol = Some policy ->
     forall s i, same_frame s (policy s i)) /\
  (forall policy, dist_policy pol = Some policy ->
     forall s i, same_frame s (policy s i)) /\
  (forall policy, vac_policy pol = Some policy ->
     forall s, same_frame s (policy s)).

(** Somebody of the list is infected or infectious. *)
Definition infection_in (l : list Person) : bool :=
  existsb (fun person => is_infected person || is_infectious person) l.

(** The collector after [record_day] has been called with each of the
    records, first to last. *)
Definition record_all (c : collector) (records : list (Z * list Person))
  : collector :=
  fold_left (fun c r => record_day c (fst r) (snd r)) records c.

(** The same simulation, without a collector. *)
Definition without_statistics (s : Simulation) : Simulation :=
  set_statistics_collector None s.

(** Policies that do not look at the collector. *)
Definition policies_ignore_statistics (pol : Policies) : Prop :=
  (forall policy, mask_policy pol = Some policy ->
     forall s i, policy (without_statistics s) i = without_statistics (policy s i)) /\
  (forall policy, dist_policy pol = Some policy ->
     forall s i, policy (without_statistics s) i = without_statistics (policy s i)) /\
  (forall policy, vac_policy pol = Some policy ->
     forall s, policy (without_statistics s) = without_statistics (policy s)).
End Simulation.

(** ** The validation rules, as the specification lists them *)

Inductive Field : Type :=
| FPopulationSize | FInitialInfected | FInfectionRate | FIncubationPeriod
| FInfectiousPeriod | FBaseContacts | FSocialDistancingRate | FMortalityRate.

Definition field_words (f : Field) : string :=
  match f with
  | FPopulationSize => "population size"
  | FInitialInfected => "initial infected"
  | FInfectionRate => "infection rate"
  | FIncubationPeriod => "incubation period"
  | FInfectiousPeriod => "infectious period"
  | FBaseContacts => "base contacts"
  | FSocialDistancingRate => "social distancing rate"
  | FMortalityRate => "mortality rate"
  end.

Record Rule : Type := mkRule {
  rule_field : Field;
  rule_violated : Args.t -> bool;
  rule_error : exn
}.

(** Outside [[0, 1]]: not inside it (so is NaN). *)
Definition outside_unit (f : float) : bool := negb (in_unit f).

Definition validation_rules : list Rule :=
  [ mkRule FPopulationSize
      (fun a => Args.population_size a <=? 0)
      (ValueError "Population size must be positive.");
    mkRule FInitialInfected
      (fun a => match Args.initial_infected a with
                | PyInt i => (i <? 0) || (Args.population_size a <? i)
                | _ => false
                end)
      (ValueError "Initial infected must be between 0 and population size.");
    mkRule FInitialInfected
      (fun a => match Args.initial_infected a with
                | PyFloat f => outside_unit f
                | _ => false
                end)
      (ValueError "If initial_infected is a float, it must be between 0 and 1.");
    mkRule FInitialInfected
      (fun a => match Args.initial_infected a with
                | PyOther => true
                | _ => false
                end)
      (TypeError "initial_infected must be an int or a float.");
    mkRule FInfectionRate
      (fun a => outside_unit (Args.infection_rate a))
      (ValueError "Infection rate must be between 0 and 1.");
    mkRule FIncubationPeriod
      (fun a => Args.incubation_period a <=? 0)
      (ValueError "Incubation period must be positive.");
    mkRule FInfectiousPeriod
      (fun a => Args.infectious_period a <=? 0)
      (ValueError "Infectious period must be positive.");
    mkRule FBaseContacts
      (fun a => Args.base_contacts a <? 0)
      (ValueError "Base contacts must be non-negative.");
    mkRule FSocialDistancingRate
      (fun a => outside_unit (Args.social_distancing_rate a))
      (ValueError "Social distancing rate must be between 0 and 1.");
    mkRule FMortalityRate
      (fun a => outside_unit (Args.mortality_rate a))
      (ValueError "Mortality rate must be between 0 and 1.") ].

(** The error of the first rule, in the order of the list, that the
    arguments violate. *)
Definition first_violation (a : Args.t) : option exn :=
  option_map rule_error (find (fun r => rule_violated r a) validation_rules).

(** A message names a field when it contains the field's words, letter case
    and underscores apart. *)
Definition normal_char (c : ascii) : ascii :=
  let n := nat_of_ascii c in
  if ((65 <=? n) && (n <=? 90))%nat then ascii_of_nat (n + 32)
  else if (n =? 95)%nat then " "%char
  else c.

Fixpoint normal (s : string) : string :=
  match s with
  | EmptyString => EmptyString
  | String c t => String (normal_char c) (normal t)
  end.

Definition names_field (e : exn) (f : Field) : bool :=
  match index 0 (field_words f) (normal (message e)) with
  | Some _ => true
  | None => false
  end.

(** ** A concrete generator and collector, to run the model on examples *)

Definition demo_draws : list float := [0.5; 0.25; 0.75; 0.125]%float.

(** A generator whose state counts the calls made: it samples the last [k]
    positions, last first, and draws from a table of four numbers. *)
Definition demo_gen : RandomGen :=
  {| rng := nat;
     rng_seed := fun z => Z.abs_nat z;
     rng_sample := fun g n k => (rev (seq (n - k) k), S g);
     rng_random := fun g => (nth (g mod 4) demo_draws 0.5%float, S g) |}.

(** A collector that keeps every snapshot it is given. *)
Definition demo_stats : StatsCollector :=
  {| collector := list (Z * list Person);
     record_day := fun c d l => c ++ [(d, l)] |}.

Definition no_policies {G : RandomGen} {K : StatsCollector} : Policies :=
  mkPolicies None None None.

(** A simulation object with the given rate and factors, and nobody in. *)
Definition demo_sim (rate mask partial full : float)
  : @Simulation demo_gen demo_stats :=
  @mkSimulation demo_gen demo_stats [] rate 2 3 10 0.5%float 0.01%float
                mask partial full None 0 O.

Definition demo_person (m : bool) (doses : Z) : Person :=
  mkPerson 0 Susceptible 0 m false doses.

(** Day one of a two-person population with [base_contacts = 0]: the first
    person susceptible, the second infectious, an infection rate of 1. *)
Definition zero_contact_day : @Simulation demo_gen demo_stats :=
  @mkSimulation demo_gen demo_stats
    [new_person 0; set_health Infectious 0 (new_person 1)]
    1%float 2 3 0 0.5%float 0.01%float 0.5%float 0.7%float 0.3%float None 1 44%nat.

(** An infectious person who keeps distance, and two susceptible persons. *)
Definition distancing_day : @Simulation demo_gen demo_stats :=
  @mkSimulation demo_gen demo_stats
    [set_social_distancing true (set_health Infectious 0 (new_person 0));
     new_person 1; new_person 2]
    0.3%float 2 3 10 0.5%float 0.01%float 0.5%float 0.7%float 0.3%float None 1 7%nat.

Definition demo_args (n : Z) (initial : PyNumber) (contacts : Z) (rate : float)
  : Args.t :=
  Args.mk n initial rate 2 3 contacts 0.5%float 0.01%float
          0.5%float 0.7%float 0.3%float (Some 42).

(** Two persons, one of them infected at the start, no contacts per day and
    an infection rate of 1. *)
Definition zero_contact_args : Args.t := demo_args 2 (PyInt 1) 0 1%float.

(** A population too large for a float, a fraction of it infected. *)
Definition huge_args : Args.t := demo_args (2 ^ 1024) (PyFloat 0.5) 10 0.3%float.

(** Fifty persons, a tenth of them infected. *)
Definition fifty_args : Args.t := demo_args 50 (PyFloat 0.1) 10 0.3%float.

(** The simulation constructed from [zero_contact_args], and the one its run
    ends with. *)
Definition zero_contact_start : @Simulation demo_gen demo_stats :=
  Eval vm_compute in
    match @__init__ demo_gen demo_stats zero_contact_args None 0%nat with
    | Ok self => self
    | Raise _ => zero_contact_day
    end.

Definition zero_contact_final : @Simulation demo_gen demo_stats :=
  Eval vm_compute in
    match run no_policies 20 zero_contact_start with
    | Some (Ok self) => self
    | _ => zero_contact_start
    end.

(** The simulation constructed from [fifty_args]. *)
Definition fifty_start : @Simulation demo_gen demo_stats :=
  Eval vm_compute in
    match @__init__ demo_gen demo_stats fifty_args None 0%nat with
    | Ok self => self
    | Raise _ => zero_contact_day
    end.

(** A mask policy: the person puts a mask on. *)
Definition mask_everyone {G : RandomGen} {K : StatsCollector}
    (self : Simulation) (person : nat) : Simulation :=
  set_population (update_at person (set_masked true) (population self)) self.

Definition mask_policies {G : RandomGen} {K : StatsCollector} : Policies :=
  mkPolicies (Some mask_everyone) None None.

(** What the interaction phase makes of [zero_contact_day] and of
    [distancing_day]. *)
Definition zero_contact_after : @Simulation demo_gen demo_stats :=
  Eval vm_compute in
    match simulate_interactions zero_contact_day with
    | Ok self => self
    | Raise _ => zero_contact_day
    end.

(** [distancing_day] with an infection rate of zero, and what the
    interaction phase makes of it. *)
Definition zero_rate_day : @Simulation demo_gen demo_stats :=
  @mkSimulation demo_gen demo_stats
    [set_social_distancing true (set_health Infectious 0 (new_person 0));
     new_person 1; new_person 2]
    0%float 2 3 10 0.5%float 0.01%float 0.5%float 0.7%float 0.3%float None 1 7%nat.

Definition zero_rate_after : @Simulation demo_gen demo_stats :=
  Eval vm_compute in
    match simulate_interactions zero_rate_day with
    | Ok self => self
    | Raise _ => zero_rate_day
    end.

(** The simulation constructed from [zero_contact_args] with a collector,
    and the one its run under [mask_policies] ends with. *)
Definition recorded_start : @Simulation demo_gen demo_stats :=
  Eval vm_compute in
    match @__init__ demo_gen demo_stats zero_contact_args (Some []) 0%nat with
    | Ok self => self
    | Raise _ => zero_contact_day
    end.

Definition recorded_final : @Simulation demo_gen demo_stats :=
  Eval vm_compute in
    match run mask_policies 20 recorded_start with
    | Some (Ok self) => self
    | _ => recorded_start
    end.
(* ================================================================== *)
(** * Part II: binary64 multiplication is monotone *)
(* ================================================================== *)

(** The operations of [PrimFloat] are specified by those of [SpecFloat]
    ([FloatAxioms]); what follows derives from that specification the order
    properties of rounding that the statements on probabilities need. *)

Lemma digits2_pos_bounds (p : positive) :
  2 ^ (Zpos (digits2_pos p) - 1) <= Zpos p < 2 ^ Zpos (digits2_pos p).
Proof.
  induction p as [p IH | p IH |]; cbn [digits2_pos].
  - rewrite Pos2Z.inj_succ.
    replace (Z.succ (Zpos (digits2_pos p)) - 1) with (Z.succ (Zpos (digits2_pos p) - 1)) by lia.
    rewrite !Z.pow_succ_r by lia. lia.
  - rewrite Pos2Z.inj_succ.
    replace (Z.succ (Zpos (digits2_pos p)) - 1) with (Z.succ (Zpos (digits2_pos p) - 1)) by lia.
    rewrite !Z.pow_succ_r by lia. lia.
  - cbn. lia.
Qed.

Lemma digits2_pos_unique (p : positive) (d : Z) :
  2 ^ (d - 1) <= Zpos p < 2 ^ d -> Zpos (digits2_pos p) = d.
Proof.
  intros [Hlo Hhi].
  destruct (digits2_pos_bounds p) as [Hlo' Hhi'].
  assert (Hd : 0 < d).
  { destruct (Z.ltb_spec 0 d) as [|Hle]; [assumption|].
    exfalso. assert (2 ^ d <= 2 ^ 0) by (destruct (Z.ltb_spec d 0); [rewrite Z.pow_neg_r by lia; cbn; lia | apply Z.pow_le_mono_r; lia]).
    cbn in *. lia. }
  destruct (Z.lt_trichotomy (Zpos (digits2_pos p)) d) as [Hlt | [Heq | Hgt]]; [exfalso | assumption | exfalso].
  - assert (2 ^ Zpos (digits2_pos p) <= 2 ^ (d - 1)) by (apply Z.pow_le_mono_r; lia). lia.
  - assert (2 ^ d <= 2 ^ (Zpos (digits2_pos p) - 1)) by (apply Z.pow_le_mono_r; lia). lia.
Qed.

Lemma iter_pos_nat {A : Type} (f : A -> A) (p : positive) (x : A) :
  iter_pos f p x = Nat.iter (Pos.to_nat p) f x.
Proof.
  revert x. induction p as [p IH | p IH |]; intro x; cbn [iter_pos].
  - rewrite !IH, Pos2Nat.inj_xI.
    replace (S (2 * Pos.to_nat p))%nat with (Pos.to_nat p + (Pos.to_nat p + 1))%nat by lia.
    rewrite !Nat.iter_add. reflexivity.
  - rewrite !IH, Pos2Nat.inj_xO.
    replace (2 * Pos.to_nat p)%nat with (Pos.to_nat p + Pos.to_nat p)%nat by lia.
    rewrite Nat.iter_add. reflexivity.
  - reflexivity.
Qed.

Lemma shr_1_nonneg (m : Z) (r s : bool) :
  0 <= m ->
  shr_1 (Build_shr_record m r s) = Build_shr_record (m / 2) (Z.odd m) (r || s).
Proof.
  intros Hm. destruct m as [| p | p]; [reflexivity | | lia].
  destruct p as [p | p |]; cbn [shr_1 Z.odd].
  - f_equal. rewrite Pos2Z.inj_xI. symmetry.
    replace (2 * Zpos p + 1) with (1 + Zpos p * 2) by lia.
    rewrite Z.div_add by lia. reflexivity.
  - f_equal. rewrite Pos2Z.inj_xO. symmetry.
    rewrite Z.mul_comm. apply Z.div_mul. lia.
  - reflexivity.
Qed.

Lemma pow2_pos (n : Z) : 0 <= n -> 0 < 2 ^ n.
Proof. intros; apply Z.pow_pos_nonneg; lia. Qed.

Lemma loc_of_shr_record_exact (m : Z) (r s : bool) :
  loc_of_shr_record (Build_shr_record m r s) = loc_Exact <-> r || s = false.
Proof. destruct r, s; cbn; split; congruence. Qed.

Lemma shr_iter (m : Z) (k : nat) :
  0 <= m ->
  shr_m (Nat.iter k shr_1 (Build_shr_record m false false)) = m / 2 ^ Z.of_nat k /\
  loc_of_shr_record (Nat.iter k shr_1 (Build_shr_record m false false))
    = locZ (m mod 2 ^ Z.of_nat k) (2 ^ Z.of_nat k).
Proof.
  intros Hm. induction k as [| k [IHm IHl]].
  - cbn. rewrite Z.div_1_r, Z.mod_1_r. split; reflexivity.
  - rewrite Nat.iter_succ.
    destruct (Nat.iter k shr_1 (Build_shr_record m false false)) as [q r s] eqn:E.
    cbn [shr_m] in IHm.
    assert (HM : 0 < 2 ^ Z.of_nat k) by (apply pow2_pos; lia).
    assert (Hq : 0 <= q) by (subst q; apply Z.div_pos; lia).
    rewrite shr_1_nonneg by assumption. cbn [shr_m].
    rewrite Nat2Z.inj_succ, Z.pow_succ_r by lia.
    rewrite (Z.mul_comm 2 (2 ^ Z.of_nat k)).
    split.
    + rewrite <- Z.div_div by lia. now rewrite IHm.
    + rewrite Z.rem_mul_r by lia. rewrite <- IHm.
      pose proof (Z.mod_pos_bound m (2 ^ Z.of_nat k) HM) as Hr.
      set (r0 := m mod 2 ^ Z.of_nat k) in *.
      set (M := 2 ^ Z.of_nat k) in *.
      assert (Hrs : r || s = negb (r0 =? 0)).
      { unfold locZ in IHl. destruct (r0 =? 0); destruct r, s; cbn in IHl |- *; congruence. }
      rewrite Zmod_odd.
      unfold locZ.
      destruct (Z.odd q); rewrite Hrs.
      * destruct (Z.eqb_spec r0 0) as [H0 | H0].
        -- rewrite H0. replace (0 + M * 1 =? 0) with false by (symmetry; apply Z.eqb_neq; lia).
           cbn [negb loc_of_shr_record]. f_equal. symmetry. apply Z.compare_eq_iff. lia.
        -- replace (r0 + M * 1 =? 0) with false by (symmetry; apply Z.eqb_neq; lia).
           cbn [negb loc_of_shr_record]. f_equal. symmetry. apply Z.compare_gt_iff. lia.
      * rewrite Z.mul_0_r, Z.add_0_r.
        destruct (Z.eqb_spec r0 0) as [H0 | H0]; cbn [negb loc_of_shr_record]; [reflexivity |].
        f_equal. symmetry. apply Z.compare_lt_iff. lia.
Qed.

(** [shr] by a non-negative amount, from an exact record. *)
Lemma shr_exact (m e n : Z) :
  0 <= m -> 0 <= n ->
  let '(mrs, e') := shr (Build_shr_record m false false) e n in
  e' = e + n /\ shr_m mrs = m / 2 ^ n /\
  loc_of_shr_record mrs = locZ (m mod 2 ^ n) (2 ^ n).
Proof.
  intros Hm Hn. destruct n as [| p | p]; [ | | lia]; cbn [shr].
  - rewrite Z.div_1_r, Z.mod_1_r, Z.add_0_r. repeat split; reflexivity.
  - rewrite iter_pos_nat.
    destruct (shr_iter m (Pos.to_nat p) Hm) as [H1 H2].
    rewrite positive_nat_Z in H1, H2. repeat split; assumption.
Qed.

(** Round to nearest even on the grid [2 ^ n]. *)
Lemma RNE_bounds (m n : Z) :
  0 <= n -> m / 2 ^ n <= RNE m n <= m / 2 ^ n + 1.
Proof.
  intros Hn. unfold RNE, locZ, round_nearest_even.
  destruct (m mod 2 ^ n =? 0); [lia |].
  destruct (2 * (m mod 2 ^ n) ?= 2 ^ n); try lia.
  destruct (Z.even (m / 2 ^ n)); lia.
Qed.

Lemma RNE_exact (m n : Z) :
  m mod 2 ^ n = 0 -> RNE m n = m / 2 ^ n.
Proof. intros H. unfold RNE, locZ. rewrite H. reflexivity. Qed.

Lemma RNE_mul_pow2 (c n : Z) : 0 <= n -> RNE (c * 2 ^ n) n = c.
Proof.
  intros Hn. pose proof (pow2_pos n Hn).
  rewrite RNE_exact by (apply Z.mod_mul; lia).
  apply Z.div_mul; lia.
Qed.

Lemma RNE_mono (m1 m2 n : Z) :
  0 <= n -> m1 <= m2 -> RNE m1 n <= RNE m2 n.
Proof.
  intros Hn Hle.
  pose proof (pow2_pos n Hn) as HM.
  pose proof (Z.div_le_mono m1 m2 (2 ^ n) HM Hle) as Hq.
  destruct (Z.eq_dec (m1 / 2 ^ n) (m2 / 2 ^ n)) as [Heq | Hne].
  - pose proof (Z.div_mod m1 (2 ^ n) ltac:(lia)) as D1.
    pose proof (Z.div_mod m2 (2 ^ n) ltac:(lia)) as D2.
    pose proof (Z.mod_pos_bound m1 (2 ^ n) HM) as B1.
    pose proof (Z.mod_pos_bound m2 (2 ^ n) HM) as B2.
    assert (Hr : m1 mod 2 ^ n <= m2 mod 2 ^ n) by nia.
    unfold RNE, locZ, round_nearest_even. rewrite Heq.
    destruct (Z.eqb_spec (m1 mod 2 ^ n) 0) as [E1 | E1];
      destruct (Z.eqb_spec (m2 mod 2 ^ n) 0) as [E2 | E2]; try lia.
    + destruct (2 * (m2 mod 2 ^ n) ?= 2 ^ n); try lia.
      destruct (Z.even (m2 / 2 ^ n)); lia.
    + destruct (Z.compare_spec (2 * (m1 mod 2 ^ n)) (2 ^ n));
        destruct (Z.compare_spec (2 * (m2 mod 2 ^ n)) (2 ^ n)); try lia;
        destruct (Z.even (m2 / 2 ^ n)); lia.
  - pose proof (RNE_bounds m1 n Hn). pose proof (RNE_bounds m2 n Hn). lia.
Qed.

Lemma RNE_le_of_le (m c n : Z) :
  0 <= n -> m <= c * 2 ^ n -> RNE m n <= c.
Proof.
  intros Hn H. rewrite <- (RNE_mul_pow2 c n Hn). now apply RNE_mono.
Qed.

Lemma RNE_ge_of_ge (m c n : Z) :
  0 <= n -> c * 2 ^ n <= m -> c <= RNE m n.
Proof.
  intros Hn H. rewrite <- (RNE_mul_pow2 c n Hn). now apply RNE_mono.
Qed.

Lemma RNE_scale (m n t : Z) :
  0 <= n -> 0 <= t -> RNE (m * 2 ^ t) (n + t) = RNE m n.
Proof.
  intros Hn Ht.
  pose proof (pow2_pos n Hn) as HM. pose proof (pow2_pos t Ht) as HT.
  unfold RNE, locZ.
  rewrite Z.pow_add_r by lia.
  rewrite Z.div_mul_cancel_r by lia.
  rewrite Zmult_mod_distr_r.
  replace (m mod 2 ^ n * 2 ^ t =? 0) with (m mod 2 ^ n =? 0).
  2:{ destruct (Z.eqb_spec (m mod 2 ^ n) 0) as [E | E]; symmetry.
      - rewrite E. reflexivity.
      - apply Z.eqb_neq. nia. }
  destruct (m mod 2 ^ n =? 0); [reflexivity |].
  f_equal.
  destruct (Z.compare_spec (2 * (m mod 2 ^ n)) (2 ^ n)); f_equal;
    [apply Z.compare_eq_iff | apply Z.compare_lt_iff | apply Z.compare_gt_iff]; nia.
Qed.

Lemma fexp_fexp64 (z : Z) : fexp prec emax z = fexp64 z.
Proof. reflexivity. Qed.

Lemma Zdigits2_bounds (m : Z) :
  0 < m -> 2 ^ (Zdigits2 m - 1) <= m < 2 ^ Zdigits2 m.
Proof.
  destruct m as [| p | p]; try lia. intros _. apply digits2_pos_bounds.
Qed.

Lemma Zdigits2_pos (m : Z) : 0 < m -> 0 < Zdigits2 m.
Proof. destruct m; cbn; lia. Qed.

Lemma Zdigits2_le (m d : Z) : 0 <= d -> 0 <= m < 2 ^ d -> Zdigits2 m <= d.
Proof.
  intros Hd [H0 Hlt].
  destruct (Z.eq_dec m 0) as [-> | Hne]; [cbn; lia |].
  destruct (Zdigits2_bounds m ltac:(lia)) as [Hlo _].
  destruct (Z.leb_spec (Zdigits2 m) d) as [| Hgt]; [assumption | exfalso].
  assert (2 ^ d <= 2 ^ (Zdigits2 m - 1)) by (apply Z.pow_le_mono_r; lia). lia.
Qed.

Lemma Zdigits2_unique (m d : Z) :
  2 ^ (d - 1) <= m < 2 ^ d -> 0 < m -> Zdigits2 m = d.
Proof.
  intros H Hm. destruct m as [| p | p]; try lia. now apply digits2_pos_unique.
Qed.

(** The first, rounded mantissa of [binary_round_aux] has at most 54 bits. *)
Lemma RNE_first_le (P E : Z) :
  0 < P ->
  E <= fexp64 (Zdigits2 P + E) ->
  0 <= RNE P (fexp64 (Zdigits2 P + E) - E) <= 2 ^ 53.
Proof.
  intros HP Hn.
  set (e' := fexp64 (Zdigits2 P + E)) in *.
  destruct (Zdigits2_bounds P HP) as [_ Hhi].
  pose proof (Zdigits2_pos P HP) as Hd.
  split.
  - pose proof (RNE_bounds P (e' - E) ltac:(lia)).
    assert (0 <= P / 2 ^ (e' - E)) by (apply Z.div_pos; [lia | apply pow2_pos; lia]).
    lia.
  - apply RNE_le_of_le; [lia |].
    rewrite <- Z.pow_add_r by lia.
    assert (Zdigits2 P <= 53 + (e' - E)) by (unfold e', fexp64; lia).
    assert (2 ^ Zdigits2 P <= 2 ^ (53 + (e' - E))) by (apply Z.pow_le_mono_r; lia).
    lia.
Qed.

Lemma binary_round_aux_pack (s : bool) (P : positive) (E : Z) :
  E <= fexp64 (Zdigits2 (Zpos P) + E) ->
  binary_round_aux prec emax s (Zpos P) E loc_Exact = pack s (round_pair (Zpos P) E).
Proof.
  intros Hn.
  pose proof (RNE_first_le (Zpos P) E ltac:(lia) Hn) as Hm0.
  unfold binary_round_aux, shr_fexp, round_pair.
  rewrite !fexp_fexp64. cbn [shr_record_of_loc].
  set (e' := fexp64 (Zdigits2 (Zpos P) + E)) in *.
  pose proof (shr_exact (Zpos P) E (e' - E) ltac:(lia) ltac:(lia)) as Hs.
  destruct (shr (Build_shr_record (Zpos P) false false) E (e' - E)) as [mrs e1].
  destruct Hs as (He1 & Hq & Hl).
  rewrite Hq, Hl. fold (RNE (Zpos P) (e' - E)).
  rewrite fexp_fexp64. change (emax - prec) with 971.
  set (m0 := RNE (Zpos P) (e' - E)) in *.
  assert (He1' : e1 = e') by lia. clear He1. subst e1.
  assert (Hemin : -1074 <= e') by (unfold e', fexp64; lia).
  destruct (Z.eqb_spec m0 (2 ^ 53)) as [E53 | N53].
  - rewrite E53.
    replace (fexp64 (Zdigits2 (2 ^ 53) + e') - e') with 1
      by (change (Zdigits2 (2 ^ 53)) with 54; unfold fexp64; lia).
    cbn [shr iter_pos]. unfold pack. cbn [fst snd].
    change (shr_m (shr_1 (Build_shr_record (2 ^ 53) false false))) with (2 ^ 52).
    change (2 ^ 52) with (Zpos 4503599627370496). cbn beta iota.
    reflexivity.
  - assert (Hd0 : Zdigits2 m0 <= 53) by (apply Zdigits2_le; lia).
    assert (Hn2 : fexp64 (Zdigits2 m0 + e') - e' <= 0) by (unfold fexp64; lia).
    unfold shr at 1.
    destruct (fexp64 (Zdigits2 m0 + e') - e') as [| p | p] eqn:En2; try lia;
      unfold pack; cbn [fst snd shr_m]; reflexivity.
Qed.

Lemma pow2_le (a b : Z) : 0 <= a <= b -> 2 ^ a <= 2 ^ b.
Proof. intros; apply Z.pow_le_mono_r; lia. Qed.

Lemma pow2_lt_inv (a b : Z) : 0 <= a -> 0 <= b -> 2 ^ a < 2 ^ b -> a < b.
Proof. intros Ha Hb H. apply (Z.pow_lt_mono_r_iff 2); lia. Qed.

Lemma pow2_split (a b : Z) : 0 <= a -> 0 <= b -> 2 ^ (a + b) = 2 ^ a * 2 ^ b.
Proof. intros; apply Z.pow_add_r; lia. Qed.

Section RoundPair.
Variables (P E : Z).
Hypothesis HP : 0 < P.
Hypothesis HE : -2148 <= E.
Hypothesis Hn : E <= fexp64 (Zdigits2 P + E).

Let e' := fexp64 (Zdigits2 P + E).

Lemma round_pair_grid :
  RNE P (e' - E) = RNE (P * 2 ^ (E + 2148)) (e' + 2148).
Proof.
  replace (e' + 2148) with ((e' - E) + (E + 2148)) by lia.
  symmetry. apply RNE_scale; unfold e' in *; lia.
Qed.

Lemma round_pair_val :
  valS (round_pair P E) = RNE P (e' - E) * 2 ^ (e' + 2148).
Proof.
  unfold round_pair, valS. fold e'.
  assert (-1074 <= e') by (unfold e', fexp64; lia).
  destruct (Z.eqb_spec (RNE P (e' - E)) (2 ^ 53)) as [-> | _]; cbn [fst snd]; [| reflexivity].
  replace (e' + 1 + 2148) with (1 + (e' + 2148)) by lia.
  rewrite (pow2_split 1 (e' + 2148)) by lia.
  change (2 ^ 53) with (2 ^ 52 * 2 ^ 1). ring.
Qed.

Lemma round_pair_canonical : canonical_pair (round_pair P E).
Proof.
  pose proof (RNE_first_le P E HP Hn) as Hm0.
  unfold round_pair, canonical_pair. fold e' in Hm0 |- *.
  assert (Hemin : -1074 <= e') by (unfold e', fexp64; lia).
  destruct (Z.eqb_spec (RNE P (e' - E)) (2 ^ 53)) as [E53 | N53]; cbn [fst snd].
  - repeat split; try lia. intros _.
    change (Zdigits2 (2 ^ 52)) with 53. unfold fexp64. lia.
  - repeat split; try lia. intros Hpos.
    set (m0 := RNE P (e' - E)) in *.
    assert (Hd0 : Zdigits2 m0 <= 53) by (apply Zdigits2_le; lia).
    pose proof (Zdigits2_pos m0 Hpos).
    destruct (Z.eq_dec e' (-1074)) as [Emin | Nmin].
    + rewrite Emin. unfold fexp64. lia.
    + assert (He' : e' = Zdigits2 P + E - 53) by (unfold e', fexp64 in *; lia).
      destruct (Zdigits2_bounds P HP) as [Hlo _].
      assert (H52 : 2 ^ 52 <= m0).
      { apply RNE_ge_of_ge; [lia |].
        rewrite <- pow2_split by lia.
        replace (52 + (e' - E)) with (Zdigits2 P - 1) by lia. exact Hlo. }
      rewrite (Zdigits2_unique m0 53) by (change (53 - 1) with 52; lia).
      unfold fexp64. lia.
Qed.
End RoundPair.

Lemma round_pair_mono (P1 E1 P2 E2 : Z) :
  0 < P1 -> 0 < P2 -> -2148 <= E1 -> -2148 <= E2 ->
  E1 <= fexp64 (Zdigits2 P1 + E1) ->
  E2 <= fexp64 (Zdigits2 P2 + E2) ->
  P1 * 2 ^ (E1 + 2148) <= P2 * 2 ^ (E2 + 2148) ->
  valS (round_pair P1 E1) <= valS (round_pair P2 E2).
Proof.
  intros HP1 HP2 HE1 HE2 Hn1 Hn2 Hle.
  rewrite !round_pair_val by assumption.
  rewrite !round_pair_grid by assumption.
  set (e1 := fexp64 (Zdigits2 P1 + E1)) in *.
  set (e2 := fexp64 (Zdigits2 P2 + E2)) in *.
  set (v1 := P1 * 2 ^ (E1 + 2148)) in *.
  set (v2 := P2 * 2 ^ (E2 + 2148)) in *.
  destruct (Zdigits2_bounds P1 HP1) as [Hlo1 Hhi1].
  destruct (Zdigits2_bounds P2 HP2) as [Hlo2 Hhi2].
  pose proof (Zdigits2_pos P1 HP1) as Hd1.
  pose proof (Zdigits2_pos P2 HP2) as Hd2.
  pose proof (pow2_pos (E1 + 2148) ltac:(lia)) as Ht1.
  pose proof (pow2_pos (E2 + 2148) ltac:(lia)) as Ht2.
  assert (Hv1lo : 2 ^ (Zdigits2 P1 - 1 + (E1 + 2148)) <= v1).
  { rewrite pow2_split by lia. unfold v1. nia. }
  assert (Hv1hi : v1 < 2 ^ (Zdigits2 P1 + (E1 + 2148))).
  { rewrite pow2_split by lia. unfold v1. nia. }
  assert (Hv2lo : 2 ^ (Zdigits2 P2 - 1 + (E2 + 2148)) <= v2).
  { rewrite pow2_split by lia. unfold v2. nia. }
  assert (Hv2hi : v2 < 2 ^ (Zdigits2 P2 + (E2 + 2148))).
  { rewrite pow2_split by lia. unfold v2. nia. }
  assert (HD : Zdigits2 P1 + E1 <= Zdigits2 P2 + E2).
  { assert (Zdigits2 P1 - 1 + (E1 + 2148) < Zdigits2 P2 + (E2 + 2148))
      by (apply pow2_lt_inv; lia).
    lia. }
  assert (He12 : e1 <= e2) by (unfold e1, e2, fexp64; lia).
  assert (Hm1 : -1074 <= e1) by (unfold e1, fexp64; lia).
  assert (Hm2 : -1074 <= e2) by (unfold e2, fexp64; lia).
  destruct (Z.eq_dec e1 e2) as [Eeq | Ene].
  - rewrite Eeq. apply Z.mul_le_mono_nonneg_r; [apply Z.lt_le_incl, pow2_pos; lia |].
    apply RNE_mono; lia.
  - assert (He2 : e2 = Zdigits2 P2 + E2 - 53) by (unfold e2, fexp64 in *; lia).
    assert (Hr2 : 2 ^ 52 <= RNE v2 (e2 + 2148)).
    { apply RNE_ge_of_ge; [lia |].
      rewrite <- pow2_split by lia.
      replace (52 + (e2 + 2148)) with (Zdigits2 P2 - 1 + (E2 + 2148)) by lia. exact Hv2lo. }
    assert (Hr1 : RNE v1 (e1 + 2148) <= 2 ^ 53).
    { apply RNE_le_of_le; [lia |].
      rewrite <- pow2_split by lia.
      assert (2 ^ (Zdigits2 P1 + (E1 + 2148)) <= 2 ^ (53 + (e1 + 2148)))
        by (apply pow2_le; unfold e1, fexp64; lia).
      lia. }
    pose proof (pow2_pos (e1 + 2148) ltac:(lia)) as Hg1.
    assert (Hg12 : 2 * 2 ^ (e1 + 2148) <= 2 ^ (e2 + 2148)).
    { replace (2 * 2 ^ (e1 + 2148)) with (2 ^ (1 + (e1 + 2148)))
        by (rewrite pow2_split by lia; reflexivity).
      apply pow2_le; lia. }
    change (2 ^ 53) with (2 * 2 ^ 52) in Hr1.
    nia.
Qed.

(** On canonical pairs, comparing values is comparing exponents first. *)
Lemma canonical_lex (m1 e1 m2 e2 : Z) :
  canonical_pair (m1, e1) -> canonical_pair (m2, e2) ->
  0 < m1 -> 0 < m2 ->
  valS (m1, e1) <= valS (m2, e2) ->
  e1 < e2 \/ (e1 = e2 /\ m1 <= m2).
Proof.
  unfold canonical_pair, valS; cbn [fst snd].
  intros (_ & Hmin1 & Hc1) (_ & Hmin2 & Hc2) Hp1 Hp2 Hle.
  specialize (Hc1 Hp1). specialize (Hc2 Hp2).
  destruct (Zdigits2_bounds m1 Hp1) as [Hlo1 Hhi1].
  destruct (Zdigits2_bounds m2 Hp2) as [Hlo2 Hhi2].
  pose proof (Zdigits2_pos m1 Hp1). pose proof (Zdigits2_pos m2 Hp2).
  pose proof (pow2_pos (e1 + 2148) ltac:(lia)) as Hg1.
  pose proof (pow2_pos (e2 + 2148) ltac:(lia)) as Hg2.
  destruct (Z.lt_trichotomy e1 e2) as [Hlt | [Heq | Hgt]].
  - now left.
  - right. split; [assumption |]. subst e2. nia.
  - exfalso.
    assert (Hd1 : Zdigits2 m1 = 53) by (unfold fexp64 in Hc1; lia).
    assert (Hd2 : Zdigits2 m2 <= 53) by (unfold fexp64 in Hc2; lia).
    rewrite Hd1 in Hlo1. change (53 - 1) with 52 in Hlo1.
    assert (m2 < 2 ^ 53) by (pose proof (pow2_le (Zdigits2 m2) 53 ltac:(lia)); lia).
    assert (Hg21 : 2 * 2 ^ (e2 + 2148) <= 2 ^ (e1 + 2148)).
    { replace (2 * 2 ^ (e2 + 2148)) with (2 ^ (1 + (e2 + 2148)))
        by (rewrite pow2_split by lia; reflexivity).
      apply pow2_le; lia. }
    change (2 ^ 53) with (2 * 2 ^ 52) in *.
    nia.
Qed.

Lemma pack_nonneg (p : Z * Z) :
  0 <= fst p -> SFnonneg (pack false p) = true.
Proof.
  unfold pack, SFnonneg. destruct p as [m e]; cbn [fst snd]. intros Hm.
  destruct m as [| q | q]; [reflexivity | | lia].
  destruct (e <=? 971); reflexivity.
Qed.

Lemma pack_le (p1 p2 : Z * Z) :
  canonical_pair p1 -> canonical_pair p2 ->
  valS p1 <= valS p2 ->
  SFleb (pack false p1) (pack false p2) = true.
Proof.
  destruct p1 as [m1 e1], p2 as [m2 e2]. intros C1 C2 Hle.
  pose proof C1 as (Hm1 & He1 & _). pose proof C2 as (Hm2 & He2 & _).
  cbn [fst snd] in *.
  pose proof (pow2_pos (e1 + 2148) ltac:(lia)) as Hg1.
  pose proof (pow2_pos (e2 + 2148) ltac:(lia)) as Hg2.
  destruct m1 as [| q1 | q1]; [ | | lia].
  - unfold pack; cbn [fst snd]. destruct m2 as [| q2 | q2]; [reflexivity | | lia].
    destruct (e2 <=? 971); reflexivity.
  - destruct m2 as [| q2 | q2]; [unfold valS in Hle; cbn [fst snd] in Hle; nia | | lia].
    destruct (canonical_lex _ _ _ _ C1 C2 ltac:(lia) ltac:(lia) Hle) as [Hlt | [Heq Hm]].
    + unfold pack; cbn [fst snd].
      destruct (Z.leb_spec e1 971), (Z.leb_spec e2 971); try lia; try reflexivity.
      unfold SFleb, SFcompare. rewrite (proj2 (Z.compare_lt_iff e1 e2) Hlt). reflexivity.
    + subst e2. unfold pack; cbn [fst snd].
      destruct (Z.leb_spec e1 971); [| reflexivity].
      unfold SFleb, SFcompare. rewrite Z.compare_refl.
      change (Pos.compare_cont Eq q1 q2) with (Pos.compare q1 q2).
      destruct (Pos.compare_spec q1 q2); try reflexivity. lia.
Qed.

Lemma SFnonneg_class (x : spec_float) : SFnonneg x = nn_class x.
Proof. destruct x as [s | s | | s m e]; try destruct s; reflexivity. Qed.

Lemma valid_finite_canonical (s : bool) (m : positive) (e : Z) :
  valid_binary (S754_finite s m e) = true ->
  canonical_pair (Zpos m, e) /\ e <= 971.
Proof.
  unfold SpecFloat.valid_binary, bounded, canonical_mantissa.
  rewrite fexp_fexp64. change (emax - prec) with 971.
  intros H. apply andb_prop in H. destruct H as [H1 H2].
  apply Z.eqb_eq in H1. apply Z.leb_le in H2.
  split; [| assumption].
  unfold canonical_pair; cbn [fst snd Zdigits2].
  repeat split; try lia. unfold fexp64 in H1. lia.
Qed.

Lemma canonical_digits (m e : Z) :
  canonical_pair (m, e) -> 0 < m ->
  Zdigits2 m <= 53 /\ (Zdigits2 m = 53 \/ e = -1074).
Proof.
  unfold canonical_pair, fexp64; cbn [fst snd]. intros (_ & _ & H) Hm.
  specialize (H Hm). lia.
Qed.

Lemma topS_pos : 0 < topS.
Proof. unfold topS. apply pow2_pos. lia. Qed.

Lemma topS_split : topS = 2 ^ 53 * 2 ^ 3119.
Proof.
  unfold topS. change 3172 with (53 + 3119).
  apply pow2_split; lia.
Qed.

Lemma unitS_pos : 0 < unitS.
Proof. unfold unitS. apply pow2_pos. lia. Qed.

Lemma unitS_below_topS : unitS < topS.
Proof. unfold unitS, topS. apply Z.pow_lt_mono_r; lia. Qed.

Lemma canonical_val_bounds (m e : Z) :
  canonical_pair (m, e) -> 0 < m -> e <= 971 ->
  0 < valS (m, e) < topS.
Proof.
  intros C Hm He. pose proof C as (_ & Hmin & _). cbn [snd] in Hmin.
  destruct (canonical_digits m e C Hm) as [Hd _].
  destruct (Zdigits2_bounds m Hm) as [_ Hhi].
  pose proof (Zdigits2_pos m Hm).
  pose proof (pow2_le (Zdigits2 m) 53 ltac:(lia)).
  pose proof (pow2_pos (e + 2148) ltac:(lia)).
  pose proof (pow2_le (e + 2148) 3119 ltac:(lia)) as HB.
  unfold valS; cbn [fst snd]. rewrite topS_split.
  remember (2 ^ 3119) as B eqn:EB. clear EB.
  nia.
Qed.

Lemma canonical_strict (m1 e1 m2 e2 : Z) :
  canonical_pair (m1, e1) -> canonical_pair (m2, e2) ->
  0 < m1 -> 0 < m2 -> e1 < e2 ->
  valS (m1, e1) < valS (m2, e2).
Proof.
  intros C1 C2 H1 H2 Hlt.
  destruct (Z.lt_ge_cases (valS (m1, e1)) (valS (m2, e2))) as [| Hge]; [assumption |].
  destruct (canonical_lex _ _ _ _ C2 C1 H2 H1 Hge); lia.
Qed.

Lemma SFcompare_valx (x y : spec_float) :
  valid_binary x = true -> valid_binary y = true ->
  nn_class x = true -> nn_class y = true ->
  SFcompare x y = Some (valx x ?= valx y).
Proof.
  intros Vx Vy Nx Ny.
  destruct x as [sx | sx | | sx mx ex]; try discriminate;
    destruct y as [sy | sy | | sy my ey]; try discriminate;
    cbn [nn_class] in Nx, Ny;
    repeat match goal with
           | H : negb ?s = true |- _ => apply negb_true_iff in H; subst s
           end;
    try (apply valid_finite_canonical in Vx; destruct Vx as [Cx Bx];
         pose proof (canonical_val_bounds _ _ Cx ltac:(lia) Bx));
    try (apply valid_finite_canonical in Vy; destruct Vy as [Cy By];
         pose proof (canonical_val_bounds _ _ Cy ltac:(lia) By));
    cbn [SFcompare valx].
  - reflexivity.
  - reflexivity.
  - f_equal. symmetry. apply Z.compare_lt_iff. lia.
  - reflexivity.
  - reflexivity.
  - f_equal. symmetry. apply Z.compare_gt_iff. lia.
  - f_equal. symmetry. apply Z.compare_gt_iff. lia.
  - f_equal. symmetry. apply Z.compare_lt_iff. lia.
  - f_equal.
    destruct (Z.compare_spec ex ey) as [Heq | Hlt | Hgt].
    + subst ey. unfold valS; cbn [fst snd].
      pose proof Cx as (_ & Hmin & _). cbn [snd] in Hmin.
      pose proof (pow2_pos (ex + 2148) ltac:(lia)).
      change (Pos.compare_cont Eq mx my) with (Zpos mx ?= Zpos my).
      destruct (Z.compare_spec (Zpos mx) (Zpos my)); symmetry;
        [apply Z.compare_eq_iff | apply Z.compare_lt_iff | apply Z.compare_gt_iff]; nia.
    + symmetry. apply Z.compare_lt_iff. apply canonical_strict; assumption || lia.
    + symmetry. apply Z.compare_gt_iff. apply canonical_strict; assumption || lia.
Qed.

Lemma SFleb_valx (x y : spec_float) :
  valid_binary x = true -> valid_binary y = true ->
  nn_class x = true -> nn_class y = true ->
  SFleb x y = (valx x <=? valx y).
Proof.
  intros. unfold SFleb. rewrite SFcompare_valx by assumption.
  unfold Z.leb. destruct (valx x ?= valx y); reflexivity.
Qed.

Lemma SFltb_valx (x y : spec_float) :
  valid_binary x = true -> valid_binary y = true ->
  nn_class x = true -> nn_class y = true ->
  SFltb x y = (valx x <? valx y).
Proof.
  intros. unfold SFltb. rewrite SFcompare_valx by assumption.
  unfold Z.ltb. destruct (valx x ?= valx y); reflexivity.
Qed.

(** Whatever is above a non-negative number is non-negative. *)
Lemma nn_class_above (x y : spec_float) :
  nn_class x = true -> SFleb x y = true -> nn_class y = true.
Proof.
  destruct x as [sx | sx | | sx mx ex], y as [sy | sy | | sy my ey];
    try destruct sx; try destruct sy; cbn; congruence.
Qed.

Lemma SFleb_zero_l (s : bool) (z : spec_float) :
  nn_class z = true -> SFleb (S754_zero s) z = true.
Proof. destruct z as [sz | sz | | sz mz ez]; try destruct sz; cbn; congruence. Qed.

Lemma SFleb_inf_r (z : spec_float) :
  nn_class z = true -> SFleb z (S754_infinity false) = true.
Proof. destruct z as [sz | sz | | sz mz ez]; try destruct sz; cbn; congruence. Qed.

Lemma pack_class (p : Z * Z) : 0 <= fst p -> nn_class (pack false p) = true.
Proof.
  destruct p as [m e]; unfold pack; cbn [fst snd]. intros H.
  destruct m; try lia; [reflexivity |]. destruct (e <=? 971); reflexivity.
Qed.

Lemma product_shift (ma mx : positive) (ea ex : Z) :
  canonical_pair (Zpos ma, ea) -> canonical_pair (Zpos mx, ex) ->
  -2148 <= ea + ex /\
  ea + ex <= fexp64 (Zdigits2 (Zpos (ma * mx)) + (ea + ex)).
Proof.
  intros Ca Cx.
  pose proof Ca as (_ & Hmina & _). pose proof Cx as (_ & Hminx & _).
  cbn [fst snd] in Hmina, Hminx.
  destruct (canonical_digits _ _ Ca ltac:(lia)) as [Hda Hda'].
  destruct (canonical_digits _ _ Cx ltac:(lia)) as [Hdx Hdx'].
  destruct (Zdigits2_bounds (Zpos ma) ltac:(lia)) as [Hloa _].
  destruct (Zdigits2_bounds (Zpos mx) ltac:(lia)) as [Hlox _].
  destruct (Zdigits2_bounds (Zpos (ma * mx)) ltac:(lia)) as [_ Hhip].
  pose proof (Zdigits2_pos (Zpos ma) ltac:(lia)) as Hpa.
  pose proof (Zdigits2_pos (Zpos mx) ltac:(lia)) as Hpx.
  pose proof (Zdigits2_pos (Zpos (ma * mx)) ltac:(lia)) as Hpp.
  split; [lia |].
  assert (Hd : Zdigits2 (Zpos ma) + Zdigits2 (Zpos mx) - 1 <= Zdigits2 (Zpos (ma * mx))).
  { assert (Hprod : 2 ^ ((Zdigits2 (Zpos ma) - 1) + (Zdigits2 (Zpos mx) - 1)) <= Zpos (ma * mx)).
    { rewrite pow2_split by lia. rewrite Pos2Z.inj_mul.
      pose proof (pow2_pos (Zdigits2 (Zpos ma) - 1) ltac:(lia)).
      pose proof (pow2_pos (Zdigits2 (Zpos mx) - 1) ltac:(lia)).
      nia. }
    assert (Zdigits2 (Zpos ma) - 1 + (Zdigits2 (Zpos mx) - 1) < Zdigits2 (Zpos (ma * mx)))
      by (apply pow2_lt_inv; lia).
    lia. }
  unfold fexp64. lia.
Qed.

Lemma SFmul_finite (sa sx : bool) (ma mx : positive) (ea ex : Z) :
  canonical_pair (Zpos ma, ea) -> canonical_pair (Zpos mx, ex) ->
  SFmul prec emax (S754_finite sa ma ea) (S754_finite sx mx ex)
  = pack (xorb sa sx) (round_pair (Zpos (ma * mx)) (ea + ex)).
Proof.
  intros Ca Cx. cbn [SFmul].
  apply binary_round_aux_pack.
  apply (product_shift ma mx ea ex Ca Cx).
Qed.

Lemma valS_product (ma mx : positive) (ea ex : Z) :
  -1074 <= ea -> -1074 <= ex ->
  Zpos (ma * mx) * 2 ^ (ea + ex + 2148)
  = (Zpos ma * 2 ^ (ea + 1074)) * (Zpos mx * 2 ^ (ex + 1074)).
Proof.
  intros Ha Hx.
  replace (ea + ex + 2148) with ((ea + 1074) + (ex + 1074)) by lia.
  rewrite pow2_split by lia. rewrite Pos2Z.inj_mul. ring.
Qed.

Lemma valS_split (m e : Z) :
  -1074 <= e -> valS (m, e) = (m * 2 ^ (e + 1074)) * 2 ^ 1074.
Proof.
  intros He. unfold valS; cbn [fst snd].
  replace (e + 2148) with ((e + 1074) + 1074) by lia.
  rewrite pow2_split by lia. apply Z.mul_assoc.
Qed.

Lemma SFmul_finite_mono (mx my ma mb : positive) (ex ey ea eb : Z) :
  canonical_pair (Zpos mx, ex) -> canonical_pair (Zpos my, ey) ->
  canonical_pair (Zpos ma, ea) -> canonical_pair (Zpos mb, eb) ->
  valS (Zpos mx, ex) <= valS (Zpos my, ey) ->
  valS (Zpos ma, ea) <= valS (Zpos mb, eb) ->
  SFleb (SFmul prec emax (S754_finite false mx ex) (S754_finite false ma ea))
        (SFmul prec emax (S754_finite false my ey) (S754_finite false mb eb)) = true.
Proof.
  intros Cx Cy Ca Cb Hxy Hab.
  rewrite !SFmul_finite by assumption. cbn [xorb].
  destruct (product_shift mx ma ex ea Cx Ca) as [HE1 Hn1].
  destruct (product_shift my mb ey eb Cy Cb) as [HE2 Hn2].
  pose proof Cx as (_ & Hminx & _). pose proof Cy as (_ & Hminy & _).
  pose proof Ca as (_ & Hmina & _). pose proof Cb as (_ & Hminb & _).
  cbn [fst snd] in Hminx, Hminy, Hmina, Hminb.
  apply pack_le.
  - apply round_pair_canonical; lia || assumption.
  - apply round_pair_canonical; lia || assumption.
  - apply round_pair_mono; try lia; try assumption.
    rewrite !valS_product by assumption.
    rewrite !valS_split in Hxy, Hab by assumption.
    pose proof (pow2_pos (ex + 1074) ltac:(lia)).
    pose proof (pow2_pos (ea + 1074) ltac:(lia)).
    pose proof (pow2_pos (ey + 1074) ltac:(lia)).
    pose proof (pow2_pos (eb + 1074) ltac:(lia)).
    assert (H1074 : 0 < 2 ^ 1074) by (apply pow2_pos; lia).
    remember (2 ^ 1074) as C eqn:EC. clear EC.
    assert (Zpos mx * 2 ^ (ex + 1074) <= Zpos my * 2 ^ (ey + 1074)) by nia.
    assert (Zpos ma * 2 ^ (ea + 1074) <= Zpos mb * 2 ^ (eb + 1074)) by nia.
    apply Z.mul_le_mono_nonneg; lia.
Qed.

Lemma nn_viewP (z : spec_float) :
  valid_binary z = true -> nn_class z = true -> nn_view z.
Proof.
  intros V N. destruct z as [s | s | | s m e]; cbn [nn_class] in N; try discriminate.
  - constructor.
  - apply negb_true_iff in N; subst s. constructor.
  - apply negb_true_iff in N; subst s.
    destruct (valid_finite_canonical _ _ _ V) as [C B].
    constructor; try assumption. apply canonical_val_bounds; assumption || lia.
Qed.

Lemma SFmul_finite_class (ma mx : positive) (ea ex : Z) :
  canonical_pair (Zpos ma, ea) -> canonical_pair (Zpos mx, ex) ->
  nn_class (SFmul prec emax (S754_finite false ma ea) (S754_finite false mx ex)) = true.
Proof.
  intros Ca Cx. rewrite SFmul_finite by assumption. cbn [xorb].
  apply pack_class.
  destruct (product_shift ma mx ea ex Ca Cx) as [HE Hn].
  apply (round_pair_canonical (Zpos (ma * mx)) (ea + ex)); lia || assumption.
Qed.

(** Multiplication of non-negative binary64 numbers is monotone in both
    arguments, unless one of the two products is undefined (0 times infinity). *)
Theorem SFmul_mono (x y a b : spec_float) :
  valid_binary x = true -> valid_binary y = true ->
  valid_binary a = true -> valid_binary b = true ->
  nn_class x = true -> nn_class y = true ->
  nn_class a = true -> nn_class b = true ->
  valx x <= valx y -> valx a <= valx b ->
  SFmul prec emax x a = S754_nan \/
  SFmul prec emax y b = S754_nan \/
  (nn_class (SFmul prec emax x a) = true /\
   SFleb (SFmul prec emax x a) (SFmul prec emax y b) = true).
Proof.
  intros Vx Vy Va Vb Nx Ny Na Nb Hxy Hab.
  pose proof topS_pos as Hbig.
  destruct (nn_viewP x Vx Nx) as [sx | | mx ex Cx Bx Rx];
    destruct (nn_viewP a Va Na) as [sa | | ma ea Ca Ba Ra];
    destruct (nn_viewP y Vy Ny) as [sy | | my ey Cy By Ry];
    destruct (nn_viewP b Vb Nb) as [sb | | mb eb Cb Bb Rb];
    cbn [valx] in Hxy, Hab; try (exfalso; lia);
    first
      [ left; reflexivity
      | right; left; reflexivity
      | right; right; split;
        [ first [ apply SFmul_finite_class; assumption | reflexivity ]
        | first [ apply SFmul_finite_mono; assumption
                | apply SFleb_zero_l; first [ apply SFmul_finite_class; assumption | reflexivity ]
                | apply SFleb_inf_r; first [ apply SFmul_finite_class; assumption | reflexivity ]
                | reflexivity ] ] ].
Qed.

Lemma Prim2SF_one : Prim2SF 1%float = SFone.
Proof. reflexivity. Qed.

Lemma Prim2SF_zero : Prim2SF 0%float = S754_zero false.
Proof. reflexivity. Qed.

Lemma valx_one : valx SFone = unitS.
Proof.
  unfold valx, SFone, valS, unitS; cbn [fst snd].
  change (Zpos 4503599627370496) with (2 ^ 52).
  change (-52 + 2148) with 2096. change 2148 with (52 + 2096).
  symmetry. apply pow2_split; lia.
Qed.

Lemma SFmul_one_r (x : spec_float) :
  valid_binary x = true -> SFmul prec emax x SFone = x.
Proof.
  intros V. destruct x as [s | s | | s m e]; try (destruct s; reflexivity); try reflexivity.
  destruct (valid_finite_canonical _ _ _ V) as [C B].
  assert (C1 : canonical_pair (Zpos 4503599627370496, -52)).
  { unfold canonical_pair; cbn [fst snd]. repeat split; try lia. }
  unfold SFone. rewrite SFmul_finite by assumption.
  rewrite xorb_false_r.
  destruct (canonical_digits _ _ C ltac:(lia)) as [Hd Hd'].
  destruct (Zdigits2_bounds (Zpos m) ltac:(lia)) as [Hlo Hhi].
  pose proof (Zdigits2_pos (Zpos m) ltac:(lia)) as Hp.
  pose proof C as (_ & Hmin & Hc). cbn [fst snd] in Hmin, Hc. specialize (Hc ltac:(lia)).
  assert (HP : Zpos (m * 4503599627370496) = Zpos m * 2 ^ 52) by (rewrite Pos2Z.inj_mul; reflexivity).
  assert (HdP : Zdigits2 (Zpos (m * 4503599627370496)) = Zdigits2 (Zpos m) + 52).
  { apply Zdigits2_unique; [| lia]. rewrite HP.
    replace (Zdigits2 (Zpos m) + 52 - 1) with ((Zdigits2 (Zpos m) - 1) + 52) by lia.
    rewrite !pow2_split by lia. lia. }
  unfold round_pair. rewrite HdP.
  replace (Zdigits2 (Zpos m) + 52 + (e + -52)) with (Zdigits2 (Zpos m) + e) by lia.
  rewrite Hc. replace (e - (e + -52)) with 52 by lia.
  rewrite HP, RNE_mul_pow2 by lia.
  assert (Hlt : Zpos m < 2 ^ 53) by (pose proof (pow2_le (Zdigits2 (Zpos m)) 53 ltac:(lia)); lia).
  destruct (Z.eqb_spec (Zpos m) (2 ^ 53)) as [E53 | _]; [lia |].
  unfold pack; cbn [fst snd].
  destruct (Z.leb_spec e 971); [reflexivity | lia].
Qed.

Lemma SFmul_not_nan (x a : spec_float) :
  valid_binary x = true -> valid_binary a = true ->
  nn_class x = true -> nn_class a = true ->
  valx x < topS -> valx a < topS ->
  SFmul prec emax x a <> S754_nan.
Proof.
  intros Vx Va Nx Na Hx Ha.
  destruct (nn_viewP x Vx Nx) as [sx | | mx ex Cx Bx Rx];
    destruct (nn_viewP a Va Na) as [sa | | ma ea Ca Ba Ra];
    cbn [valx] in Hx, Ha; try lia; try (cbn; discriminate).
  intros H. pose proof (SFmul_finite_class mx ma ex ea Cx Ca) as K.
  rewrite H in K. discriminate.
Qed.

Lemma SFeqb_refl (x : spec_float) : x <> S754_nan -> SFeqb x x = true.
Proof.
  intros H. destruct x as [s | s | | s m e]; try congruence; unfold SFeqb; cbn.
  - reflexivity.
  - destruct s; reflexivity.
  - rewrite Z.compare_refl.
    change (Pos.compare_cont Eq m m) with (Pos.compare m m). rewrite Pos.compare_refl.
    destruct s; reflexivity.
Qed.

Lemma SFcompare_swap (x y : spec_float) :
  SFcompare y x = option_map CompOpp (SFcompare x y).
Proof.
  destruct x as [sx | sx | | sx mx ex], y as [sy | sy | | sy my ey];
    try destruct sx; try destruct sy; cbn; try reflexivity;
    rewrite (Z.compare_antisym ex ey);
    destruct (ex ?= ey); cbn; try reflexivity;
    change (Pos.compare_cont Eq my mx) with (Pos.compare my mx);
    change (Pos.compare_cont Eq mx my) with (Pos.compare mx my);
    rewrite (Pos.compare_antisym mx my); destruct (Pos.compare mx my); reflexivity.
Qed.

Lemma Pos_iter_xO (p n : positive) : Zpos (Pos.iter xO p n) = Zpos p * 2 ^ Zpos n.
Proof.
  induction n as [| n IH] using Pos.peano_ind.
  - cbn. lia.
  - rewrite Pos.iter_succ, Pos2Z.inj_xO, IH, Pos2Z.inj_succ, Z.pow_succ_r by lia. ring.
Qed.

Lemma Z2SF_exact (z : Z) :
  0 < z <= 2 ^ 53 ->
  exists m e, Z2SF z = S754_finite false m e /\
              valid_binary (S754_finite false m e) = true /\
              valS (Zpos m, e) = z * unitS.
Proof.
  intros [H0 H53].
  destruct (Z.eq_dec z (2 ^ 53)) as [-> | Hne].
  { exists 4503599627370496%positive, 1. split; [vm_compute; reflexivity |].
    split; [reflexivity |].
    unfold valS, unitS; cbn [fst snd].
    rewrite (pow2_split 1 2148) by lia. apply Z.mul_assoc. }
  destruct z as [| p | p]; try lia.
  assert (Hlt : Zpos p < 2 ^ 53) by lia.
  pose proof (Zdigits2_pos (Zpos p) ltac:(lia)) as Hdp.
  assert (Hd : Zdigits2 (Zpos p) <= 53) by (apply Zdigits2_le; lia).
  destruct (Zdigits2_bounds (Zpos p) ltac:(lia)) as [Hlo Hhi].
  set (d := Zdigits2 (Zpos p)) in *.
  unfold Z2SF, binary_normalize, binary_round.
  rewrite fexp_fexp64.
  change (Zpos (digits2_pos p)) with d. rewrite Z.add_0_r.
  assert (Hf : fexp64 d = d - 53) by (unfold fexp64; lia).
  rewrite Hf. unfold shl_align. rewrite Z.sub_0_r.
  assert (Hres : forall (q : positive) (E : Z),
             Zdigits2 (Zpos q) = 53 -> -52 <= E <= 0 ->
             Zpos q * 2 ^ (E + 2148) = Zpos p * unitS ->
             exists m e,
               binary_round_aux prec emax false (Zpos q) E loc_Exact = S754_finite false m e /\
               valid_binary (S754_finite false m e) = true /\
               valS (Zpos m, e) = Zpos p * unitS).
  { intros q E Hq HE Hv.
    exists q, E.
    assert (HfE : fexp64 (Zdigits2 (Zpos q) + E) = E) by (rewrite Hq; unfold fexp64; lia).
    rewrite binary_round_aux_pack by lia.
    unfold round_pair. rewrite HfE, Z.sub_diag.
    assert (HR : RNE (Zpos q) 0 = Zpos q).
    { rewrite RNE_exact by (cbn; apply Z.mod_1_r). cbn. apply Z.div_1_r. }
    rewrite HR.
    destruct (Zdigits2_bounds (Zpos q) ltac:(lia)) as [_ Hqhi]. rewrite Hq in Hqhi.
    destruct (Z.eqb_spec (Zpos q) (2 ^ 53)); [lia |].
    unfold pack; cbn [fst snd].
    destruct (Z.leb_spec E 971); [| lia].
    repeat split.
    - unfold SpecFloat.valid_binary, bounded, canonical_mantissa.
      rewrite fexp_fexp64. change (Zpos (digits2_pos q)) with (Zdigits2 (Zpos q)).
      rewrite HfE, Z.eqb_refl. cbn [andb]. apply Z.leb_le. change (emax - prec) with 971. lia.
    - exact Hv. }
  destruct (d - 53) as [| n | n] eqn:En.
  - apply Hres; [fold d; lia | lia | reflexivity].
  - lia.
  - assert (Hn : Zpos n = 53 - d) by lia.
    rewrite <- En.
    apply Hres.
    + apply Zdigits2_unique; [| lia].
      rewrite Pos_iter_xO, Hn. change (53 - 1) with 52.
      pose proof (pow2_pos (53 - d) ltac:(lia)).
      pose proof (pow2_split (d - 1) (53 - d) ltac:(lia) ltac:(lia)) as S1.
      pose proof (pow2_split d (53 - d) ltac:(lia) ltac:(lia)) as S2.
      replace (d - 1 + (53 - d)) with 52 in S1 by lia.
      replace (d + (53 - d)) with 53 in S2 by lia.
      rewrite S1, S2. nia.
    + lia.
    + rewrite Pos_iter_xO, Hn. unfold unitS.
      rewrite <- Z.mul_assoc, <- pow2_split by lia.
      f_equal. f_equal. lia.
Qed.

Lemma is_nan_spec (x : float) : is_nan x = true <-> Prim2SF x = S754_nan.
Proof.
  unfold is_nan. rewrite FloatAxioms.eqb_spec. split.
  - intros H. destruct (Prim2SF x) as [s | s | | s m e] eqn:E; try reflexivity;
      rewrite SFeqb_refl in H by discriminate; discriminate.
  - intros ->. reflexivity.
Qed.

Lemma nonneg_class (x : float) : nonneg x = true -> nn_class (Prim2SF x) = true.
Proof.
  unfold nonneg. rewrite FloatAxioms.leb_spec, Prim2SF_zero. intros H.
  rewrite <- SFnonneg_class. exact H.
Qed.

Lemma class_nonneg (x : float) : nn_class (Prim2SF x) = true -> nonneg x = true.
Proof.
  unfold nonneg. rewrite FloatAxioms.leb_spec, Prim2SF_zero. intros H.
  rewrite <- SFnonneg_class in H. exact H.
Qed.

Lemma leb_valx (x y : float) :
  nonneg x = true -> (x <=? y)%float = true ->
  nonneg y = true /\ valx (Prim2SF x) <= valx (Prim2SF y).
Proof.
  intros Nx Hle. apply nonneg_class in Nx. rewrite FloatAxioms.leb_spec in Hle.
  pose proof (nn_class_above _ _ Nx Hle) as Ny.
  split; [now apply class_nonneg |].
  rewrite SFleb_valx in Hle by (assumption || apply Prim2SF_valid).
  now apply Z.leb_le.
Qed.

Lemma valx_leb (x y : float) :
  nonneg x = true -> nonneg y = true ->
  valx (Prim2SF x) <= valx (Prim2SF y) -> (x <=? y)%float = true.
Proof.
  intros Nx Ny H. rewrite FloatAxioms.leb_spec.
  rewrite SFleb_valx by (apply Prim2SF_valid || now apply nonneg_class).
  now apply Z.leb_le.
Qed.

Theorem mul_mono (x y a b : float) :
  nonneg x = true -> nonneg a = true ->
  (x <=? y)%float = true -> (a <=? b)%float = true ->
  is_nan (x * a) = true \/ is_nan (y * b) = true \/
  (nonneg (x * a) = true /\ (x * a <=? y * b)%float = true).
Proof.
  intros Nx Na Hxy Hab.
  destruct (leb_valx x y Nx Hxy) as [Ny Vxy].
  destruct (leb_valx a b Na Hab) as [Nb Vab].
  destruct (SFmul_mono (Prim2SF x) (Prim2SF y) (Prim2SF a) (Prim2SF b))
    as [H | [H | [H1 H2]]];
    try apply Prim2SF_valid; try (now apply nonneg_class); try assumption.
  - left. apply is_nan_spec. rewrite FloatAxioms.mul_spec. exact H.
  - right; left. apply is_nan_spec. rewrite FloatAxioms.mul_spec. exact H.
  - right; right. split.
    + apply class_nonneg. rewrite FloatAxioms.mul_spec. exact H1.
    + rewrite FloatAxioms.leb_spec, !FloatAxioms.mul_spec. exact H2.
Qed.

Lemma mul_nan_l (x a : float) : is_nan x = true -> is_nan (x * a) = true.
Proof.
  rewrite !is_nan_spec, FloatAxioms.mul_spec. intros ->. reflexivity.
Qed.

Lemma le_or_nan_mul (u v a b : float) :
  le_or_nan u v -> nonneg a = true -> (a <=? b)%float = true ->
  le_or_nan (u * a) (v * b).
Proof.
  intros [Hu | [Hv | [Nu Huv]]] Na Hab.
  - left. now apply mul_nan_l.
  - right; left. now apply mul_nan_l.
  - apply mul_mono; assumption.
Qed.

Lemma leb_refl_nonneg (a : float) : nonneg a = true -> (a <=? a)%float = true.
Proof. intros N. apply valx_leb; try assumption. lia. Qed.

Lemma le_or_nan_refl (u : float) : nonneg u = true -> le_or_nan u u.
Proof. intros N. right; right. split; [assumption | now apply leb_refl_nonneg]. Qed.

Lemma SFleb_total (x y : spec_float) :
  x <> S754_nan -> y <> S754_nan -> SFleb x y = negb (SFltb y x).
Proof.
  intros Hx Hy. unfold SFleb, SFltb. rewrite (SFcompare_swap x y).
  destruct x as [sx | sx | | sx mx ex], y as [sy | sy | | sy my ey]; try congruence;
    try destruct sx; try destruct sy; cbn; try reflexivity;
    destruct (ex ?= ey); try reflexivity;
    destruct (Pos.compare_cont Eq mx my); reflexivity.
Qed.

Lemma leb_total (x y : float) :
  is_nan x = false -> is_nan y = false -> (x <=? y)%float = negb (y <? x)%float.
Proof.
  intros Hx Hy. rewrite FloatAxioms.leb_spec, FloatAxioms.ltb_spec. apply SFleb_total.
  - intros E. apply is_nan_spec in E. congruence.
  - intros E. apply is_nan_spec in E. congruence.
Qed.

Lemma leb_not_nan (x y : float) :
  (x <=? y)%float = true -> is_nan x = false /\ is_nan y = false.
Proof.
  rewrite FloatAxioms.leb_spec. intros H.
  split; apply not_true_is_false; intros E; apply is_nan_spec in E; rewrite E in H;
    [| destruct (Prim2SF x)]; discriminate.
Qed.

Lemma ltb_false_of_nan_l (x y : float) : is_nan x = true -> (x <? y)%float = false.
Proof. rewrite is_nan_spec, FloatAxioms.ltb_spec. intros ->. reflexivity. Qed.

Lemma ltb_false_of_nan_r (x y : float) : is_nan y = true -> (x <? y)%float = false.
Proof. rewrite is_nan_spec, FloatAxioms.ltb_spec. intros ->. destruct (Prim2SF x); reflexivity. Qed.

Lemma le_or_nan_not_gt (u v : float) : le_or_nan u v -> (v <? u)%float = false.
Proof.
  intros [Hu | [Hv | [_ Huv]]].
  - now apply ltb_false_of_nan_r.
  - now apply ltb_false_of_nan_l.
  - destruct (leb_not_nan _ _ Huv) as [Nu Nv].
    rewrite (leb_total u v Nu Nv) in Huv. now apply negb_true_iff in Huv.
Qed.

Lemma pymin_nan (u : float) : is_nan u = true -> is_nan (pymin u 1) = true.
Proof.
  intros H. unfold pymin. now rewrite ltb_false_of_nan_r.
Qed.

Lemma le_or_nan_pymin (u v : float) :
  le_or_nan u v -> le_or_nan (pymin u 1) (pymin v 1).
Proof.
  intros [Hu | [Hv | [Nu Huv]]].
  - left. now apply pymin_nan.
  - right; left. now apply pymin_nan.
  - right; right.
    destruct (leb_valx u v Nu Huv) as [Nv Vuv].
    destruct (leb_not_nan _ _ Huv) as [Hu Hv].
    assert (N1 : nonneg 1 = true) by reflexivity.
    assert (H1 : is_nan 1 = false) by reflexivity.
    unfold pymin.
    destruct (1 <? u)%float eqn:Eu, (1 <? v)%float eqn:Ev.
    + split; reflexivity.
    + exfalso.
      rewrite FloatAxioms.ltb_spec, SFltb_valx in Eu, Ev
        by (apply Prim2SF_valid || now apply nonneg_class).
      apply Z.ltb_lt in Eu. apply Z.ltb_ge in Ev. lia.
    + split; [assumption |].
      rewrite (leb_total u 1 Hu H1), Eu. reflexivity.
    + split; assumption.
Qed.

Lemma in_unit_split (x : float) :
  in_unit x = true -> nonneg x = true /\ (x <=? 1)%float = true.
Proof. unfold in_unit, nonneg. intros H. now apply andb_prop in H. Qed.

Lemma in_unit_finite (x : float) :
  in_unit x = true -> valx (Prim2SF x) < topS.
Proof.
  intros H. destruct (in_unit_split x H) as [N L].
  destruct (leb_valx x 1 N L) as [_ V].
  rewrite Prim2SF_one, valx_one in V.
  pose proof unitS_below_topS. lia.
Qed.

Lemma mul_not_nan (x a : float) :
  nonneg x = true -> nonneg a = true ->
  valx (Prim2SF x) < topS -> valx (Prim2SF a) < topS ->
  is_nan (x * a) = false.
Proof.
  intros Nx Na Hx Ha. apply not_true_is_false. intros E.
  apply is_nan_spec in E. rewrite FloatAxioms.mul_spec in E.
  revert E. apply SFmul_not_nan; try apply Prim2SF_valid;
    try (now apply nonneg_class); assumption.
Qed.

Theorem in_unit_mul (x a : float) :
  in_unit x = true -> in_unit a = true -> in_unit (x * a) = true.
Proof.
  intros Hx Ha.
  destruct (in_unit_split x Hx) as [Nx Lx].
  destruct (in_unit_split a Ha) as [Na La].
  pose proof (mul_not_nan x a Nx Na (in_unit_finite x Hx) (in_unit_finite a Ha)) as NN.
  destruct (mul_mono x 1 a 1 Nx Na Lx La) as [H | [H | [H1 H2]]].
  - congruence.
  - discriminate.
  - unfold in_unit. unfold nonneg in H1. rewrite H1.
    change (1 * 1)%float with 1%float in H2. rewrite H2. reflexivity.
Qed.

Lemma in_unit_pymin (r : float) : in_unit r = true -> in_unit (pymin r 1) = true.
Proof. intros H. unfold pymin. destruct (1 <? r)%float; [reflexivity | assumption]. Qed.

Theorem mul_one_r (x : float) : (x * 1)%float = x.
Proof.
  apply Prim2SF_inj. rewrite FloatAxioms.mul_spec, Prim2SF_one.
  apply SFmul_one_r, Prim2SF_valid.
Qed.


(** ** Conversions between [int] and [float] *)


(** On a non-negative number, truncating is rounding down. *)
Lemma py_int_floor_nonneg (x : float) :
  nonneg x = true -> py_int x = py_floor x.
Proof.
  intros N. apply nonneg_class in N. unfold py_int, py_floor.
  destruct (Prim2SF x) as [s | s | | s m e]; try reflexivity.
  cbn [nn_class] in N. apply negb_true_iff in N. subst s.
  reflexivity.
Qed.

Lemma py_int_valx (x : float) :
  nonneg x = true -> valx (Prim2SF x) < topS ->
  py_int x = Ok (valx (Prim2SF x) / unitS).
Proof.
  intros N Hlt. apply nonneg_class in N.
  pose proof unitS_pos as HU.
  unfold py_int.
  destruct (nn_viewP (Prim2SF x) (Prim2SF_valid x) N) as [s | | m e C B R].
  - cbn [valx]. now rewrite Z.div_0_l by lia.
  - cbn [valx] in Hlt. lia.
  - cbn [valx cond_Zopp]. f_equal.
    pose proof C as (_ & Hmin & _). cbn [snd] in Hmin.
    unfold valS, unitS; cbn [fst snd].
    destruct (Z.leb_spec 0 e) as [He | He].
    + rewrite (pow2_split e 2148) by lia.
      rewrite Z.mul_assoc. symmetry. apply Z.div_mul.
      pose proof (pow2_pos 2148 ltac:(lia)). lia.
    + replace 2148 with ((- e) + (e + 2148)) at 2 by lia.
      rewrite (pow2_split (- e) (e + 2148)) by lia.
      symmetry. apply Z.div_mul_cancel_r.
      * pose proof (pow2_pos (- e) ltac:(lia)). lia.
      * pose proof (pow2_pos (e + 2148) ltac:(lia)). lia.
Qed.

Lemma py_float_of_int_exact (z : Z) :
  0 < z <= 2 ^ 53 ->
  exists zf, py_float_of_int z = Ok zf /\
             nonneg zf = true /\
             valx (Prim2SF zf) = z * unitS /\
             valx (Prim2SF zf) < topS.
Proof.
  intros Hz. destruct (Z2SF_exact z Hz) as (m & e & HZ & HV & Hval).
  exists (SF2Prim (S754_finite false m e)).
  unfold py_float_of_int. rewrite HZ.
  rewrite (Prim2SF_SF2Prim _ HV).
  repeat split.
  - apply class_nonneg. rewrite (Prim2SF_SF2Prim _ HV). reflexivity.
  - exact Hval.
  - cbn [valx]. destruct (valid_finite_canonical _ _ _ HV) as [C B].
    apply canonical_val_bounds; assumption || lia.
Qed.

(** [int(n * f)] for a fraction [f] of a positive [n] that a float holds
    exactly: a count between 0 and [n]. *)
Theorem py_int_fraction (n : Z) (f : float) :
  0 < n <= 2 ^ 53 -> in_unit f = true ->
  exists k, (x <- py_mul_int_float n f ;; py_int x) = Ok k /\ 0 <= k <= n.
Proof.
  intros Hn Hf.
  destruct (py_float_of_int_exact n Hn) as (nf & Hnf & Nn & Vn & Bn).
  destruct (in_unit_split f Hf) as [Nf Lf].
  unfold py_mul_int_float. rewrite Hnf. cbn [bind].
  pose proof (mul_not_nan nf f Nn Nf Bn (in_unit_finite f Hf)) as NN.
  destruct (mul_mono nf nf f 1 Nn Nf (leb_refl_nonneg nf Nn) Lf)
    as [H | [H | [H1 H2]]].
  - congruence.
  - rewrite mul_one_r in H. apply is_nan_spec in H.
    apply nonneg_class in Nn. rewrite H in Nn. discriminate.
  - rewrite mul_one_r in H2.
    destruct (leb_valx _ _ H1 H2) as [_ V].
    pose proof unitS_pos as HU.
    rewrite py_int_valx by (assumption || lia).
    eexists. split; [reflexivity |]. split.
    + apply Z.div_pos; [| lia].
      apply nonneg_class in H1.
      destruct (nn_viewP _ (Prim2SF_valid (nf * f)%float) H1); cbn [valx]; lia.
    + apply Z.div_le_upper_bound; lia.
Qed.

(** [int(0 * f)] is 0 for a rate [f] in the unit interval. *)
Lemma py_int_zero_fraction (f : float) :
  in_unit f = true -> (x <- py_mul_int_float 0 f ;; py_int x) = Ok 0.
Proof.
  intros Hf. destruct (in_unit_split f Hf) as [Nf _].
  pose proof (in_unit_finite f Hf) as Bf.
  unfold py_mul_int_float.
  change (py_float_of_int 0) with (@Ok float 0%float). cbn [bind].
  unfold py_int. rewrite FloatAxioms.mul_spec, Prim2SF_zero.
  apply nonneg_class in Nf.
  destruct (nn_viewP _ (Prim2SF_valid f) Nf) as [s | | m e C B R];
    cbn [valx] in Bf; try lia; reflexivity.
Qed.
(* ================================================================== *)
(** * Part III: the infection probability *)
(* ================================================================== *)

Section InfectionModel.
Context {G : RandomGen} {K : StatsCollector}.

Lemma apply_mask_effect_le_or_nan (s1 s2 : Simulation) (p : Person) (u v : float) :
  le_or_nan u v ->
  nonneg (mask_effectiveness s1) = true ->
  (mask_effectiveness s1 <=? mask_effectiveness s2)%float = true ->
  le_or_nan (apply_mask_effect s1 u p) (apply_mask_effect s2 v p).
Proof.
  intros Huv Hn Hle. unfold apply_mask_effect.
  destruct (masked p); [now apply le_or_nan_mul | assumption].
Qed.

Lemma apply_vaccine_effect_le_or_nan (s1 s2 : Simulation) (p : Person) (u v : float) :
  le_or_nan u v ->
  nonneg (partial_vaccine_effectiveness s1) = true ->
  (partial_vaccine_effectiveness s1 <=? partial_vaccine_effectiveness s2)%float = true ->
  nonneg (full_vaccine_effectiveness s1) = true ->
  (full_vaccine_effectiveness s1 <=? full_vaccine_effectiveness s2)%float = true ->
  le_or_nan (apply_vaccine_effect s1 u p) (apply_vaccine_effect s2 v p).
Proof.
  intros Huv Hpn Hple Hfn Hfle. unfold apply_vaccine_effect.
  destruct (vaccination_doses p =? 1); [now apply le_or_nan_mul |].
  destruct (2 <=? vaccination_doses p); [now apply le_or_nan_mul | assumption].
Qed.

Lemma apply_mask_effect_in_unit (self : Simulation) (p : Person) (u : float) :
  in_unit u = true -> in_unit (mask_effectiveness self) = true ->
  in_unit (apply_mask_effect self u p) = true.
Proof.
  intros Hu Hm. unfold apply_mask_effect.
  destruct (masked p); [now apply in_unit_mul | assumption].
Qed.

Lemma apply_vaccine_effect_in_unit (self : Simulation) (p : Person) (u : float) :
  in_unit u = true ->
  in_unit (partial_vaccine_effectiveness self) = true ->
  in_unit (full_vaccine_effectiveness self) = true ->
  in_unit (apply_vaccine_effect self u p) = true.
Proof.
  intros Hu Hp Hf. unfold apply_vaccine_effect.
  destruct (vaccination_doses p =? 1); [now apply in_unit_mul |].
  destruct (2 <=? vaccination_doses p); [now apply in_unit_mul | assumption].
Qed.

Lemma pymin_not_above (r : float) : (1 <? pymin r 1)%float = false.
Proof.
  unfold pymin. destruct (1 <? r)%float eqn:E; [reflexivity | exact E].
Qed.

(** C1: [calculate_infection_chance] returns [min(r, 1.0)], where [r] is the
    infection rate multiplied by the mask effectiveness once for a masked
    infectious person and once more for a masked susceptible person
    ([masked_rate]), then by the partial vaccine effectiveness when the
    susceptible person has exactly one dose, by the full one when they have
    two or more, and by nothing when they have none; the doses of the
    infectious person do not change the result. *)
Theorem C1_infection_chance_formula (self : Simulation) (ip sp : Person) :
  (vaccination_doses sp = 1 ->
   calculate_infection_chance self ip sp
   = pymin (masked_rate self ip sp * partial_vaccine_effectiveness self) 1) /\
  (2 <= vaccination_doses sp ->
   calculate_infection_chance self ip sp
   = pymin (masked_rate self ip sp * full_vaccine_effectiveness self) 1) /\
  (vaccination_doses sp = 0 ->
   calculate_infection_chance self ip sp = pymin (masked_rate self ip sp) 1) /\
  (forall d : Z,
   calculate_infection_chance self (set_vaccination_doses d ip) sp
   = calculate_infection_chance self ip sp).
Proof.
  unfold calculate_infection_chance, apply_vaccine_effect, apply_mask_effect,
    masked_rate.
  repeat split.
  - intros ->. reflexivity.
  - intros H.
    destruct (Z.eqb_spec (vaccination_doses sp) 1) as [E | _]; [lia |].
    destruct (Z.leb_spec 2 (vaccination_doses sp)); [reflexivity | lia].
  - intros ->. reflexivity.
Qed.

(** C7: with the infection rate and the three effectiveness factors in
    [[0, 1]], the infection chance is in [[0, 1]], whatever the masks and the
    doses of the two persons. *)
Theorem C7_chance_in_unit (self : Simulation) (ip sp : Person) :
  in_unit (infection_rate self) = true ->
  in_unit (mask_effectiveness self) = true ->
  in_unit (partial_vaccine_effectiveness self) = true ->
  in_unit (full_vaccine_effectiveness self) = true ->
  in_unit (calculate_infection_chance self ip sp) = true.
Proof.
  intros Hr Hm Hp Hf. unfold calculate_infection_chance.
  apply in_unit_pymin.
  apply apply_vaccine_effect_in_unit; try assumption.
  apply apply_mask_effect_in_unit; try assumption.
  apply apply_mask_effect_in_unit; assumption.
Qed.

(** C8: the infection chance is monotone in the protective factors: for the
    same persons and the same infection rate in [[0, 1]], and non-negative
    factors, a simulation whose mask and vaccine effectiveness factors are
    lower (each at most the other's) never returns a greater chance: the
    comparison [chance_high < chance_low] is false, and
    [chance_low <= chance_high] holds when both are numbers (a chance is NaN
    when a product is zero times infinity). *)
Theorem C8_chance_monotone (low high : Simulation) (ip sp : Person) :
  infection_rate low = infection_rate high ->
  in_unit (infection_rate low) = true ->
  nonneg (mask_effectiveness low) = true ->
  (mask_effectiveness low <=? mask_effectiveness high)%float = true ->
  nonneg (partial_vaccine_effectiveness low) = true ->
  (partial_vaccine_effectiveness low
     <=? partial_vaccine_effectiveness high)%float = true ->
  nonneg (full_vaccine_effectiveness low) = true ->
  (full_vaccine_effectiveness low <=? full_vaccine_effectiveness high)%float = true ->
  (calculate_infection_chance high ip sp
     <? calculate_infection_chance low ip sp)%float = false /\
  (is_nan (calculate_infection_chance low ip sp) = false ->
   is_nan (calculate_infection_chance high ip sp) = false ->
   (calculate_infection_chance low ip sp
      <=? calculate_infection_chance high ip sp)%float = true).
Proof.
  intros Hrate Hr Hmn Hm Hpn Hp Hfn Hf.
  assert (H : (calculate_infection_chance high ip sp
                 <? calculate_infection_chance low ip sp)%float = false).
  { unfold calculate_infection_chance.
    apply le_or_nan_not_gt, le_or_nan_pymin.
    apply apply_vaccine_effect_le_or_nan; try assumption.
    apply apply_mask_effect_le_or_nan; try assumption.
    apply apply_mask_effect_le_or_nan; try assumption.
    rewrite <- Hrate. apply le_or_nan_refl.
    now apply in_unit_split in Hr. }
  split; [exact H |].
  intros Nl Nh. rewrite (leb_total _ _ Nl Nh). now rewrite H.
Qed.

(** C10, as amended: the infection chance is never greater than 1.0, for all
    parameter values, and it is at most 1.0 whenever it is a number (it is
    NaN when a factor is NaN or a product is zero times infinity); it is not
    clamped from below: for some inputs, one of them with a positive
    infection rate, a negative mask effectiveness and a masked party, it is
    strictly negative. *)
Theorem C10_chance_clamped_above_only :
  (forall (self : Simulation) (ip sp : Person),
     (1 <? calculate_infection_chance self ip sp)%float = false /\
     (is_nan (calculate_infection_chance self ip sp) = false ->
      (calculate_infection_chance self ip sp <=? 1)%float = true)) /\
  (exists (self : Simulation) (ip sp : Person),
     (0 <? infection_rate self)%float = true /\
     (mask_effectiveness self <? 0)%float = true /\
     masked ip = true /\
     (calculate_infection_chance self ip sp <? 0)%float = true).
Proof.
  split.
  - intros self ip sp.
    pose proof (pymin_not_above
                  (apply_vaccine_effect self
                     (apply_mask_effect self
                        (apply_mask_effect self (infection_rate self) ip) sp) sp)) as H.
    fold (calculate_infection_chance self ip sp) in H.
    split; [exact H |].
    intros Hn. rewrite (leb_total _ 1 Hn) by reflexivity.
    now rewrite H.
  - exists (mkSimulation [] 0.5%float 2 3 10 0.5%float 0.01%float
              (-0.5)%float 0.7%float 0.3%float None 0 (rng_seed 0)),
           (demo_person true 0), (demo_person false 0).
    repeat split; reflexivity.
Qed.
End InfectionModel.

(** C7, on an example: a masked infectious person, a masked susceptible
    person with one dose, and the default factors. *)
Lemma C7_chance_in_unit_witness :
  in_unit 0.3%float = true /\
  in_unit (calculate_infection_chance (demo_sim 0.3 0.5 0.7 0.3)
             (demo_person true 0) (demo_person true 1)) = true.
Proof.
  split; [reflexivity |].
  apply (C7_chance_in_unit (demo_sim 0.3 0.5 0.7 0.3)); reflexivity.
Defined.

(** C8, on an example: masks that let through a quarter instead of a half. *)
Lemma C8_chance_monotone_witness :
  (0.25 <=? 0.5)%float = true /\
  (calculate_infection_chance (demo_sim 0.3 0.25 0.7 0.3)
     (demo_person true 0) (demo_person true 1)
   <=? calculate_infection_chance (demo_sim 0.3 0.5 0.7 0.3)
         (demo_person true 0) (demo_person true 1))%float = true.
Proof.
  split; [reflexivity |].
  apply (C8_chance_monotone (demo_sim 0.3 0.25 0.7 0.3) (demo_sim 0.3 0.5 0.7 0.3));
    reflexivity.
Defined.

(** C10, as stated, fails: with a NaN mask effectiveness and a masked
    infectious person the chance is NaN, which is not at most 1.0. *)
Lemma C10_chance_nan_counterexample :
  is_nan (calculate_infection_chance (demo_sim 0.5 nan 0.7 0.3)
            (demo_person true 0) (demo_person false 0)) = true /\
  (calculate_infection_chance (demo_sim 0.5 nan 0.7 0.3)
     (demo_person true 0) (demo_person false 0) <=? 1)%float = false.
Proof. split; reflexivity. Qed.

(* ================================================================== *)
(** * Part IV: the interaction phase and the day loop *)
(* ================================================================== *)

(** The example generator keeps the contract of [random.Random]. *)
Lemma demo_gen_ok : RandomGenOK demo_gen.
Proof.
  constructor; cbn [rng_sample rng_random demo_gen fst].
  - intros g n k _. now rewrite length_rev, length_seq.
  - intros g n k _. apply NoDup_rev, seq_NoDup.
  - intros g n k i Hk Hi. apply in_rev, in_seq in Hi. lia.
  - intros g.
    assert (Hlt : (g mod 4 < 4)%nat) by (apply Nat.mod_upper_bound; lia).
    destruct (g mod 4)%nat as [| [| [| [| r]]]]; try lia; split; reflexivity.
Qed.

Section Engine.
Context {G : RandomGen} {K : StatsCollector}.




Lemma py_sample_in_range (g : rng) (n : nat) (k : Z) :
  0 <= k <= Z.of_nat n ->
  py_sample g n k = Ok (rng_sample g n (Z.to_nat k)).
Proof.
  intros Hk. unfold py_sample.
  destruct (Z.ltb_spec k 0); [lia |].
  destruct (Z.ltb_spec (Z.of_nat n) k); [lia |]. reflexivity.
Qed.


(** C2, as amended: with [base_contacts = 0] (and a social distancing rate
    in [[0, 1]]) every infectious person still draws [min(1, |S|)] contacts:
    exactly one whenever the susceptible pool is not empty, and the outcome
    for that person is the single contact attempt [contact], which infects
    when the draw is below the infection chance. *)
Theorem C2_zero_base_contacts (OK : RandomGenOK G) (self : Simulation)
    (pool : list nat) (i : nat) (ip : Person) :
  base_contacts self = 0 ->
  in_unit (social_distancing_rate self) = true ->
  nth_error (population self) i = Some ip ->
  num_contacts self ip (List.length pool)
    = Ok (Z.min 1 (Z.of_nat (List.length pool))) /\
  (pool <> [] ->
   exists j : nat,
     (j < List.length pool)%nat /\
     fst (rng_sample (random self) (List.length pool) 1) = [j] /\
     interact pool self i
       = Ok (contact i
               (set_random (snd (rng_sample (random self) (List.length pool) 1)) self)
               (nth j pool O))).
Proof.
  intros Hb Hr Hip.
  assert (Hk : num_contacts self ip (List.length pool)
               = Ok (Z.min 1 (Z.of_nat (List.length pool)))).
  { unfold num_contacts. rewrite Hb.
    destruct (social_distancing ip).
    - rewrite (py_int_zero_fraction _ Hr). reflexivity.
    - reflexivity. }
  split; [exact Hk |].
  intros Hne.
  assert (Hn : (1 <= List.length pool)%nat)
    by (destruct pool; [congruence | cbn; lia]).
  pose proof (sample_length (random self) (List.length pool) 1%nat Hn) as Hlen.
  pose proof (sample_range (random self) (List.length pool) 1%nat) as Hrange.
  destruct (fst (rng_sample (random self) (List.length pool) 1)) as [| j [| j' t]] eqn:E;
    try discriminate.
  exists j. split; [apply Hrange; [assumption | now left] |].
  split; [reflexivity |].
  unfold interact. rewrite Hip, Hk. cbn [bind].
  replace (Z.min 1 (Z.of_nat (List.length pool))) with 1 by lia.
  cbn [Z.eqb]. rewrite py_sample_in_range by lia.
  cbn [bind]. change (Z.to_nat 1) with 1%nat. rewrite E. reflexivity.
Qed.

Lemma run_stops_inactive (pol : Policies) (fuel : nat) (self final : Simulation) :
  run pol fuel self = Some (Ok final) -> active_infections final = false.
Proof.
  revert self. induction fuel as [| fuel IH]; intros self; cbn [run].
  - discriminate.
  - destruct (simulate_day pol self) as [s1 | e]; [| discriminate].
    destruct (active_infections (record_statistics s1)) eqn:E; cbn [negb].
    + apply IH.
    + intros H. injection H as <-. exact E.
Qed.

(** C4: when [run] ends, nobody in the population is infected or infectious:
    every person is susceptible, recovered or dead. *)
Theorem C4_run_ends_without_infection (a : Args.t) (statistics : option collector)
    (entropy : rng) (pol : Policies) (fuel : nat) (self final : Simulation) :
  __init__ a statistics entropy = Ok self ->
  run pol fuel self = Some (Ok final) ->
  Forall (fun person =>
            is_infected person = false /\ is_infectious person = false /\
            (health person = Susceptible \/ health person = Recovered \/
             health person = Dead))
         (population final).
Proof.
  intros _ Hrun. apply run_stops_inactive in Hrun.
  unfold active_infections in Hrun.
  apply Forall_forall. intros p Hp.
  assert (H : is_infected p || is_infectious p = false).
  { destruct (is_infected p || is_infectious p) eqn:E; [| reflexivity].
    assert (existsb (fun person => is_infected person || is_infectious person)
                    (population final) = true)
      by (apply existsb_exists; now exists p).
    congruence. }
  apply orb_false_iff in H. destruct H as [H1 H2].
  repeat split; try assumption.
  unfold is_infected, is_infectious in H1, H2.
  destruct (health p); auto; discriminate.
Qed.
End Engine.


(** C2, as amended, on an example: one contact for a pool of one. *)
Lemma C2_zero_base_contacts_witness :
  base_contacts zero_contact_day = 0 /\
  num_contacts zero_contact_day (set_health Infectious 0 (new_person 1)) 1 = Ok 1.
Proof.
  split; [reflexivity |].
  exact (proj1 (C2_zero_base_contacts demo_gen_ok zero_contact_day [0%nat] 1
                  (set_health Infectious 0 (new_person 1))
                  eq_refl eq_refl eq_refl)).
Defined.

(** C2, as stated, fails: with [base_contacts = 0] the interaction phase
    infects the susceptible person of [zero_contact_day], and the run from
    [zero_contact_args], which starts with one infected person out of two,
    ends with both recovered. *)
Lemma C2_transmission_counterexample :
  (base_contacts zero_contact_day = 0 /\
   map health (population zero_contact_day) = [Susceptible; Infectious] /\
   exists after,
     simulate_interactions zero_contact_day = Ok after /\
     map health (population after) = [Infected; Infectious]) /\
  (Args.base_contacts zero_contact_args = 0 /\
   @__init__ demo_gen demo_stats zero_contact_args None 0%nat
     = Ok zero_contact_start /\
   map health (population zero_contact_start) = [Susceptible; Infected] /\
   run no_policies 20 zero_contact_start = Some (Ok zero_contact_final) /\
   map health (population zero_contact_final) = [Recovered; Recovered]).
Proof.
  split.
  - split; [reflexivity |]. split; [reflexivity |].
    eexists. split; vm_compute; reflexivity.
  - split; [reflexivity |].
    split; [vm_compute; reflexivity |].
    split; [reflexivity |].
    split; [vm_compute; reflexivity | reflexivity].
Qed.

(** C4, on an example: the run from [zero_contact_args] ends on day 6 with
    nobody infected or infectious. *)
Lemma C4_run_ends_without_infection_witness :
  @__init__ demo_gen demo_stats zero_contact_args None 0%nat
    = Ok zero_contact_start /\
  run no_policies 20 zero_contact_start = Some (Ok zero_contact_final) /\
  day zero_contact_final = 6 /\
  Forall (fun person =>
            is_infected person = false /\ is_infectious person = false /\
            (health person = Susceptible \/ health person = Recovered \/
             health person = Dead))
         (population zero_contact_final).
Proof.
  assert (H1 : @__init__ demo_gen demo_stats zero_contact_args None 0%nat
               = Ok zero_contact_start) by (vm_compute; reflexivity).
  assert (H2 : run no_policies 20 zero_contact_start
               = Some (Ok zero_contact_final)) by (vm_compute; reflexivity).
  split; [exact H1 |]. split; [exact H2 |]. split; [reflexivity |].
  exact (@C4_run_ends_without_infection demo_gen demo_stats zero_contact_args
           None 0%nat no_policies 20%nat zero_contact_start zero_contact_final
           H1 H2).
Defined.

(* ================================================================== *)
(** * Part V: construction *)
(* ================================================================== *)

Section Construction.
Context {G : RandomGen} {K : StatsCollector}.

Lemma int_outside (i n : Z) :
  negb ((0 <=? i) && (i <=? n)) = (i <? 0) || (n <? i).
Proof.
  destruct (Z.leb_spec 0 i), (Z.leb_spec i n), (Z.ltb_spec i 0), (Z.ltb_spec n i);
    cbn; try reflexivity; lia.
Qed.

(** The checks that follow those on [population_size] and
    [initial_infected], once these have passed. *)
Lemma init_after_resolve (a : Args.t) (statistics : option collector)
    (entropy : rng) (k : Z) :
  (Args.population_size a <=? 0) = false ->
  resolve_initial_infected a = Ok k ->
  0 <= k <= Args.population_size a ->
  match find (fun r => rule_violated r a) (skipn 4 validation_rules) with
  | Some r => __init__ a statistics entropy = Raise (rule_error r)
  | None => exists self, __init__ a statistics entropy = Ok self
  end.
Proof.
  intros H1 Hres Hk.
  unfold __init__. rewrite H1, Hres. cbn [bind].
  unfold validation_rules. cbn [skipn find rule_violated rule_error].
  unfold outside_unit.
  destruct (in_unit (Args.infection_rate a)); cbn [negb]; [| reflexivity].
  destruct (Args.incubation_period a <=? 0); [reflexivity |].
  destruct (Args.infectious_period a <=? 0); [reflexivity |].
  destruct (Args.base_contacts a <? 0); [reflexivity |].
  destruct (in_unit (Args.social_distancing_rate a)); cbn [negb]; [| reflexivity].
  destruct (in_unit (Args.mortality_rate a)); cbn [negb]; [| reflexivity].
  rewrite py_sample_in_range by lia. cbn [bind].
  eexists. reflexivity.
Qed.

(** Up to [2 ^ 53] persons, construction fails with the error of the first
    violated rule, and succeeds when no rule is violated. *)
Lemma init_first_violation (a : Args.t) (statistics : option collector)
    (entropy : rng) :
  Args.population_size a <= 2 ^ 53 ->
  match first_violation a with
  | Some err => __init__ a statistics entropy = Raise err
  | None => exists self, __init__ a statistics entropy = Ok self
  end.
Proof.
  intros Hsize.
  unfold first_violation.
  unfold validation_rules at 1. cbn [find rule_violated rule_error].
  destruct (Args.population_size a <=? 0) eqn:H1.
  { cbn [option_map rule_error]. unfold __init__. now rewrite H1. }
  apply Z.leb_gt in H1.
  assert (H1' : (Args.population_size a <=? 0) = false) by (apply Z.leb_gt; lia).
  assert (Hrest : forall k,
             resolve_initial_infected a = Ok k -> 0 <= k <= Args.population_size a ->
             match option_map rule_error
                     (find (fun r => rule_violated r a) (skipn 4 validation_rules)) with
             | Some err => __init__ a statistics entropy = Raise err
             | None => exists self, __init__ a statistics entropy = Ok self
             end).
  { intros k Hres Hk.
    pose proof (init_after_resolve a statistics entropy k H1' Hres Hk) as H.
    destruct (find (fun r => rule_violated r a) (skipn 4 validation_rules));
      exact H. }
  destruct (Args.initial_infected a) as [i | f |] eqn:EI.
  - destruct ((i <? 0) || (Args.population_size a <? i)) eqn:H2.
    + cbn [option_map rule_error]. unfold __init__, resolve_initial_infected.
      rewrite H1', EI, int_outside, H2. reflexivity.
    + apply (Hrest i).
      * unfold resolve_initial_infected. rewrite EI, int_outside, H2. reflexivity.
      * apply orb_false_iff in H2. destruct H2 as [Ha Hb].
        apply Z.ltb_ge in Ha, Hb. lia.
  - unfold outside_unit at 1.
    destruct (in_unit f) eqn:H3; cbn [negb].
    + destruct (py_int_fraction (Args.population_size a) f ltac:(lia) H3)
        as (k & Hk & Hrange).
      apply (Hrest k); [| exact Hrange].
      unfold resolve_initial_infected. rewrite EI, H3. exact Hk.
    + cbn [option_map rule_error]. unfold __init__, resolve_initial_infected.
      rewrite H1', EI, H3. reflexivity.
  - cbn [option_map rule_error]. unfold __init__, resolve_initial_infected.
    rewrite H1', EI. reflexivity.
Qed.

(** The mask and vaccine factors are stored, never checked. *)
Lemma init_factors (a : Args.t) (statistics : option collector) (entropy : rng)
    (m pv fv : float) (err : exn) :
  __init__ (Args.with_factors a m pv fv) statistics entropy = Raise err <->
  __init__ a statistics entropy = Raise err.
Proof.
  unfold __init__, resolve_initial_infected, initial_random, Args.with_factors.
  cbn [Args.population_size Args.initial_infected Args.infection_rate
       Args.incubation_period Args.infectious_period Args.base_contacts
       Args.social_distancing_rate Args.mortality_rate Args.random_seed].
  destruct (Args.population_size a <=? 0); [reflexivity |].
  destruct (match Args.initial_infected a with
            | PyInt i =>
                if negb ((0 <=? i) && (i <=? Args.population_size a))
                then Raise (ValueError "Initial infected must be between 0 and population size.")
                else Ok i
            | PyFloat f =>
                if negb (in_unit f)
                then Raise (ValueError "If initial_infected is a float, it must be between 0 and 1.")
                else x <- py_mul_int_float (Args.population_size a) f ;; py_int x
            | PyOther => Raise (TypeError "initial_infected must be an int or a float.")
            end) as [k | e0]; cbn [bind]; [| reflexivity].
  destruct (negb (in_unit (Args.infection_rate a))); [reflexivity |].
  destruct (Args.incubation_period a <=? 0); [reflexivity |].
  destruct (Args.infectious_period a <=? 0); [reflexivity |].
  destruct (Args.base_contacts a <? 0); [reflexivity |].
  destruct (negb (in_unit (Args.social_distancing_rate a))); [reflexivity |].
  destruct (negb (in_unit (Args.mortality_rate a))); [reflexivity |].
  destruct (py_sample _ _ k) as [drawn | e1]; cbn [bind]; [| reflexivity].
  split; discriminate.
Qed.

Lemma validation_errors_distinct : NoDup (map rule_error validation_rules).
Proof.
  unfold validation_rules. cbn [map rule_error].
  repeat (constructor; [cbn [In]; intuition discriminate |]).
  constructor.
Qed.

Lemma validation_errors_name_fields :
  Forall (fun r => names_field (rule_error r) (rule_field r) = true)
         validation_rules.
Proof. repeat constructor. Qed.

(** C5, as amended: for a population of at most [2 ^ 53], construction raises
    an error if and only if a validation rule is violated, and the error is
    that of the first violated rule in the order of [validation_rules]; it
    returns a simulation exactly when no rule is violated, and nothing
    otherwise; the mask and vaccine effectiveness factors never change
    whether, or with what, construction fails; the errors of the rules are
    pairwise distinct and each names its field. *)
Theorem C5_construction_errors (a : Args.t) (statistics : option collector)
    (entropy : rng) :
  Args.population_size a <= 2 ^ 53 ->
  (forall err, __init__ a statistics entropy = Raise err <->
               first_violation a = Some err) /\
  (first_violation a = None <->
   exists self, __init__ a statistics entropy = Ok self) /\
  (forall m pv fv err,
     __init__ (Args.with_factors a m pv fv) statistics entropy = Raise err <->
     __init__ a statistics entropy = Raise err) /\
  NoDup (map rule_error validation_rules) /\
  Forall (fun r => names_field (rule_error r) (rule_field r) = true)
         validation_rules.
Proof.
  intros Hsize.
  pose proof (init_first_violation a statistics entropy Hsize) as H.
  repeat split.
  - intros Herr. destruct (first_violation a) as [err' |].
    + congruence.
    + destruct H as [self Hs]. congruence.
  - intros Hv. rewrite Hv in H. exact H.
  - intros Hv. rewrite Hv in H. exact H.
  - intros [self Hs]. destruct (first_violation a) as [err' |]; congruence.
  - apply init_factors.
  - apply init_factors.
  - apply validation_errors_distinct.
  - apply validation_errors_name_fields.
Qed.
End Construction.

(** C5, on an example: fifty persons, a tenth of them infected. *)
Lemma C5_construction_errors_witness :
  Args.population_size fifty_args <= 2 ^ 53 /\
  first_violation fifty_args = None /\
  exists self, @__init__ demo_gen demo_stats fifty_args None 0%nat = Ok self.
Proof.
  assert (H : Args.population_size fifty_args <= 2 ^ 53)
    by (apply Z.leb_le; reflexivity).
  split; [exact H |]. split; [reflexivity |].
  exact (proj1 (proj1 (proj2 (@C5_construction_errors demo_gen demo_stats
                                fifty_args None 0%nat H))) eq_refl).
Defined.

(** C5, as stated, fails: for [2 ^ 1024] persons and a fraction of 0.5
    initially infected no rule is violated, and construction raises
    [OverflowError], from [population_size * initial_infected]. *)
Lemma C5_overflow_counterexample :
  first_violation huge_args = None /\
  @__init__ demo_gen demo_stats huge_args None 0%nat
    = Raise (OverflowError "int too large to convert to float").
Proof. split; vm_compute; reflexivity. Qed.

(** ** The initially infected *)

Lemma pack_valid (s : bool) (P E : Z) :
  0 < P -> -2148 <= E -> E <= fexp64 (Zdigits2 P + E) ->
  valid_binary (pack s (round_pair P E)) = true.
Proof.
  intros HP HE Hn.
  pose proof (round_pair_canonical P E HP Hn) as (Hm & Hmin & Hc).
  unfold pack. destruct (round_pair P E) as [m e]; cbn [fst snd] in *.
  destruct m as [| q | q]; try reflexivity.
  destruct (Z.leb_spec e 971) as [He |]; [| reflexivity].
  unfold SpecFloat.valid_binary, bounded, canonical_mantissa.
  rewrite fexp_fexp64. change (Zpos (digits2_pos q)) with (Zdigits2 (Zpos q)).
  rewrite (Hc ltac:(lia)), Z.eqb_refl. cbn [andb].
  apply Z.leb_le. change (emax - prec) with 971. exact He.
Qed.

(** A positive integer converts to a non-negative float. *)
Lemma Z2SF_positive (z : Z) :
  0 < z -> valid_binary (Z2SF z) = true /\ nn_class (Z2SF z) = true.
Proof.
  intros Hz. destruct z as [| p | p]; try lia.
  unfold Z2SF, binary_normalize, binary_round.
  rewrite fexp_fexp64. change (Zpos (digits2_pos p)) with (Zdigits2 (Zpos p)).
  rewrite Z.add_0_r.
  pose proof (Zdigits2_pos (Zpos p) ltac:(lia)) as Hd.
  destruct (Zdigits2_bounds (Zpos p) ltac:(lia)) as [Hlo Hhi].
  set (d := Zdigits2 (Zpos p)) in *.
  assert (Hgo : forall (q : positive) (E : Z),
             -2148 <= E -> E <= fexp64 (Zdigits2 (Zpos q) + E) ->
             valid_binary (binary_round_aux prec emax false (Zpos q) E loc_Exact) = true /\
             nn_class (binary_round_aux prec emax false (Zpos q) E loc_Exact) = true).
  { intros q E HE Hn. rewrite binary_round_aux_pack by assumption. split.
    - apply pack_valid; lia || assumption.
    - apply pack_class.
      apply (round_pair_canonical (Zpos q) E); lia || assumption. }
  unfold shl_align. rewrite Z.sub_0_r.
  destruct (fexp64 d) as [| n | n] eqn:Ef.
  - apply Hgo; [lia |]. subst d. unfold fexp64 in *. lia.
  - apply Hgo; [lia |]. subst d. unfold fexp64 in *. lia.
  - assert (Hn : Zpos n = 53 - d) by (unfold fexp64 in Ef; lia).
    assert (Hdq : Zdigits2 (Zpos (Pos.iter xO p n)) = 53).
    { apply Zdigits2_unique; [| lia].
      rewrite Pos_iter_xO, Hn. change (53 - 1) with 52.
      pose proof (pow2_pos (53 - d) ltac:(lia)).
      pose proof (pow2_split (d - 1) (53 - d) ltac:(lia) ltac:(lia)) as S1.
      pose proof (pow2_split d (53 - d) ltac:(lia) ltac:(lia)) as S2.
      replace (d - 1 + (53 - d)) with 52 in S1 by lia.
      replace (d + (53 - d)) with 53 in S2 by lia.
      rewrite S1, S2. nia. }
    apply Hgo; [unfold fexp64 in Ef; lia |].
    rewrite Hdq. unfold fexp64 in *. lia.
Qed.

Lemma py_float_of_int_positive (z : Z) (zf : float) :
  0 < z -> py_float_of_int z = Ok zf -> nonneg zf = true.
Proof.
  intros Hz H. destruct (Z2SF_positive z Hz) as [V N].
  unfold py_float_of_int in H.
  assert (E : zf = SF2Prim (Z2SF z))
    by (destruct (Z2SF z); try discriminate; now injection H as <-).
  subst zf. apply class_nonneg. now rewrite (Prim2SF_SF2Prim _ V).
Qed.

Lemma py_int_not_nan (x : float) (k : Z) : py_int x = Ok k -> is_nan x = false.
Proof.
  intros H. apply not_true_is_false. intros E. apply is_nan_spec in E.
  unfold py_int in H. rewrite E in H. discriminate.
Qed.

(** List facts for [infect_all]. *)
Lemma update_at_map_seq {A : Type} (g : A -> A) (h : nat -> A) (n s i : nat) :
  update_at i g (map h (seq s n))
  = map (fun j => if (j =? s + i)%nat then g (h j) else h j) (seq s n).
Proof.
  revert s i. induction n as [| n IH]; intros s i; [destruct i; reflexivity |].
  cbn [seq map]. destruct i as [| i]; cbn [update_at].
  - rewrite Nat.add_0_r, Nat.eqb_refl. f_equal.
    apply map_ext_in. intros j Hj. apply in_seq in Hj.
    destruct (Nat.eqb_spec j s); [lia | reflexivity].
  - destruct (Nat.eqb_spec s (s + S i)); [lia |]. f_equal.
    rewrite IH. apply map_ext. intros j.
    now replace (S s + i)%nat with (s + S i)%nat by lia.
Qed.

Lemma infected_idempotent (p : Person) : infected (infected p) = infected p.
Proof. unfold infected, is_susceptible. destruct p as [i [] d m sd v]; reflexivity. Qed.

Lemma infect_all_map (ids : list nat) (h : nat -> Person) (n : nat) :
  infect_all ids (map h (seq 0 n))
  = map (fun j => if existsb (Nat.eqb j) ids then infected (h j) else h j)
        (seq 0 n).
Proof.
  revert h. induction ids as [| i t IH]; intros h.
  - cbn. apply map_ext. reflexivity.
  - unfold infect_all in *. cbn [fold_left].
    rewrite update_at_map_seq, IH. apply map_ext. intros j.
    cbn [existsb Nat.add]. destruct (Nat.eqb_spec j i) as [-> | Hne]; cbn [orb].
    + destruct (existsb (Nat.eqb i) t); [apply infected_idempotent | reflexivity].
    + reflexivity.
Qed.

Lemma filter_map_swap {A B : Type} (f : B -> bool) (h : A -> B) (l : list A) :
  filter f (map h l) = map h (filter (fun x => f (h x)) l).
Proof.
  induction l as [| x t IH]; [reflexivity |].
  cbn [map filter]. destruct (f (h x)); cbn [map]; now rewrite IH.
Qed.

Lemma count_members (ids : list nat) (n : nat) :
  NoDup ids -> (forall i, In i ids -> (i < n)%nat) ->
  List.length (filter (fun j => existsb (Nat.eqb j) ids) (seq 0 n))
  = List.length ids.
Proof.
  intros Hnd Hrange. apply Permutation_length, NoDup_Permutation.
  - apply NoDup_filter, seq_NoDup.
  - exact Hnd.
  - intros x. rewrite filter_In, in_seq, existsb_exists. split.
    + intros (_ & y & Hy & E). apply Nat.eqb_eq in E. now subst y.
    + intros Hx. split; [specialize (Hrange x Hx); lia |].
      exists x. split; [assumption | apply Nat.eqb_refl].
Qed.

Section InitialInfection.
Context {G : RandomGen} {K : StatsCollector}.

(** What a construction that succeeds has computed. *)
Lemma init_ok_inv (a : Args.t) (statistics : option collector) (entropy : rng)
    (self : Simulation) :
  __init__ a statistics entropy = Ok self ->
  0 < Args.population_size a /\
  exists k,
    resolve_initial_infected a = Ok k /\
    0 <= k <= Args.population_size a /\
    population self
    = infect_all (fst (rng_sample (initial_random a entropy)
                         (Z.to_nat (Args.population_size a)) (Z.to_nat k)))
                 (initial_population (Args.population_size a)).
Proof.
  unfold __init__.
  destruct (Z.leb_spec (Args.population_size a) 0) as [| Hpos]; [discriminate |].
  destruct (resolve_initial_infected a) as [k | e0]; cbn [bind]; [| discriminate].
  destruct (negb (in_unit (Args.infection_rate a))); [discriminate |].
  destruct (Args.incubation_period a <=? 0); [discriminate |].
  destruct (Args.infectious_period a <=? 0); [discriminate |].
  destruct (Args.base_contacts a <? 0); [discriminate |].
  destruct (negb (in_unit (Args.social_distancing_rate a))); [discriminate |].
  destruct (negb (in_unit (Args.mortality_rate a))); [discriminate |].
  unfold py_sample.
  destruct (Z.ltb_spec k 0); [discriminate |].
  destruct (Z.ltb_spec (Z.of_nat (Z.to_nat (Args.population_size a))) k);
    [discriminate |].
  cbn [orb bind]. intros Hok. injection Hok as <-. cbn [population].
  split; [assumption |]. exists k. repeat split; lia.
Qed.

Lemma count_infected_initial (ids : list nat) (n : Z) :
  NoDup ids -> (forall i, In i ids -> (i < Z.to_nat n)%nat) ->
  List.length (filter is_infected (infect_all ids (initial_population n)))
  = List.length ids.
Proof.
  intros Hnd Hrange. unfold initial_population.
  rewrite infect_all_map, filter_map_swap, length_map.
  rewrite <- (count_members ids (Z.to_nat n) Hnd Hrange).
  f_equal. apply filter_ext. intros j.
  destruct (existsb (Nat.eqb j) ids); reflexivity.
Qed.

(** What a successful construction from a fraction has done. *)
Lemma fraction_resolved (OK : RandomGenOK G) (a : Args.t)
    (statistics : option collector) (entropy : rng) (f : float)
    (self : Simulation) :
  Args.initial_infected a = PyFloat f ->
  __init__ a statistics entropy = Ok self ->
  in_unit f = true /\
  (exists (nf : float) (k : Z),
     py_float_of_int (Args.population_size a) = Ok nf /\
     py_floor (nf * f) = Ok k /\
     let ids := fst (rng_sample (initial_random a entropy)
                       (Z.to_nat (Args.population_size a)) (Z.to_nat k)) in
     NoDup ids /\
     (forall i, In i ids -> (Z.of_nat i < Args.population_size a)) /\
     Z.of_nat (List.length ids) = k /\
     population self
     = map (fun i => if existsb (Nat.eqb i) ids
                     then infected (new_person (Z.of_nat i))
                     else new_person (Z.of_nat i))
           (seq 0 (Z.to_nat (Args.population_size a))) /\
     Z.of_nat (count_infected self) = k) /\
  (Args.population_size a = 50 -> f = 0.1%float -> count_infected self = 5%nat).
Proof.
  intros Hf Hinit.
  destruct (init_ok_inv a statistics entropy self Hinit)
    as (Hpos & k & Hres & Hk & Hpop).
  unfold resolve_initial_infected in Hres. rewrite Hf in Hres.
  destruct (in_unit f) eqn:Hunit; cbn [negb] in Hres; [| discriminate].
  unfold py_mul_int_float in Hres.
  destruct (py_float_of_int (Args.population_size a)) as [nf | e0] eqn:Hnf;
    cbn [bind] in Hres; [| discriminate].
  pose proof (py_float_of_int_positive _ _ Hpos Hnf) as Nnf.
  destruct (in_unit_split f Hunit) as [Nf _].
  assert (Nprod : nonneg (nf * f) = true).
  { destruct (mul_mono nf nf f f Nnf Nf (leb_refl_nonneg nf Nnf)
                (leb_refl_nonneg f Nf)) as [H | [H | [H _]]];
      try exact H; pose proof (py_int_not_nan _ _ Hres); congruence. }
  set (ids := fst (rng_sample (initial_random a entropy)
                     (Z.to_nat (Args.population_size a)) (Z.to_nat k))) in *.
  assert (Hle : (Z.to_nat k <= Z.to_nat (Args.population_size a))%nat) by lia.
  pose proof (sample_NoDup (initial_random a entropy) _ _ Hle) as Hnd.
  pose proof (sample_length (initial_random a entropy) _ _ Hle) as Hlen.
  pose proof (sample_range (initial_random a entropy)
                (Z.to_nat (Args.population_size a)) (Z.to_nat k)) as Hrange.
  fold ids in Hnd, Hlen.
  assert (Hcount : Z.of_nat (count_infected self) = k).
  { unfold count_infected. rewrite Hpop, count_infected_initial.
    - rewrite Hlen. lia.
    - exact Hnd.
    - intros i Hi. now apply (Hrange i Hle). }
  split; [reflexivity |]. split.
  - exists nf, k. split; [reflexivity |].
    split; [now rewrite <- py_int_floor_nonneg |].
    cbv zeta. fold ids.
    split; [exact Hnd |].
    split; [intros i Hi; specialize (Hrange i Hle Hi); lia |].
    split; [rewrite Hlen; lia |].
    split; [| exact Hcount].
    rewrite Hpop. unfold initial_population. apply infect_all_map.
  - intros H50 H01. subst f. rewrite H50 in Hnf.
    assert (E : nf = 50%float) by (vm_compute in Hnf; now injection Hnf as <-).
    subst nf. vm_compute in Hres. injection Hres as Hk5.
    lia.
Qed.

(** C6: when [initial_infected] is a float, construction succeeds for every
    configuration that violates no validation rule (so with the float in
    [[0, 1]]) and has at most [2 ^ 53] persons; and a simulation that is
    constructed has resolved the count of initially infected to
    [floor(population_size * initial_infected)], the product being that of
    floats, and has transitioned to infected exactly that many distinct
    persons: those at the positions the seeded generator samples from
    [range(population_size)]; with 50 persons and 0.1 exactly 5 are
    infected. *)
Theorem C6_fraction_initially_infected (OK : RandomGenOK G) (a : Args.t)
    (statistics : option collector) (entropy : rng) (f : float) :
  Args.initial_infected a = PyFloat f ->
  (first_violation a = None -> Args.population_size a <= 2 ^ 53 ->
   exists self, __init__ a statistics entropy = Ok self) /\
  (forall self : Simulation,
   __init__ a statistics entropy = Ok self ->
   in_unit f = true /\
   (exists (nf : float) (k : Z),
      py_float_of_int (Args.population_size a) = Ok nf /\
      py_floor (nf * f) = Ok k /\
      let ids := fst (rng_sample (initial_random a entropy)
                        (Z.to_nat (Args.population_size a)) (Z.to_nat k)) in
      NoDup ids /\
      (forall i, In i ids -> (Z.of_nat i < Args.population_size a)) /\
      Z.of_nat (List.length ids) = k /\
      population self
      = map (fun i => if existsb (Nat.eqb i) ids
                      then infected (new_person (Z.of_nat i))
                      else new_person (Z.of_nat i))
            (seq 0 (Z.to_nat (Args.population_size a))) /\
      Z.of_nat (count_infected self) = k) /\
   (Args.population_size a = 50 -> f = 0.1%float ->
    count_infected self = 5%nat)).
Proof.
  intros Hf. split.
  - intros Hv Hsize.
    pose proof (init_first_violation a statistics entropy Hsize) as H.
    rewrite Hv in H. exact H.
  - intros self Hinit.
    exact (fraction_resolved OK a statistics entropy f self Hf Hinit).
Qed.
End InitialInfection.


(** C6, on an example: the construction from [fifty_args] succeeds, with 5
    persons infected. *)
Lemma C6_fraction_initially_infected_witness :
  Args.initial_infected fifty_args = PyFloat 0.1 /\
  @__init__ demo_gen demo_stats fifty_args None 0%nat = Ok fifty_start /\
  count_infected fifty_start = 5%nat.
Proof.
  assert (H : @__init__ demo_gen demo_stats fifty_args None 0%nat = Ok fifty_start)
    by (vm_compute; reflexivity).
  split; [reflexivity |]. split; [exact H |].
  exact (proj2 (proj2 (proj2 (@C6_fraction_initially_infected demo_gen demo_stats
                                demo_gen_ok fifty_args None 0%nat 0.1%float
                                eq_refl)
                             fifty_start H))
               eq_refl eq_refl).
Defined.

(* ================================================================== *)
(** * Part VI: what the interaction phase changes, and what it leaves *)
(* ================================================================== *)

Lemma update_at_length {A : Type} (f : A -> A) (l : list A) (i : nat) :
  List.length (update_at i f l) = List.length l.
Proof.
  revert i. induction l as [| x t IH]; intros [| i]; cbn; try reflexivity.
  now rewrite IH.
Qed.

Lemma update_at_other {A : Type} (f : A -> A) (l : list A) (i j : nat) :
  i <> j -> nth_error (update_at j f l) i = nth_error l i.
Proof.
  revert i j. induction l as [| x t IH]; intros [| i] [| j] H; cbn;
    try reflexivity; try congruence.
  apply IH. congruence.
Qed.

Lemma update_at_same {A : Type} (f : A -> A) (l : list A) (j : nat) (x : A) :
  nth_error l j = Some x -> nth_error (update_at j f l) j = Some (f x).
Proof.
  revert j. induction l as [| y t IH]; intros [| j] H; cbn in *;
    try discriminate.
  - now injection H as ->.
  - now apply IH.
Qed.

Lemma positions_In (f : Person -> bool) (l : list Person) (i : nat) :
  In i (positions f l) <->
  exists p, nth_error l i = Some p /\ f p = true.
Proof.
  unfold positions. rewrite filter_In, in_seq. split.
  - intros [_ H]. destruct (nth_error l i) as [p |]; [| discriminate].
    now exists p.
  - intros (p & Hp & Hf). rewrite Hp. split; [| exact Hf].
    assert (i < List.length l)%nat by (apply nth_error_Some; congruence). lia.
Qed.

Lemma positions_nil (f : Person -> bool) (l : list Person) :
  Forall (fun p => f p = false) l -> positions f l = [].
Proof.
  intros H. destruct (positions f l) as [| i t] eqn:E; [reflexivity |].
  assert (Hi : In i (positions f l)) by (rewrite E; now left).
  apply positions_In in Hi. destruct Hi as (p & Hp & Hf).
  apply nth_error_In in Hp. rewrite Forall_forall in H.
  specialize (H p Hp). congruence.
Qed.

Lemma pick_In (pool chosen : list nat) (x : nat) :
  (forall j, In j chosen -> (j < List.length pool)%nat) ->
  In x (pick pool chosen) -> In x pool.
Proof.
  intros Hrange Hx. unfold pick in Hx. apply in_map_iff in Hx.
  destruct Hx as (j & <- & Hj). apply nth_In, Hrange, Hj.
Qed.

Section Interactions.
Context {G : RandomGen} {K : StatsCollector}.

Lemma same_config_refl (s : Simulation) : same_config s s.
Proof. unfold same_config. repeat split. Qed.

Lemma same_config_trans (s1 s2 s3 : Simulation) :
  same_config s1 s2 -> same_config s2 s3 -> same_config s1 s3.
Proof.
  unfold same_config.
  intros (A1 & A2 & A3 & A4 & A5 & A6 & A7 & A8 & A9 & A10)
         (B1 & B2 & B3 & B4 & B5 & B6 & B7 & B8 & B9 & B10).
  repeat split; congruence.
Qed.

Lemma same_frame_refl (s : Simulation) : same_frame s s.
Proof. split; [apply same_config_refl | split; reflexivity]. Qed.

Lemma same_frame_trans (s1 s2 s3 : Simulation) :
  same_frame s1 s2 -> same_frame s2 s3 -> same_frame s1 s3.
Proof.
  intros (A & A1 & A2) (B & B1 & B2).
  split; [exact (same_config_trans _ _ _ A B) | split; congruence].
Qed.

Lemma same_frame_set_random (g : rng) (s : Simulation) :
  same_frame s (set_random g s).
Proof. unfold same_frame, same_config. cbn. repeat split. Qed.

Lemma same_frame_update (g : rng) (j : nat) (f : Person -> Person)
    (s : Simulation) :
  same_frame s (set_population (update_at j f (population s)) (set_random g s)).
Proof.
  unfold same_frame, same_config. cbn. rewrite update_at_length.
  repeat split.
Qed.

(** What one contact does: nothing but a draw and, perhaps, a call of
    [infected] on the susceptible person. *)
Lemma contact_cases (i : nat) (s : Simulation) (j : nat) :
  contact i s j = s \/
  contact i s j = set_random (snd (rng_random (random s))) s \/
  contact i s j
  = set_population (update_at j infected (population s))
      (set_random (snd (rng_random (random s))) s).
Proof.
  unfold contact.
  destruct (nth_error (population s) i) as [ip |]; [| now left].
  destruct (nth_error (population s) j) as [sp |]; [| now left].
  destruct (rng_random (random s)) as [u g]. cbn [snd].
  destruct (u <? calculate_infection_chance s ip sp)%float.
  - right; right. reflexivity.
  - right; left. reflexivity.
Qed.

Lemma contact_frame (i : nat) (s : Simulation) (j : nat) :
  same_frame s (contact i s j).
Proof.
  destruct (contact_cases i s j) as [-> | [-> | ->]].
  - apply same_frame_refl.
  - apply same_frame_set_random.
  - apply same_frame_update.
Qed.

Lemma contacts_frame (i : nat) (l : list nat) (s : Simulation) :
  same_frame s (fold_left (contact i) l s).
Proof.
  revert s. induction l as [| j t IH]; intros s; cbn [fold_left].
  - apply same_frame_refl.
  - eapply same_frame_trans; [apply contact_frame | apply IH].
Qed.

(** The count asked of [sample] is within the pool. *)
Lemma num_contacts_range (s : Simulation) (ip : Person) (n : nat) (k : Z) :
  num_contacts s ip n = Ok k -> 0 <= k <= Z.of_nat n.
Proof.
  unfold num_contacts.
  destruct (if social_distancing ip
            then x <- py_mul_int_float (base_contacts s)
                        (social_distancing_rate s) ;; py_int x
            else Ok (base_contacts s)) as [c | e]; cbn [bind]; [| discriminate].
  intros H. injection H as <-. lia.
Qed.

Lemma interact_cases (pool : list nat) (s : Simulation) (i : nat)
    (s' : Simulation) :
  interact pool s i = Ok s' ->
  s' = s \/
  exists k, (k <= List.length pool)%nat /\
    s' = fold_left (contact i)
           (pick pool (fst (rng_sample (random s) (List.length pool) k)))
           (set_random (snd (rng_sample (random s) (List.length pool) k)) s).
Proof.
  unfold interact.
  destruct (nth_error (population s) i) as [ip |];
    [| intros H; injection H as <-; now left].
  destruct (num_contacts s ip (List.length pool)) as [k | e] eqn:Ek;
    cbn [bind]; [| discriminate].
  apply num_contacts_range in Ek.
  destruct (k =? 0); [intros H; injection H as <-; now left |].
  rewrite py_sample_in_range by exact Ek. cbn [bind].
  intros H. injection H as <-. right.
  exists (Z.to_nat k). split; [lia | reflexivity].
Qed.

Lemma interact_frame (pool : list nat) (s : Simulation) (i : nat)
    (s' : Simulation) :
  interact pool s i = Ok s' -> same_frame s s'.
Proof.
  intros H. destruct (interact_cases pool s i s' H) as [-> | (k & _ & ->)].
  - apply same_frame_refl.
  - eapply same_frame_trans; [apply same_frame_set_random | apply contacts_frame].
Qed.

Lemma for_each_invariant {A : Type} (P : Simulation -> Prop)
    (body : Simulation -> A -> result Simulation) (l : list A) :
  (forall s x s', P s -> body s x = Ok s' -> P s') ->
  forall s s', P s -> for_each body l s = Ok s' -> P s'.
Proof.
  intros Hbody. induction l as [| x t IH]; intros s s' Hs; cbn [for_each].
  - intros H. now injection H as <-.
  - destruct (body s x) as [s1 | e] eqn:E; cbn [bind]; [| discriminate].
    apply IH. exact (Hbody s x s1 Hs E).
Qed.

Lemma for_each_total {A : Type} (P : Simulation -> Prop)
    (body : Simulation -> A -> result Simulation) (l : list A) :
  (forall s x, P s -> exists s', body s x = Ok s' /\ P s') ->
  forall s, P s -> exists s', for_each body l s = Ok s' /\ P s'.
Proof.
  intros Hbody. induction l as [| x t IH]; intros s Hs; cbn [for_each].
  - now exists s.
  - destruct (Hbody s x Hs) as (s1 & -> & H1). cbn [bind]. now apply IH.
Qed.

Lemma interactions_frame (self after : Simulation) :
  simulate_interactions self = Ok after -> same_frame self after.
Proof.
  unfold simulate_interactions.
  apply (for_each_invariant (same_frame self)); [| apply same_frame_refl].
  intros s x s' Hs Hx.
  exact (same_frame_trans _ _ _ Hs (interact_frame _ _ _ _ Hx)).
Qed.

(** With [base_contacts] in [[0, 2 ^ 53]] and a distancing rate in [[0, 1]]
    the count of contacts is computed without an error. *)
Lemma num_contacts_total (s : Simulation) (ip : Person) (n : nat) :
  0 <= base_contacts s <= 2 ^ 53 ->
  in_unit (social_distancing_rate s) = true ->
  exists k, num_contacts s ip n = Ok k.
Proof.
  intros Hb Hr. unfold num_contacts.
  destruct (social_distancing ip); [| eexists; reflexivity].
  destruct (Z.eq_dec (base_contacts s) 0) as [E | E].
  - rewrite E, (py_int_zero_fraction _ Hr). eexists. reflexivity.
  - destruct (py_int_fraction (base_contacts s) (social_distancing_rate s)
                ltac:(lia) Hr) as (c & -> & _).
    eexists. reflexivity.
Qed.

Lemma interact_total (pool : list nat) (s : Simulation) (i : nat) :
  0 <= base_contacts s <= 2 ^ 53 ->
  in_unit (social_distancing_rate s) = true ->
  exists s', interact pool s i = Ok s'.
Proof.
  intros Hb Hr. unfold interact.
  destruct (nth_error (population s) i) as [ip |]; [| eexists; reflexivity].
  destruct (num_contacts_total s ip (List.length pool) Hb Hr) as [k Hk].
  rewrite Hk. cbn [bind].
  apply num_contacts_range in Hk.
  destruct (k =? 0); [eexists; reflexivity |].
  rewrite py_sample_in_range by exact Hk. cbn [bind].
  eexists. reflexivity.
Qed.

Lemma interactions_total (self : Simulation) :
  0 <= base_contacts self <= 2 ^ 53 ->
  in_unit (social_distancing_rate self) = true ->
  exists after,
    simulate_interactions self = Ok after /\ same_frame self after.
Proof.
  intros Hb Hr. unfold simulate_interactions.
  apply (for_each_total (fun s => same_frame self s));
    [| apply same_frame_refl].
  intros s x Hs.
  assert (Hb' : 0 <= base_contacts s <= 2 ^ 53).
  { destruct Hs as ((_ & _ & _ & _ & E & _) & _). now rewrite <- E. }
  assert (Hr' : in_unit (social_distancing_rate s) = true).
  { destruct Hs as ((_ & _ & _ & _ & _ & E & _) & _). now rewrite <- E. }
  destruct (interact_total (susceptible_population self) s x Hb' Hr') as [s' Hs'].
  exists s'. split; [exact Hs' |].
  exact (same_frame_trans _ _ _ Hs (interact_frame _ _ _ _ Hs')).
Qed.

(** X1: with [base_contacts] between 0 and [2 ^ 53] and a social distancing
    rate in [[0, 1]] (what construction checks, and a bound),
    [simulate_interactions] raises nothing: the count it asks of [sample] is
    never negative and never above the size of the pool; and it returns the
    simulation with the same number of persons, the same parameters, the
    same day and the same collector. *)
Theorem X1_interactions_succeed (self : Simulation) :
  0 <= base_contacts self <= 2 ^ 53 ->
  in_unit (social_distancing_rate self) = true ->
  exists after,
    simulate_interactions self = Ok after /\
    same_frame self after /\
    forall (pool : list nat) (s : Simulation) (ip : Person) (k : Z),
      num_contacts s ip (List.length pool) = Ok k ->
      exists drawn, py_sample (random s) (List.length pool) k = Ok drawn.
Proof.
  intros Hb Hr.
  destruct (interactions_total self Hb Hr) as (after & H1 & H2).
  exists after. split; [exact H1 |]. split; [exact H2 |].
  intros pool s ip k Hk. apply num_contacts_range in Hk.
  rewrite py_sample_in_range by exact Hk. eexists. reflexivity.
Qed.

(** The persons outside the pool are left as they are by the contacts drawn
    from the pool. *)
Lemma contact_outside (pool : list nat) (i : nat) (s : Simulation) (j x : nat) :
  In j pool -> ~ In x pool ->
  nth_error (population (contact i s j)) x = nth_error (population s) x.
Proof.
  intros Hj Hx.
  destruct (contact_cases i s j) as [-> | [-> | ->]]; try reflexivity.
  cbn [population set_population set_random].
  apply update_at_other. intros ->. contradiction.
Qed.

Lemma contacts_outside (pool : list nat) (i : nat) (l : list nat) (x : nat) :
  (forall j, In j l -> In j pool) -> ~ In x pool ->
  forall s,
    nth_error (population (fold_left (contact i) l s)) x
    = nth_error (population s) x.
Proof.
  intros Hl Hx. induction l as [| j t IH]; intros s; cbn [fold_left];
    [reflexivity |].
  rewrite IH by (intros j' Hj'; apply Hl; now right).
  apply (contact_outside pool); [apply Hl; now left | exact Hx].
Qed.

Lemma interact_outside (OK : RandomGenOK G) (pool : list nat)
    (s : Simulation) (i : nat) (s' : Simulation) (x : nat) :
  interact pool s i = Ok s' -> ~ In x pool ->
  nth_error (population s') x = nth_error (population s) x.
Proof.
  intros H Hx. destruct (interact_cases pool s i s' H) as [-> | (k & Hk & ->)];
    [reflexivity |].
  rewrite (contacts_outside pool); [reflexivity | | exact Hx].
  intros j Hj. apply (pick_In pool _ j) in Hj; [exact Hj |].
  intros j' Hj'. exact (sample_range _ _ _ _ Hk Hj').
Qed.

(** X2: [simulate_interactions] changes nobody who was not susceptible when
    the phase began: the infectious, the infected, the recovered and the
    dead are, each at their position, exactly as before. *)
Theorem X2_interactions_touch_susceptible_only (OK : RandomGenOK G)
    (self after : Simulation) (x : nat) (p : Person) :
  simulate_interactions self = Ok after ->
  nth_error (population self) x = Some p ->
  is_susceptible p = false ->
  nth_error (population after) x = Some p.
Proof.
  intros Hrun Hp Hs.
  assert (Hx : ~ In x (susceptible_population self)).
  { unfold susceptible_population. rewrite positions_In.
    intros (q & Hq & Hf). congruence. }
  rewrite <- Hp. revert Hrun. unfold simulate_interactions.
  apply (for_each_invariant
           (fun s => nth_error (population s) x = nth_error (population self) x));
    [| reflexivity].
  intros s i s' Hinv Hi.
  rewrite (interact_outside OK _ _ _ _ _ Hi Hx). exact Hinv.
Qed.

(** With nobody susceptible every infectious person is skipped. *)
Lemma interact_empty_pool (s : Simulation) (i : nat) :
  0 <= base_contacts s <= 2 ^ 53 ->
  in_unit (social_distancing_rate s) = true ->
  interact [] s i = Ok s.
Proof.
  intros Hb Hr. unfold interact.
  destruct (nth_error (population s) i) as [ip |]; [| reflexivity].
  destruct (num_contacts_total s ip (List.length (@nil nat)) Hb Hr) as [k Hk].
  rewrite Hk. cbn [bind].
  apply num_contacts_range in Hk. cbn [List.length] in Hk.
  replace k with 0 by lia. reflexivity.
Qed.

Lemma for_each_skip {A : Type} (body : Simulation -> A -> result Simulation)
    (s : Simulation) (l : list A) :
  (forall x, body s x = Ok s) -> for_each body l s = Ok s.
Proof.
  intros H. induction l as [| x t IH]; cbn [for_each]; [reflexivity |].
  rewrite H. cbn [bind]. exact IH.
Qed.

(** X3: when nobody is susceptible, or nobody is infectious,
    [simulate_interactions] does nothing at all: it returns the simulation
    as it is, and the generator in the state it was in (with
    [base_contacts] and the distancing rate as construction checks them;
    with nobody infectious, whatever they are). *)
Theorem X3_interactions_idle (self : Simulation) :
  (Forall (fun p => is_infectious p = false) (population self) ->
   simulate_interactions self = Ok self) /\
  (0 <= base_contacts self <= 2 ^ 53 ->
   in_unit (social_distancing_rate self) = true ->
   Forall (fun p => is_susceptible p = false) (population self) ->
   simulate_interactions self = Ok self).
Proof.
  unfold simulate_interactions, susceptible_population, infectious_population.
  split.
  - intros H. now rewrite (positions_nil _ _ H).
  - intros Hb Hr H. rewrite (positions_nil is_susceptible _ H).
    apply for_each_skip. intros x. now apply interact_empty_pool.
Qed.

(** *** The only thing done to a person is a call of [infected] *)

Lemma update_at_none {A : Type} (f : A -> A) (l : list A) (j x : nat) :
  nth_error l x = None -> nth_error (update_at j f l) x = None.
Proof.
  intros H. apply nth_error_None. rewrite update_at_length.
  now apply nth_error_None.
Qed.

Lemma contact_reach (l0 : list Person) (i : nat) (s : Simulation) (j x : nat) :
  match nth_error l0 x with
  | Some p => exists n, nth_error (population s) x = Some (Nat.iter n infected p)
  | None => nth_error (population s) x = None
  end ->
  match nth_error l0 x with
  | Some p => exists n,
      nth_error (population (contact i s j)) x = Some (Nat.iter n infected p)
  | None => nth_error (population (contact i s j)) x = None
  end.
Proof.
  intros H.
  destruct (contact_cases i s j) as [-> | [-> | ->]]; try exact H.
  cbn [population set_population set_random].
  destruct (nth_error l0 x) as [p |].
  - destruct H as [n Hn]. destruct (Nat.eq_dec x j) as [-> | Hx].
    + exists (S n). now rewrite (update_at_same _ _ _ _ Hn).
    + exists n. now rewrite update_at_other.
  - now apply update_at_none.
Qed.

Lemma contacts_reach (l0 : list Person) (i : nat) (l : list nat) (x : nat) :
  forall s,
  match nth_error l0 x with
  | Some p => exists n, nth_error (population s) x = Some (Nat.iter n infected p)
  | None => nth_error (population s) x = None
  end ->
  match nth_error l0 x with
  | Some p => exists n,
      nth_error (population (fold_left (contact i) l s)) x
      = Some (Nat.iter n infected p)
  | None => nth_error (population (fold_left (contact i) l s)) x = None
  end.
Proof.
  induction l as [| j t IH]; intros s H; cbn [fold_left]; [exact H |].
  apply IH. now apply contact_reach.
Qed.

(** X12: all that [simulate_interactions] does to a person is to call
    [infected] on it: whoever is in the population after the phase was at
    the same position before it, and is as it was, up to calls of
    [infected]; nobody is added, removed or moved, and no mask, distancing
    flag or dose is changed by the phase itself. *)
Theorem X12_interactions_only_infect (self after : Simulation) (x : nat)
    (p' : Person) :
  simulate_interactions self = Ok after ->
  nth_error (population after) x = Some p' ->
  exists (p : Person) (n : nat),
    nth_error (population self) x = Some p /\ p' = Nat.iter n infected p.
Proof.
  intros Hrun Hp'.
  assert (H : match nth_error (population self) x with
              | Some p => exists n,
                  nth_error (population after) x = Some (Nat.iter n infected p)
              | None => nth_error (population after) x = None
              end).
  { revert Hrun. unfold simulate_interactions.
    apply (for_each_invariant
             (fun s => match nth_error (population self) x with
                       | Some p => exists n,
                           nth_error (population s) x
                           = Some (Nat.iter n infected p)
                       | None => nth_error (population s) x = None
                       end)).
    - intros s i s' Hs Hi.
      destruct (interact_cases _ _ _ _ Hi) as [-> | (k & _ & ->)];
        [exact Hs |].
      now apply contacts_reach.
    - destruct (nth_error (population self) x) as [p |]; [| reflexivity].
      now exists 0%nat. }
  destruct (nth_error (population self) x) as [p |].
  - destruct H as [n Hn]. exists p, n. split; [reflexivity | congruence].
  - congruence.
Qed.
End Interactions.

(* ================================================================== *)
(** * Part VII: the infection chance at its bounds *)
(* ================================================================== *)

Lemma eqb_zero (x : float) : (x =? 0)%float = true -> zero_or_nan x = true.
Proof.
  rewrite FloatAxioms.eqb_spec, Prim2SF_zero. unfold zero_or_nan.
  destruct (Prim2SF x) as [s | s | | s m e]; try reflexivity;
    try destruct s; discriminate.
Qed.

Lemma zero_or_nan_mul (x a : float) :
  zero_or_nan x = true -> zero_or_nan (x * a) = true.
Proof.
  unfold zero_or_nan. rewrite FloatAxioms.mul_spec.
  destruct (Prim2SF x) as [sx | sx | | sx mx ex]; try discriminate; intros _;
    destruct (Prim2SF a) as [sa | sa | | sa ma ea]; reflexivity.
Qed.

Lemma zero_or_nan_pymin (r : float) : zero_or_nan r = true -> pymin r 1 = r.
Proof.
  unfold zero_or_nan, pymin. rewrite FloatAxioms.ltb_spec, Prim2SF_one.
  destruct (Prim2SF r) as [s | s | | s m e]; try discriminate; reflexivity.
Qed.

(** Nothing non-negative is below zero, and nothing is below NaN. *)
Lemma not_below_zero (u c : float) :
  (0 <=? u)%float = true -> zero_or_nan c = true -> (u <? c)%float = false.
Proof.
  intros Hu Hc. apply nonneg_class in Hu. unfold zero_or_nan in Hc.
  rewrite FloatAxioms.ltb_spec.
  destruct (Prim2SF c) as [sc | sc | | sc mc ec]; try discriminate;
    destruct (Prim2SF u) as [su | su | | su mu eu]; try destruct su;
    try discriminate; reflexivity.
Qed.

(** What is below one is below whatever is at least one. *)
Lemma below_one_below (u c : float) :
  (0 <=? u)%float = true -> (u <? 1)%float = true -> (1 <=? c)%float = true ->
  (u <? c)%float = true.
Proof.
  intros Hu Hlt Hle.
  assert (N1 : nonneg 1 = true) by reflexivity.
  destruct (leb_valx 1 c N1 Hle) as [Nc Vc].
  rewrite FloatAxioms.ltb_spec, SFltb_valx in Hlt
    by (apply Prim2SF_valid || now apply nonneg_class).
  rewrite FloatAxioms.ltb_spec, SFltb_valx
    by (apply Prim2SF_valid || now apply nonneg_class).
  apply Z.ltb_lt in Hlt. apply Z.ltb_lt. lia.
Qed.

(** A factor in [[0, 1]] does not take a number in [[0, 1]] above a bound
    it was under. *)
Lemma mul_le_unit (u r a : float) :
  in_unit u = true -> in_unit a = true -> (u <=? r)%float = true ->
  (u * a <=? r)%float = true.
Proof.
  intros Hu Ha Hur.
  destruct (in_unit_split u Hu) as [Nu _].
  destruct (in_unit_split a Ha) as [Na La].
  destruct (in_unit_split _ (in_unit_mul u a Hu Ha)) as [_ Lm].
  destruct (leb_not_nan _ _ Lm) as [NN _].
  destruct (leb_not_nan _ _ Hur) as [_ Nr].
  destruct (mul_mono u r a 1 Nu Na Hur La) as [H | [H | [_ H]]].
  - congruence.
  - rewrite mul_one_r in H. congruence.
  - now rewrite mul_one_r in H.
Qed.

Lemma pymin_unit (x : float) : in_unit x = true -> pymin x 1 = x.
Proof.
  intros H. destruct (in_unit_split x H) as [_ L].
  destruct (leb_not_nan _ _ L) as [Nx N1].
  rewrite (leb_total x 1 Nx N1) in L. apply negb_true_iff in L.
  unfold pymin. now rewrite L.
Qed.

Section ChanceBounds.
Context {G : RandomGen} {K : StatsCollector}.

Lemma chance_zero_or_nan (self : Simulation) (ip sp : Person) :
  zero_or_nan (infection_rate self) = true ->
  zero_or_nan (calculate_infection_chance self ip sp) = true.
Proof.
  intros H. unfold calculate_infection_chance.
  assert (H1 : zero_or_nan (apply_mask_effect self (infection_rate self) ip) = true).
  { unfold apply_mask_effect. destruct (masked ip);
      [now apply zero_or_nan_mul | exact H]. }
  assert (H2 : zero_or_nan
                 (apply_mask_effect self
                    (apply_mask_effect self (infection_rate self) ip) sp) = true).
  { unfold apply_mask_effect at 1. destruct (masked sp);
      [now apply zero_or_nan_mul | exact H1]. }
  assert (H3 : zero_or_nan
                 (apply_vaccine_effect self
                    (apply_mask_effect self
                       (apply_mask_effect self (infection_rate self) ip) sp) sp)
               = true).
  { unfold apply_vaccine_effect.
    destruct (vaccination_doses sp =? 1); [now apply zero_or_nan_mul |].
    destruct (2 <=? vaccination_doses sp);
      [now apply zero_or_nan_mul | exact H2]. }
  now rewrite zero_or_nan_pymin.
Qed.

Lemma contact_zero_rate (OK : RandomGenOK G) (i : nat) (s : Simulation)
    (j : nat) :
  zero_or_nan (infection_rate s) = true ->
  population (contact i s j) = population s.
Proof.
  intros H. unfold contact.
  destruct (nth_error (population s) i) as [ip |]; [| reflexivity].
  destruct (nth_error (population s) j) as [sp |]; [| reflexivity].
  pose proof (random_range (random s)) as [Hu _].
  destruct (rng_random (random s)) as [u g]. cbn [fst] in Hu.
  rewrite (not_below_zero u _ Hu (chance_zero_or_nan s ip sp H)).
  reflexivity.
Qed.

Lemma contacts_zero_rate (OK : RandomGenOK G) (i : nat) (l : list nat) :
  forall s, zero_or_nan (infection_rate s) = true ->
  population (fold_left (contact i) l s) = population s.
Proof.
  induction l as [| j t IH]; intros s H; cbn [fold_left]; [reflexivity |].
  rewrite IH.
  - now apply contact_zero_rate.
  - destruct (contact_frame i s j) as ((_ & E & _) & _). now rewrite <- E.
Qed.

(** X4: with an infection rate of zero nobody is infected by
    [simulate_interactions], whatever the mask and vaccine factors are
    (infinite or NaN as well): the population comes out of the phase as it
    went in. The generator is drawn from all the same. *)
Theorem X4_zero_rate_infects_nobody (OK : RandomGenOK G)
    (self after : Simulation) :
  (infection_rate self =? 0)%float = true ->
  simulate_interactions self = Ok after ->
  population after = population self.
Proof.
  intros Hz. apply eqb_zero in Hz. unfold simulate_interactions.
  intros Hrun.
  enough (H : population after = population self /\
              infection_rate after = infection_rate self) by exact (proj1 H).
  revert Hrun.
  apply (for_each_invariant
           (fun s => population s = population self /\
                     infection_rate s = infection_rate self));
    [| split; reflexivity].
  intros s i s' [Hp Hr] Hi.
  destruct (interact_cases _ _ _ _ Hi) as [-> | (k & _ & ->)];
    [split; assumption |].
  split.
  - rewrite contacts_zero_rate; [exact Hp | exact OK |].
    cbn [infection_rate set_random]. now rewrite Hr.
  - destruct (contacts_frame i
                (pick (susceptible_population self)
                   (fst (rng_sample (random s)
                           (List.length (susceptible_population self)) k)))
                (set_random
                   (snd (rng_sample (random s)
                           (List.length (susceptible_population self)) k)) s))
      as ((_ & E & _) & _).
    rewrite <- E. exact Hr.
Qed.

(** X5: a contact whose infection chance is at least 1 always calls
    [infected] on the susceptible person, since a draw is below 1. *)
Theorem X5_certain_contact (OK : RandomGenOK G) (self : Simulation)
    (i j : nat) (ip sp : Person) :
  nth_error (population self) i = Some ip ->
  nth_error (population self) j = Some sp ->
  (1 <=? calculate_infection_chance self ip sp)%float = true ->
  contact i self j
  = set_population (update_at j infected (population self))
      (set_random (snd (rng_random (random self))) self) /\
  nth_error (population (contact i self j)) j = Some (infected sp).
Proof.
  intros Hi Hj Hc.
  assert (E : contact i self j
              = set_population (update_at j infected (population self))
                  (set_random (snd (rng_random (random self))) self)).
  { unfold contact. rewrite Hi, Hj.
    pose proof (random_range (random self)) as [Hu Hlt].
    destruct (rng_random (random self)) as [u g]. cbn [fst snd] in *.
    now rewrite (below_one_below u _ Hu Hlt Hc). }
  split; [exact E |].
  rewrite E. cbn [population set_population].
  now apply update_at_same.
Qed.

(** X6: with the infection rate and the three factors in [[0, 1]], masks
    and doses never take the infection chance above the infection rate. *)
Theorem X6_chance_below_rate (self : Simulation) (ip sp : Person) :
  in_unit (infection_rate self) = true ->
  in_unit (mask_effectiveness self) = true ->
  in_unit (partial_vaccine_effectiveness self) = true ->
  in_unit (full_vaccine_effectiveness self) = true ->
  (calculate_infection_chance self ip sp <=? infection_rate self)%float = true.
Proof.
  intros Hr Hm Hp Hf.
  destruct (in_unit_split _ Hr) as [Nr _].
  pose proof (leb_refl_nonneg _ Nr) as L0.
  unfold calculate_infection_chance.
  set (r0 := infection_rate self) in *.
  set (r1 := apply_mask_effect self r0 ip).
  assert (U1 : in_unit r1 = true) by (now apply apply_mask_effect_in_unit).
  assert (L1 : (r1 <=? r0)%float = true).
  { unfold r1, apply_mask_effect. destruct (masked ip);
      [now apply mul_le_unit | exact L0]. }
  set (r2 := apply_mask_effect self r1 sp).
  assert (U2 : in_unit r2 = true) by (now apply apply_mask_effect_in_unit).
  assert (L2 : (r2 <=? r0)%float = true).
  { unfold r2, apply_mask_effect. destruct (masked sp);
      [now apply mul_le_unit | exact L1]. }
  set (r3 := apply_vaccine_effect self r2 sp).
  assert (U3 : in_unit r3 = true) by (now apply apply_vaccine_effect_in_unit).
  assert (L3 : (r3 <=? r0)%float = true).
  { unfold r3, apply_vaccine_effect.
    destruct (vaccination_doses sp =? 1); [now apply mul_le_unit |].
    destruct (2 <=? vaccination_doses sp); [now apply mul_le_unit | exact L2]. }
  now rewrite (pymin_unit r3 U3).
Qed.
End ChanceBounds.

(* ================================================================== *)
(** * Part VIII: the days of a run *)
(* ================================================================== *)

Lemma last_cons_cons {A : Type} (x : A) (l : list A) (d : A) :
  l <> [] -> last (x :: l) d = last l d.
Proof. destruct l; [congruence | reflexivity]. Qed.

Lemma days_shift (d : Z) (n : nat) :
  map (fun k => d + Z.of_nat k) (seq 0 (S n))
  = d :: map (fun k => d + 1 + Z.of_nat k) (seq 0 n).
Proof.
  cbn [seq map]. f_equal; [cbn; lia |].
  rewrite <- seq_shift, map_map. apply map_ext. intros k. lia.
Qed.

Section Days.
Context {G : RandomGen} {K : StatsCollector}.

Lemma update_people_length (inc inf : Z) (mort : float) (l : list Person) :
  forall g, List.length (fst (update_people inc inf mort g l)) = List.length l.
Proof.
  induction l as [| p t IH]; intros g; [reflexivity |].
  cbn [update_people].
  destruct (update_health_status inc inf mort g p) as [p' g1].
  specialize (IH g1).
  destruct (update_people inc inf mort g1 t) as [t' g2].
  cbn [fst List.length] in *. now rewrite IH.
Qed.

Lemma update_health_statuses_frame (s : Simulation) :
  same_frame s (update_health_statuses s).
Proof.
  unfold update_health_statuses.
  pose proof (update_people_length (incubation_period s) (infectious_period s)
                (mortality_rate s) (population s) (random s)) as H.
  destruct (update_people (incubation_period s) (infectious_period s)
              (mortality_rate s) (random s) (population s)) as [l g].
  cbn [fst] in H. unfold same_frame, same_config. cbn.
  repeat split. now rewrite H.
Qed.

Lemma fold_left_frame {A : Type} (f : Simulation -> A -> Simulation)
    (l : list A) :
  (forall s x, same_frame s (f s x)) ->
  forall s, same_frame s (fold_left f l s).
Proof.
  intros Hf. induction l as [| x t IH]; intros s; cbn [fold_left].
  - apply same_frame_refl.
  - eapply same_frame_trans; [apply Hf | apply IH].
Qed.

Lemma call_policy_frame (f : option (Simulation -> nat -> Simulation))
    (s : Simulation) (i : nat) :
  (forall policy, f = Some policy -> forall s i, same_frame s (policy s i)) ->
  same_frame s (call_policy f s i).
Proof.
  intros H. destruct f as [policy |]; cbn [call_policy].
  - exact (H policy eq_refl s i).
  - apply same_frame_refl.
Qed.

Lemma apply_policies_frame (pol : Policies) (s : Simulation) :
  policies_keep_frame pol -> same_frame s (apply_policies pol s).
Proof.
  intros (Hmask & Hdist & Hvac). unfold apply_policies.
  assert (Hloop :
    same_frame s
      (fold_left (fun self person =>
                    call_policy (dist_policy pol)
                      (call_policy (mask_policy pol) self person) person)
                 (seq 0 (List.length (population s))) s)).
  { apply fold_left_frame. intros t x.
    eapply same_frame_trans; apply call_policy_frame; assumption. }
  destruct (vac_policy pol) as [policy |]; [| exact Hloop].
  eapply same_frame_trans; [exact Hloop | exact (Hvac policy eq_refl _)].
Qed.

Lemma simulate_day_frame (pol : Policies) (s s' : Simulation) :
  policies_keep_frame pol -> simulate_day pol s = Ok s' -> same_frame s s'.
Proof.
  intros Hpol H. unfold simulate_day in H.
  apply interactions_frame in H.
  eapply same_frame_trans; [apply update_health_statuses_frame |].
  eapply same_frame_trans; [apply apply_policies_frame, Hpol | exact H].
Qed.

Lemma simulate_day_total (pol : Policies) (s : Simulation) :
  policies_keep_frame pol ->
  0 <= base_contacts s <= 2 ^ 53 ->
  in_unit (social_distancing_rate s) = true ->
  exists s', simulate_day pol s = Ok s'.
Proof.
  intros Hpol Hb Hr. unfold simulate_day.
  pose proof (same_frame_trans _ _ _ (update_health_statuses_frame s)
                (apply_policies_frame pol (update_health_statuses s) Hpol)) as F.
  destruct F as ((_ & _ & _ & _ & Eb & Er & _) & _).
  destruct (interactions_total
              (apply_policies pol (update_health_statuses s))) as (s' & Hs' & _).
  - now rewrite <- Eb.
  - now rewrite <- Er.
  - now exists s'.
Qed.

Lemma record_statistics_config (s : Simulation) :
  same_config s (record_statistics s) /\
  day (record_statistics s) = day s /\
  population (record_statistics s) = population s.
Proof.
  unfold record_statistics. destruct (statistics_collector s);
    unfold same_config; cbn; repeat split.
Qed.

Lemma set_day_config (d : Z) (s : Simulation) : same_config s (set_day d s).
Proof. unfold same_config. cbn. repeat split. Qed.

(** What construction stores. *)
Lemma init_stores (a : Args.t) (statistics : option collector) (entropy : rng)
    (self : Simulation) :
  __init__ a statistics entropy = Ok self ->
  base_contacts self = Args.base_contacts a /\
  0 <= Args.base_contacts a /\
  social_distancing_rate self = Args.social_distancing_rate a /\
  in_unit (Args.social_distancing_rate a) = true /\
  statistics_collector self = statistics /\
  day self = 0.
Proof.
  unfold __init__.
  destruct (Args.population_size a <=? 0); [discriminate |].
  destruct (resolve_initial_infected a) as [k | e0]; cbn [bind]; [| discriminate].
  destruct (negb (in_unit (Args.infection_rate a))); [discriminate |].
  destruct (Args.incubation_period a <=? 0); [discriminate |].
  destruct (Args.infectious_period a <=? 0); [discriminate |].
  destruct (Z.ltb_spec (Args.base_contacts a) 0) as [| Hb]; [discriminate |].
  destruct (in_unit (Args.social_distancing_rate a)) eqn:Hr; cbn [negb];
    [| discriminate].
  destruct (negb (in_unit (Args.mortality_rate a))); [discriminate |].
  destruct (py_sample _ _ k) as [drawn | e1]; cbn [bind]; [| discriminate].
  intros H. injection H as <-. cbn. repeat split. exact Hb.
Qed.

Lemma after_days_total (pol : Policies) :
  policies_keep_frame pol ->
  forall n self,
  0 <= base_contacts self <= 2 ^ 53 ->
  in_unit (social_distancing_rate self) = true ->
  exists s,
    after_days pol n self = Ok s /\ same_config self s /\
    day self <= day s <= day self + Z.of_nat n.
Proof.
  intros Hpol. induction n as [| n IH]; intros self Hb Hr.
  - exists self. cbn [after_days]. split; [reflexivity |].
    split; [apply same_config_refl | lia].
  - cbn [after_days].
    destruct (simulate_day_total pol self Hpol Hb Hr) as [s1 H1].
    rewrite H1.
    pose proof (simulate_day_frame pol self s1 Hpol H1) as (C1 & _ & D1).
    destruct (record_statistics_config s1) as (C2 & D2 & _).
    pose proof (same_config_trans _ _ _ C1 C2) as C12.
    destruct (negb (active_infections (record_statistics s1))).
    + exists (record_statistics s1). split; [reflexivity |].
      split; [exact C12 | lia].
    + pose proof (same_config_trans _ _ _ C12
                    (set_day_config (day (record_statistics s1) + 1)
                       (record_statistics s1))) as C3.
      destruct (IH (set_day (day (record_statistics s1) + 1) (record_statistics s1)))
        as (s & Hs & Cs & Ds).
      * destruct C3 as (_ & _ & _ & _ & E & _). now rewrite <- E.
      * destruct C3 as (_ & _ & _ & _ & _ & E & _). now rewrite <- E.
      * exists s. split; [exact Hs |].
        split; [exact (same_config_trans _ _ _ C3 Cs) |].
        cbn [day set_day] in Ds. lia.
Qed.

(** X7: a simulation that has been constructed, with [base_contacts] at
    most [2 ^ 53], never raises an error on any day, under policies that
    change only persons and the generator: after any number of days the
    simulation is there, with the parameters and the number of persons it
    was constructed with, and its day counter has advanced by at most one
    per day. *)
Theorem X7_days_succeed (pol : Policies) (a : Args.t)
    (statistics : option collector) (entropy : rng) (self : Simulation) :
  __init__ a statistics entropy = Ok self ->
  Args.base_contacts a <= 2 ^ 53 ->
  policies_keep_frame pol ->
  forall n : nat,
  exists s,
    after_days pol n self = Ok s /\ same_config self s /\
    0 <= day s <= Z.of_nat n.
Proof.
  intros Hinit Hb Hpol n.
  destruct (init_stores a statistics entropy self Hinit)
    as (E1 & P1 & E2 & P2 & _ & D0).
  destruct (after_days_total pol Hpol n self) as (s & Hs & Cs & Ds).
  - rewrite E1. lia.
  - now rewrite E2.
  - exists s. split; [exact Hs |]. split; [exact Cs | lia].
Qed.

(** X8: when [run] ends, the collector it was given has been called once
    for each day gone through and for no other: the records added are those
    of the days from the first to the last, in order, one each; the last
    day is the day counter at the end, and the last record holds the final
    population, in which nobody is infected or infectious, while in every
    record before it somebody is: the run stops on the first day that ends
    without an infection. The policies change only persons and the
    generator. *)
Theorem X8_one_record_per_day (pol : Policies) (fuel : nat)
    (self final : Simulation) (c : collector) :
  policies_keep_frame pol ->
  statistics_collector self = Some c ->
  run pol fuel self = Some (Ok final) ->
  exists records,
    statistics_collector final = Some (record_all c records) /\
    records <> [] /\
    map fst records
    = map (fun k => day self + Z.of_nat k) (seq 0 (List.length records)) /\
    day final = day self + Z.of_nat (List.length records) - 1 /\
    last (map snd records) [] = population final /\
    infection_in (population final) = false /\
    Forall (fun r => infection_in (snd r) = true) (removelast records).
Proof.
  intros Hpol. revert self c.
  induction fuel as [| fuel IH]; intros self c Hc; cbn [run]; [discriminate |].
  destruct (simulate_day pol self) as [s1 | e] eqn:H1; [| discriminate].
  pose proof (simulate_day_frame pol self s1 Hpol H1) as (_ & Ec & Ed).
  assert (E2 : record_statistics s1
               = set_statistics_collector
                   (Some (record_day c (day self) (population s1))) s1).
  { unfold record_statistics. rewrite <- Ec, Hc, <- Ed. reflexivity. }
  rewrite E2.
  change (active_infections
            (set_statistics_collector
               (Some (record_day c (day self) (population s1))) s1))
    with (infection_in (population s1)).
  destruct (infection_in (population s1)) eqn:Ea; cbn [negb].
  - intros H.
    destruct (IH (set_day
                    (day (set_statistics_collector
                            (Some (record_day c (day self) (population s1))) s1) + 1)
                    (set_statistics_collector
                       (Some (record_day c (day self) (population s1))) s1))
                 (record_day c (day self) (population s1)) eq_refl H)
      as (records & R1 & R2 & R3 & R4 & R5 & R6 & R7).
    cbn [day set_day set_statistics_collector] in R3, R4.
    exists ((day self, population s1) :: records).
    split; [exact R1 |].
    split; [discriminate |].
    split.
    { cbn [List.length map fst]. rewrite days_shift. f_equal.
      rewrite R3, <- Ed. reflexivity. }
    split.
    { cbn [List.length]. rewrite R4, <- Ed. lia. }
    split.
    { cbn [map snd]. rewrite last_cons_cons; [exact R5 |].
      destruct records; [congruence | discriminate]. }
    split; [exact R6 |].
    destruct records as [| r t]; [congruence |].
    change (removelast ((day self, population s1) :: r :: t))
      with ((day self, population s1) :: removelast (r :: t)).
    constructor; [exact Ea | exact R7].
  - intros H. injection H as <-.
    exists [(day self, population s1)]. cbn.
    repeat split; try congruence.
    + f_equal. lia.
    + lia.
    + exact Ea.
    + constructor.
Qed.

(** *** The collector is only written to *)

Lemma update_health_statuses_without (s : Simulation) :
  update_health_statuses (without_statistics s)
  = without_statistics (update_health_statuses s).
Proof.
  unfold update_health_statuses, without_statistics.
  cbn [set_statistics_collector incubation_period infectious_period
       mortality_rate random population].
  destruct (update_people _ _ _ _ _) as [l g]. reflexivity.
Qed.

Lemma fold_left_without {A : Type} (f : Simulation -> A -> Simulation)
    (l : list A) :
  (forall s x, f (without_statistics s) x = without_statistics (f s x)) ->
  forall s, fold_left f l (without_statistics s)
            = without_statistics (fold_left f l s).
Proof.
  intros Hf. induction l as [| x t IH]; intros s; cbn [fold_left];
    [reflexivity |].
  now rewrite Hf, IH.
Qed.

Lemma call_policy_without (f : option (Simulation -> nat -> Simulation))
    (s : Simulation) (i : nat) :
  (forall policy, f = Some policy ->
     forall s i, policy (without_statistics s) i = without_statistics (policy s i)) ->
  call_policy f (without_statistics s) i = without_statistics (call_policy f s i).
Proof.
  intros H. destruct f as [policy |]; cbn [call_policy]; [| reflexivity].
  exact (H policy eq_refl s i).
Qed.

Lemma apply_policies_without (pol : Policies) (s : Simulation) :
  policies_ignore_statistics pol ->
  apply_policies pol (without_statistics s)
  = without_statistics (apply_policies pol s).
Proof.
  intros (Hmask & Hdist & Hvac). unfold apply_policies.
  change (population (without_statistics s)) with (population s).
  rewrite fold_left_without.
  - destruct (vac_policy pol) as [policy |]; [| reflexivity].
    exact (Hvac policy eq_refl _).
  - intros t x. now rewrite !call_policy_without.
Qed.

Lemma contact_without (i : nat) (s : Simulation) (j : nat) :
  contact i (without_statistics s) j = without_statistics (contact i s j).
Proof.
  unfold contact.
  change (population (without_statistics s)) with (population s).
  change (random (without_statistics s)) with (random s).
  destruct (nth_error (population s) i) as [ip |]; [| reflexivity].
  destruct (nth_error (population s) j) as [sp |]; [| reflexivity].
  change (calculate_infection_chance (without_statistics s) ip sp)
    with (calculate_infection_chance s ip sp).
  destruct (rng_random (random s)) as [u g].
  destruct (u <? calculate_infection_chance s ip sp)%float; reflexivity.
Qed.

Lemma interact_without (pool : list nat) (s : Simulation) (i : nat) :
  interact pool (without_statistics s) i
  = result_map without_statistics (interact pool s i).
Proof.
  unfold interact.
  change (population (without_statistics s)) with (population s).
  change (random (without_statistics s)) with (random s).
  destruct (nth_error (population s) i) as [ip |]; [| reflexivity].
  change (num_contacts (without_statistics s) ip (List.length pool))
    with (num_contacts s ip (List.length pool)).
  destruct (num_contacts s ip (List.length pool)) as [k | e]; cbn [bind];
    [| reflexivity].
  destruct (k =? 0); [reflexivity |].
  destruct (py_sample (random s) (List.length pool) k) as [d | e]; cbn [bind];
    [| reflexivity].
  cbn [result_map]. f_equal.
  change (set_random (snd d) (without_statistics s))
    with (without_statistics (set_random (snd d) s)).
  apply fold_left_without. intros t x. apply contact_without.
Qed.

Lemma for_each_without {A : Type} (body : Simulation -> A -> result Simulation)
    (l : list A) :
  (forall s x, body (without_statistics s) x
               = result_map without_statistics (body s x)) ->
  forall s, for_each body l (without_statistics s)
            = result_map without_statistics (for_each body l s).
Proof.
  intros Hbody. induction l as [| x t IH]; intros s; cbn [for_each];
    [reflexivity |].
  rewrite Hbody. destruct (body s x) as [s1 | e]; cbn [result_map bind];
    [apply IH | reflexivity].
Qed.

Lemma simulate_day_without (pol : Policies) (s : Simulation) :
  policies_ignore_statistics pol ->
  simulate_day pol (without_statistics s)
  = result_map without_statistics (simulate_day pol s).
Proof.
  intros Hpol. unfold simulate_day.
  rewrite update_health_statuses_without, apply_policies_without by exact Hpol.
  unfold simulate_interactions, susceptible_population, infectious_population.
  change (population (without_statistics
                        (apply_policies pol (update_health_statuses s))))
    with (population (apply_policies pol (update_health_statuses s))).
  apply for_each_without. intros t x. apply interact_without.
Qed.

Lemma record_statistics_without (s : Simulation) :
  record_statistics (without_statistics s) = without_statistics s /\
  without_statistics (record_statistics s) = without_statistics s /\
  active_infections (record_statistics s) = active_infections s /\
  day (record_statistics s) = day s.
Proof.
  unfold record_statistics.
  change (statistics_collector (without_statistics s)) with (@None collector).
  destruct (statistics_collector s); repeat split.
Qed.

(** X9: the collector is written to and never read: under policies that
    do not look at it, a simulation without a collector goes, day by day,
    through the states of the same simulation with one, the collector
    apart, raises the same error if one is raised, and its [run] ends on
    the same day. *)
Theorem X9_collector_changes_nothing (pol : Policies) (self : Simulation) :
  policies_ignore_statistics pol ->
  forall n : nat,
    after_days pol n (without_statistics self)
    = result_map without_statistics (after_days pol n self) /\
    run pol n (without_statistics self)
    = option_map (result_map without_statistics) (run pol n self).
Proof.
  intros Hpol n. revert self.
  induction n as [| n IH]; intros self; cbn [after_days run];
    [split; reflexivity |].
  rewrite (simulate_day_without pol self Hpol).
  destruct (simulate_day pol self) as [s1 | e]; cbn [result_map];
    [| split; reflexivity].
  destruct (record_statistics_without s1) as (E1 & E2 & E3 & E4).
  rewrite E1, E3.
  change (active_infections (without_statistics s1))
    with (active_infections s1).
  destruct (negb (active_infections s1)).
  - cbn [option_map result_map]. rewrite E2. split; reflexivity.
  - change (set_day (day (without_statistics s1) + 1) (without_statistics s1))
      with (without_statistics (set_day (day s1 + 1) s1)).
    rewrite E4.
    replace (without_statistics (set_day (day s1 + 1) s1))
      with (without_statistics
              (set_day (day s1 + 1) (record_statistics s1))).
    + apply IH.
    + unfold record_statistics. destruct (statistics_collector s1); reflexivity.
Qed.
End Days.

(* ================================================================== *)
(** * Part IX: construction from a count *)
(* ================================================================== *)

Section ConstructionFromCount.
Context {G : RandomGen} {K : StatsCollector}.

(** With [initial_infected] an integer, construction fails with the error
    of the first violated rule and succeeds when there is none, whatever
    the size of the population. *)
Lemma init_first_violation_int (a : Args.t) (statistics : option collector)
    (entropy : rng) (i : Z) :
  Args.initial_infected a = PyInt i ->
  match first_violation a with
  | Some err => __init__ a statistics entropy = Raise err
  | None => exists self, __init__ a statistics entropy = Ok self
  end.
Proof.
  intros EI.
  unfold first_violation.
  unfold validation_rules at 1. cbn [find rule_violated rule_error].
  destruct (Args.population_size a <=? 0) eqn:H1.
  { cbn [option_map rule_error]. unfold __init__. now rewrite H1. }
  rewrite EI.
  destruct ((i <? 0) || (Args.population_size a <? i)) eqn:H2.
  - cbn [option_map rule_error]. unfold __init__, resolve_initial_infected.
    rewrite H1, EI, int_outside, H2. reflexivity.
  - assert (Hres : resolve_initial_infected a = Ok i).
    { unfold resolve_initial_infected. rewrite EI, int_outside, H2. reflexivity. }
    assert (Hk : 0 <= i <= Args.population_size a).
    { apply orb_false_iff in H2. destruct H2 as [Ha Hb].
      apply Z.ltb_ge in Ha, Hb. lia. }
    assert (Hrest :
              match option_map rule_error
                      (find (fun r => rule_violated r a) (skipn 4 validation_rules)) with
              | Some err => __init__ a statistics entropy = Raise err
              | None => exists self, __init__ a statistics entropy = Ok self
              end).
    { pose proof (init_after_resolve a statistics entropy i H1 Hres Hk) as H.
      destruct (find (fun r => rule_violated r a) (skipn 4 validation_rules));
        exact H. }
    exact Hrest.
Qed.

(** X10: when [initial_infected] is an integer, construction raises an
    error exactly when a validation rule is violated, and then the error
    of the first violated rule, for a population of any size; and a
    simulation that is constructed has as many persons as asked for, of
    whom exactly [initial_infected] are infected: those at the positions
    sampled, the others being as [Person(id=i)] made them. *)
Theorem X10_count_initially_infected (OK : RandomGenOK G) (a : Args.t)
    (statistics : option collector) (entropy : rng) (i : Z) :
  Args.initial_infected a = PyInt i ->
  (forall err, __init__ a statistics entropy = Raise err <->
               first_violation a = Some err) /\
  (first_violation a = None <->
   exists self, __init__ a statistics entropy = Ok self) /\
  (forall self : Simulation,
   __init__ a statistics entropy = Ok self ->
   0 <= i <= Args.population_size a /\
   Z.of_nat (List.length (population self)) = Args.population_size a /\
   Z.of_nat (count_infected self) = i /\
   let ids := fst (rng_sample (initial_random a entropy)
                     (Z.to_nat (Args.population_size a)) (Z.to_nat i)) in
   population self
   = map (fun j => if existsb (Nat.eqb j) ids
                   then infected (new_person (Z.of_nat j))
                   else new_person (Z.of_nat j))
         (seq 0 (Z.to_nat (Args.population_size a)))).
Proof.
  intros EI.
  pose proof (init_first_violation_int a statistics entropy i EI) as H.
  split; [| split].
  - intros err. split.
    + intros Herr. destruct (first_violation a) as [err' |].
      * congruence.
      * destruct H as [self Hs]. congruence.
    + intros Hv. rewrite Hv in H. exact H.
  - split.
    + intros Hv. rewrite Hv in H. exact H.
    + intros [self Hs]. destruct (first_violation a) as [err' |]; congruence.
  - intros self Hinit.
    destruct (init_ok_inv a statistics entropy self Hinit)
      as (Hpos & k & Hres & Hk & Hpop).
    assert (Ek : k = i).
    { unfold resolve_initial_infected in Hres. rewrite EI in Hres.
      destruct (negb ((0 <=? i) && (i <=? Args.population_size a)));
        [discriminate | now injection Hres]. }
    subst k.
    assert (Hle : (Z.to_nat i <= Z.to_nat (Args.population_size a))%nat) by lia.
    pose proof (sample_NoDup (initial_random a entropy) _ _ Hle) as Hnd.
    pose proof (sample_length (initial_random a entropy) _ _ Hle) as Hlen.
    pose proof (sample_range (initial_random a entropy)
                  (Z.to_nat (Args.population_size a)) (Z.to_nat i)) as Hrange.
    assert (Hmap : population self
                   = map (fun j =>
                            if existsb (Nat.eqb j)
                                 (fst (rng_sample (initial_random a entropy)
                                         (Z.to_nat (Args.population_size a))
                                         (Z.to_nat i)))
                            then infected (new_person (Z.of_nat j))
                            else new_person (Z.of_nat j))
                         (seq 0 (Z.to_nat (Args.population_size a)))).
    { rewrite Hpop. unfold initial_population. apply infect_all_map. }
    split; [exact Hk |]. split; [| split].
    + rewrite Hmap, length_map, length_seq. lia.
    + unfold count_infected. rewrite Hpop, count_infected_initial.
      * rewrite Hlen. lia.
      * exact Hnd.
      * intros j Hj. now apply (Hrange j Hle).
    + exact Hmap.
Qed.

(** X11: whether construction fails, and with which error, depends neither
    on the seed, nor on the state of the generator, nor on the collector. *)
Theorem X11_errors_ignore_randomness (a : Args.t)
    (statistics statistics' : option collector) (entropy entropy' : rng)
    (seed : option Z) (err : exn) :
  __init__ a statistics entropy = Raise err <->
  __init__ (Args.with_seed a seed) statistics' entropy' = Raise err.
Proof.
  unfold __init__, resolve_initial_infected, Args.with_seed.
  cbn [Args.population_size Args.initial_infected Args.infection_rate
       Args.incubation_period Args.infectious_period Args.base_contacts
       Args.social_distancing_rate Args.mortality_rate].
  destruct (Args.population_size a <=? 0); [reflexivity |].
  destruct (match Args.initial_infected a with
            | PyInt i =>
                if negb ((0 <=? i) && (i <=? Args.population_size a))
                then Raise (ValueError "Initial infected must be between 0 and population size.")
                else Ok i
            | PyFloat f =>
                if negb (in_unit f)
                then Raise (ValueError "If initial_infected is a float, it must be between 0 and 1.")
                else x <- py_mul_int_float (Args.population_size a) f ;; py_int x
            | PyOther => Raise (TypeError "initial_infected must be an int or a float.")
            end) as [k | e0]; cbn [bind]; [| reflexivity].
  destruct (negb (in_unit (Args.infection_rate a))); [reflexivity |].
  destruct (Args.incubation_period a <=? 0); [reflexivity |].
  destruct (Args.infectious_period a <=? 0); [reflexivity |].
  destruct (Args.base_contacts a <? 0); [reflexivity |].
  destruct (negb (in_unit (Args.social_distancing_rate a))); [reflexivity |].
  destruct (negb (in_unit (Args.mortality_rate a))); [reflexivity |].
  unfold py_sample.
  destruct ((k <? 0) || (Z.of_nat (Z.to_nat (Args.population_size a)) <? k));
    cbn [bind]; [reflexivity |].
  split; discriminate.
Qed.
End ConstructionFromCount.

(* ================================================================== *)
(** * Part X: the properties of parts VI to IX on examples *)
(* ================================================================== *)

Lemma mask_policies_keep_frame {G : RandomGen} {K : StatsCollector} :
  policies_keep_frame mask_policies.
Proof.
  split; [| split]; cbn [mask_policies mask_policy dist_policy vac_policy];
    try discriminate.
  intros policy H s i. injection H as <-.
  unfold mask_everyone, same_frame, same_config. cbn.
  rewrite update_at_length. repeat split.
Qed.

Lemma mask_policies_ignore_statistics {G : RandomGen} {K : StatsCollector} :
  policies_ignore_statistics mask_policies.
Proof.
  split; [| split]; cbn [mask_policies mask_policy dist_policy vac_policy];
    try discriminate.
  intros policy H s i. injection H as <-. reflexivity.
Qed.

(** X1, on an example: the interaction phase of [distancing_day]. *)
Lemma X1_interactions_succeed_witness :
  0 <= base_contacts distancing_day <= 2 ^ 53 /\
  exists after,
    simulate_interactions distancing_day = Ok after /\
    same_frame distancing_day after.
Proof.
  assert (H1 : 0 <= base_contacts distancing_day <= 2 ^ 53)
    by (split; apply Z.leb_le; reflexivity).
  split; [exact H1 |].
  destruct (@X1_interactions_succeed demo_gen demo_stats distancing_day
              H1 eq_refl) as (after & Ha & Hf & _).
  exists after. split; [exact Ha | exact Hf].
Defined.

(** X2, on an example: the infectious person of [zero_contact_day] comes
    out of the phase as it went in. *)
Lemma X2_interactions_touch_susceptible_only_witness :
  simulate_interactions zero_contact_day = Ok zero_contact_after /\
  nth_error (population zero_contact_after) 1
  = Some (set_health Infectious 0 (new_person 1)).
Proof.
  assert (H : simulate_interactions zero_contact_day = Ok zero_contact_after)
    by (vm_compute; reflexivity).
  split; [exact H |].
  exact (@X2_interactions_touch_susceptible_only demo_gen demo_stats
           demo_gen_ok zero_contact_day zero_contact_after 1%nat
           (set_health Infectious 0 (new_person 1)) H eq_refl eq_refl).
Defined.

(** X12, on an example: the susceptible person of [zero_contact_day] comes
    out of the phase as some number of calls of [infected] made it. *)
Lemma X12_interactions_only_infect_witness :
  simulate_interactions zero_contact_day = Ok zero_contact_after /\
  exists (p : Person) (n : nat),
    nth_error (population zero_contact_day) 0 = Some p /\
    infected (new_person 0) = Nat.iter n infected p.
Proof.
  assert (H : simulate_interactions zero_contact_day = Ok zero_contact_after)
    by (vm_compute; reflexivity).
  split; [exact H |].
  exact (@X12_interactions_only_infect demo_gen demo_stats zero_contact_day
           zero_contact_after 0%nat (infected (new_person 0)) H eq_refl).
Defined.

(** X4, on an example: with an infection rate of zero the two susceptible
    persons of [zero_rate_day] stay susceptible. *)
Lemma X4_zero_rate_infects_nobody_witness :
  simulate_interactions zero_rate_day = Ok zero_rate_after /\
  population zero_rate_after = population zero_rate_day.
Proof.
  assert (H : simulate_interactions zero_rate_day = Ok zero_rate_after)
    by (vm_compute; reflexivity).
  split; [exact H |].
  exact (@X4_zero_rate_infects_nobody demo_gen demo_stats demo_gen_ok
           zero_rate_day zero_rate_after eq_refl H).
Defined.

(** X5, on an example: with an infection rate of 1 and no protection the
    contact of [zero_contact_day] is infected. *)
Lemma X5_certain_contact_witness :
  nth_error (population (contact 1 zero_contact_day 0)) 0
  = Some (infected (new_person 0)).
Proof.
  exact (proj2 (@X5_certain_contact demo_gen demo_stats demo_gen_ok
                  zero_contact_day 1%nat 0%nat
                  (set_health Infectious 0 (new_person 1)) (new_person 0)
                  eq_refl eq_refl eq_refl)).
Defined.

(** X6, on an example: two masks and one dose, with the default factors. *)
Lemma X6_chance_below_rate_witness :
  in_unit 0.3%float = true /\
  (calculate_infection_chance (demo_sim 0.3 0.5 0.7 0.3)
     (demo_person true 0) (demo_person true 1) <=? 0.3)%float = true.
Proof.
  split; [reflexivity |].
  exact (X6_chance_below_rate (demo_sim 0.3 0.5 0.7 0.3)
           (demo_person true 0) (demo_person true 1)
           eq_refl eq_refl eq_refl eq_refl).
Defined.

(** X7, on an example: three days of the simulation constructed from
    [zero_contact_args], everyone putting a mask on. *)
Lemma X7_days_succeed_witness :
  @__init__ demo_gen demo_stats zero_contact_args None 0%nat
    = Ok zero_contact_start /\
  exists s,
    after_days mask_policies 3 zero_contact_start = Ok s /\
    same_config zero_contact_start s /\
    0 <= day s <= 3.
Proof.
  assert (H : @__init__ demo_gen demo_stats zero_contact_args None 0%nat
              = Ok zero_contact_start) by (vm_compute; reflexivity).
  assert (Hb : Args.base_contacts zero_contact_args <= 2 ^ 53)
    by (apply Z.leb_le; reflexivity).
  split; [exact H |].
  exact (@X7_days_succeed demo_gen demo_stats mask_policies zero_contact_args
           None 0%nat zero_contact_start H Hb mask_policies_keep_frame 3%nat).
Defined.

(** X8, on an example: the run from [recorded_start] ends on day 4, with
    five records. *)
Lemma X8_one_record_per_day_witness :
  run mask_policies 20 recorded_start = Some (Ok recorded_final) /\
  day recorded_start = 0 /\
  day recorded_final = 4 /\
  exists records,
    statistics_collector recorded_final
    = Some (@record_all demo_stats (@nil (Z * list Person)) records) /\
    map fst records = [0; 1; 2; 3; 4].
Proof.
  assert (H : run mask_policies 20 recorded_start = Some (Ok recorded_final))
    by (vm_compute; reflexivity).
  split; [exact H |]. split; [reflexivity |]. split; [reflexivity |].
  destruct (@X8_one_record_per_day demo_gen demo_stats mask_policies 20%nat
              recorded_start recorded_final (@nil (Z * list Person))
              mask_policies_keep_frame
              eq_refl H) as (records & R1 & _ & R3 & R4 & _).
  exists records. split; [exact R1 |].
  assert (Hn : List.length records = 5%nat).
  { change (day recorded_final) with 4 in R4.
    change (day recorded_start) with 0 in R4. lia. }
  rewrite R3, Hn. reflexivity.
Defined.

(** X9, on an example: five days with and without the collector. *)
Lemma X9_collector_changes_nothing_witness :
  after_days mask_policies 5 (without_statistics recorded_start)
  = result_map without_statistics (after_days mask_policies 5 recorded_start).
Proof.
  exact (proj1 (@X9_collector_changes_nothing demo_gen demo_stats
                  mask_policies recorded_start
                  mask_policies_ignore_statistics 5%nat)).
Defined.

(** X10, on an example: one of the two persons of [zero_contact_args]. *)
Lemma X10_count_initially_infected_witness :
  Args.initial_infected zero_contact_args = PyInt 1 /\
  @__init__ demo_gen demo_stats zero_contact_args None 0%nat
    = Ok zero_contact_start /\
  Z.of_nat (List.length (population zero_contact_start)) = 2 /\
  Z.of_nat (count_infected zero_contact_start) = 1.
Proof.
  assert (H : @__init__ demo_gen demo_stats zero_contact_args None 0%nat
              = Ok zero_contact_start) by (vm_compute; reflexivity).
  split; [reflexivity |]. split; [exact H |].
  destruct (proj2 (proj2 (@X10_count_initially_infected demo_gen demo_stats
                            demo_gen_ok zero_contact_args None 0%nat 1 eq_refl))
                  zero_contact_start H) as (_ & Hlen & Hcount & _).
  split; [exact Hlen | exact Hcount].
Defined.
